(** * Centralized authentication broker: trust and credential lifecycle

    A shallow embedding of the credential, token, signature and signing-key
    code of the broker, and the properties its specification states about it.

    Conventions of the embedding.
    - A database table is the list of its rows, oldest first; [findByPk]
      and [findOne] return the first row that matches, an instance
      [update] rewrites the rows carrying the instance's primary key.
    - A [Date] is the number of milliseconds since the epoch, in [Z].  One
      service call reads the clock at one instant, [now]; calendar
      arithmetic ([setHours], [setDate]) is taken in a zone without
      daylight-saving shifts, so a day is 86 400 000 ms.
    - JavaScript numbers that hold counters, versions and Unix times are
      integers of [Z].
    - Library calls (bcrypt, SHA-256, jsonwebtoken, node-rsa, speakeasy,
      [JSON.stringify]) are fields of the record [Externals], and so is
      the one behaviour of the ORM that depends on the dialect, whether
      [increment] refreshes the loaded instance; every theorem holds for
      all of them unless it says otherwise.
    - An [async] function that can throw is a computation in the monad [M]
      over the database: a thrown error keeps the writes made before it,
      as the code runs its statements outside a transaction unless it
      opens one itself.
    - The database is PostgreSQL ([dialect: 'postgres'] in
      database.config.js), where [increment] refreshes the loaded
      instance from the row that the [UPDATE] returns: the configured
      case is [orm_increment_returning = true].
    - The queries that compare dates write their operators as
      [sequelize.Op.gt], [sequelize.Op.lt], [sequelize.Op.or] and
      [sequelize.Op.not], where [sequelize] is the connection object that
      database.config.js creates with [new Sequelize(...)].  The
      operators are a property of the class, not of its instances: on the
      connection object [sequelize.Op] is [undefined], and reading
      [sequelize.Op.gt] while the [where] object is built throws a
      [TypeError] before any query is sent. *)

From Stdlib Require Import String Ascii List ZArith Bool Lia DecimalString.
Import ListNotations.

Local Open Scope string_scope.
Local Open Scope Z_scope.

(** ** JavaScript helpers *)

Module Js.

(** [!s] for a string: only the empty string is falsy. *)
Definition falsy (s : string) : bool :=
  match s with EmptyString => true | _ => false end.

(** [!v] for a value that may be [undefined] or [null]. *)
Definition falsy_opt (v : option string) : bool :=
  match v with None => true | Some s => falsy s end.

(** [a || b] on strings. *)
Definition or_else (a : option string) (b : string) : string :=
  match a with
  | Some s => if falsy s then b else s
  | None => b
  end.

(** [n || 0] on a number that may be [null]. *)
Definition num_or_zero (n : option Z) : Z :=
  match n with
  | Some v => v
  | None => 0
  end.

(** [s.split(sep)] for a one-character separator. *)
Fixpoint split (sep : ascii) (s : string) : list string :=
  match s with
  | EmptyString => [EmptyString]
  | String c rest =>
      if Ascii.eqb c sep then EmptyString :: split sep rest
      else match split sep rest with
           | [] => [String c EmptyString]
           | h :: t => String c h :: t
           end
  end.

(** [s.includes(sub)]. *)
Definition includes (sub s : string) : bool :=
  match String.index 0 sub s with Some _ => true | None => false end.

Definition is_whitespace (c : ascii) : bool :=
  let n := nat_of_ascii c in
  (Nat.eqb n 32 || Nat.eqb n 9 || Nat.eqb n 10 || Nat.eqb n 11
   || Nat.eqb n 12 || Nat.eqb n 13 || Nat.eqb n 160)%bool.

Fixpoint trimStart (s : string) : string :=
  match s with
  | String c rest => if is_whitespace c then trimStart rest else s
  | EmptyString => EmptyString
  end.

(** The value of a digit in the given radix, if it is one. *)
Definition digit_value (radix : Z) (c : ascii) : option Z :=
  let n := Z.of_nat (nat_of_ascii c) in
  let d :=
    if (48 <=? n) && (n <=? 57) then Some (n - 48)
    else if (97 <=? n) && (n <=? 122) then Some (n - 87)
    else if (65 <=? n) && (n <=? 90) then Some (n - 55)
    else None in
  match d with
  | Some v => if v <? radix then Some v else None
  | None => None
  end.

(** The longest prefix of digits, read in the radix; [None] when there is
    no digit at all. *)
Fixpoint parse_digits (radix : Z) (s : string) (acc : option Z) : option Z :=
  match s with
  | EmptyString => acc
  | String c rest =>
      match digit_value radix c with
      | Some d =>
          parse_digits radix rest
            (Some (match acc with Some a => a * radix + d | None => d end))
      | None => acc
      end
  end.

(** [parseInt(s)] with no radix argument; [None] is [NaN]. *)
Definition parseInt (s : string) : option Z :=
  let s0 := trimStart s in
  let '(sign, s1) :=
    match s0 with
    | String "-"%char r => (-1, r)
    | String "+"%char r => (1, r)
    | _ => (1, s0)
    end in
  let '(radix, s2) :=
    match s1 with
    | String "0"%char (String "x"%char r) => (16, r)
    | String "0"%char (String "X"%char r) => (16, r)
    | _ => (10, s1)
    end in
  option_map (Z.mul sign) (parse_digits radix s2 None).

(** [a > b] on numbers, false as soon as one side is [NaN]. *)
Definition gt (a b : option Z) : bool :=
  match a, b with
  | Some x, Some y => y <? x
  | _, _ => false
  end.

(** [a - b] on numbers. *)
Definition sub (a b : option Z) : option Z :=
  match a, b with
  | Some x, Some y => Some (x - y)
  | _, _ => None
  end.

(** Errors a function body can throw. *)
Inductive Error :=
| ReferenceError (message : string)
| TypeError (message : string)
| PlainError (message : string).

End Js.

(** ** Time *)

Definition ms_per_hour : Z := 3600000.
Definition ms_per_day : Z := 86400000.

(** [d.setHours(d.getHours() + h)]. *)
Definition addHours (d : Z) (h : Z) : Z := d + h * ms_per_hour.

(** [d.setDate(d.getDate() + n)]. *)
Definition addDays (d : Z) (n : Z) : Z := d + n * ms_per_day.

(** [Math.floor(ms / 1000)]. *)
Definition unix_seconds (ms : Z) : Z := ms / 1000.

(** ** Data model *)

Module Mfa.

(** The [totp] sub-record of [mfa_settings]. *)
Record Totp := mkTotp {
  secret : string;
  verified : bool;
  backup_codes : list string;
  verified_at : option Z
}.

(** [mfa_settings]; the [sms] and [email] sub-records are not read or
    written by the functions embedded here. *)
Record Settings := mkSettings {
  enabled : bool;
  preferred_method : option string;
  totp : option Totp
}.

End Mfa.

Module User.

Record t := mk {
  id : string;
  username : string;
  email : option string;
  password_hash : string;
  mfa_settings : option Mfa.Settings;
  is_active : bool;
  is_locked : bool;
  failed_attempts : Z;
  last_login : option Z
}.

End User.

Module Consumer.

Record t := mk {
  id : string;
  name : string;
  public_key : string;
  allowed_ips : option (list string);
  is_active : bool
}.

End Consumer.

Module Token.

Record Metadata := mkMetadata {
  ip_address : string;
  user_agent : option string;
  issued_at : Z
}.

Record t := mk {
  id : string;
  user_id : string;
  consumer_id : string;
  token_hash : string;
  signature : string;
  provider_key_id : string;
  expires_at : Z;
  metadata : Metadata;
  is_revoked : bool;
  revoked_at : option Z
}.

End Token.

Module ProviderKey.

(** [status], validated by [isIn: active, inactive, revoked]. *)
Inductive Status := active | inactive | revoked.

Definition status_eqb (a b : Status) : bool :=
  match a, b with
  | active, active | inactive, inactive | revoked, revoked => true
  | _, _ => false
  end.

Record t := mk {
  id : string;
  public_key : string;
  private_key_encrypted : string;
  key_algorithm : string;
  key_version : Z;
  status : Status;
  valid_from : Z;
  valid_until : option Z;
  created_by : option string
}.

End ProviderKey.

(** The persisted records the core reads and writes. *)
Record Db := mkDb {
  users : list User.t;
  consumers : list Consumer.t;
  tokens : list Token.t;
  provider_keys : list ProviderKey.t;
  user_roles : list (string * string)
}.

Definition set_users (f : list User.t -> list User.t) (db : Db) : Db :=
  mkDb (f (users db)) (consumers db) (tokens db) (provider_keys db)
       (user_roles db).

Definition set_tokens (f : list Token.t -> list Token.t) (db : Db) : Db :=
  mkDb (users db) (consumers db) (f (tokens db)) (provider_keys db)
       (user_roles db).

Definition set_provider_keys
  (f : list ProviderKey.t -> list ProviderKey.t) (db : Db) : Db :=
  mkDb (users db) (consumers db) (tokens db) (f (provider_keys db))
       (user_roles db).

(** ** Computations over the database that may throw *)

Inductive Outcome (A : Type) :=
| Returned (a : A)
| Thrown (e : Js.Error).

Arguments Returned {A} a.
Arguments Thrown {A} e.

Definition M (A : Type) : Type := Db -> Outcome A * Db.

Definition ret {A} (a : A) : M A := fun db => (Returned a, db).

Definition throw {A} (e : Js.Error) : M A := fun db => (Thrown e, db).

Definition bind {A B} (c : M A) (k : A -> M B) : M B :=
  fun db =>
    match c db with
    | (Returned a, db') => k a db'
    | (Thrown e, db') => (Thrown e, db')
    end.

(** [try { c } catch (error) { return handler(error) }]. *)
Definition try_catch {A} (c : M A) (handler : Js.Error -> A) : Db -> A * Db :=
  fun db =>
    match c db with
    | (Returned a, db') => (a, db')
    | (Thrown e, db') => (handler e, db')
    end.

Definition read {A} (q : Db -> A) : M A := fun db => (Returned (q db), db).

Definition write (f : Db -> Db) : M unit := fun db => (Returned tt, f db).

Declare Scope m_scope.
Delimit Scope m_scope with M.
Notation "x <- c ;; k" := (bind c (fun x => k))
  (at level 61, c at next level, right associativity) : m_scope.
Notation "c ;;; k" := (bind c (fun _ => k))
  (at level 61, right associativity) : m_scope.

Local Open Scope m_scope.

(** A database statement that the storage layer may refuse. *)
Definition fallible {A} (fault : option Js.Error) (c : M A) : M A :=
  match fault with
  | Some e => throw e
  | None => c
  end.

(** [sequelize.Op.<name>] on the connection object: [sequelize.Op] is
    [undefined] there, so reading a property of it throws. *)
Definition sequelize_Op (name : string) : M unit :=
  throw (Js.TypeError
           ("Cannot read properties of undefined (reading '" ++ name ++ "')")).

(** [const t = await sequelize.transaction(); try { body; await t.commit() }
    catch (error) { await t.rollback(); throw error }], for a body whose
    statements all pass [{ transaction: t }]: the statements run on a
    working copy, which replaces the stored tables at commit and is dropped
    at rollback. *)
Definition transaction {A} (commit_fault : option Js.Error) (body : M A)
  : M A :=
  fun db =>
    match body db with
    | (Returned a, working) =>
        match commit_fault with
        | None => (Returned a, working)
        | Some e => (Thrown e, db)
        end
    | (Thrown e, _) => (Thrown e, db)
    end.

(** ** Library calls and per-call inputs *)

(** The payload of the JSON web token that wraps a token record. *)
Record JwtPayload := mkJwtPayload {
  jwt_sub : string;
  jwt_username : string;
  jwt_consumer : string;
  jwt_token_id : option string;
  jwt_iat : Z;
  jwt_exp : Z
}.

Record Externals := mkExternals {
  (** [bcrypt.compare(password, hash)] *)
  bcrypt_compare : string -> string -> bool;
  (** [crypto.createHash('sha256').update(data).digest('hex')] *)
  sha256_hex : string -> string;
  (** [jwt.sign(payload, secret)] *)
  jwt_sign : JwtPayload -> string -> string;
  (** [jwt.decode(token)]: the payload, read without any check *)
  jwt_decode : string -> option JwtPayload;
  (** [jwt.verify(token, secret)] at a given clock: [false] when it throws *)
  jwt_verify : string -> string -> Z -> bool;
  (** [new NodeRSA(publicKey).verify(data, signature, 'utf8', 'base64')];
      [None] when the library throws *)
  rsa_verify : string -> string -> string -> option bool;
  (** [speakeasy.totp.verify] with [window: 1], at a given clock *)
  totp_verify : string -> string -> Z -> bool;
  (** [JSON.stringify] of an object given as its properties in insertion
      order, each value already serialised *)
  json_stringify : list (string * string) -> string;
  (** Whether [instance.increment] refreshes the in-memory instance from
      the row the [UPDATE] returns (the ORM does so on dialects with
      [RETURNING]), or leaves it as it was loaded *)
  orm_increment_returning : bool
}.

(** [process.env]. *)
Record ProcessEnv := mkProcessEnv {
  JWT_SECRET : option string
}.

(** What one call draws from its surroundings: the clock, the UUID the
    ORM gives a created row, the bytes of [crypto.randomBytes] in hex. *)
Record Runtime := mkRuntime {
  now : Z;
  fresh_uuid : string;
  random_hex : string
}.

(** ** Models *)

Module UserModel.

(** [User.findByPk]. *)
Definition findByPk (id : string) (db : Db) : option User.t :=
  find (fun u => String.eqb (User.id u) id) (users db).

(** [User.findByUsername]: [where: { username, is_active: true }]. *)
Definition findByUsername (username : string) (db : Db) : option User.t :=
  find (fun u => String.eqb (User.username u) username && User.is_active u)
       (users db).

(** [User.findWithRoles]: the user with the names of the associated roles. *)
Definition findWithRoles (id : string) (db : Db)
  : option (User.t * list string) :=
  match findByPk id db with
  | Some u =>
      Some (u, map snd (filter (fun ur => String.eqb (fst ur) id)
                               (user_roles db)))
  | None => None
  end.

(** Rewrite the rows that carry the primary key. *)
Definition update_row (id : string) (f : User.t -> User.t) (db : Db) : Db :=
  set_users (map (fun u => if String.eqb (User.id u) id then f u else u)) db.

Definition with_failed_attempts (n : Z) (u : User.t) : User.t :=
  User.mk (User.id u) (User.username u) (User.email u) (User.password_hash u)
          (User.mfa_settings u) (User.is_active u) (User.is_locked u)
          n (User.last_login u).

Definition with_is_locked (b : bool) (u : User.t) : User.t :=
  User.mk (User.id u) (User.username u) (User.email u) (User.password_hash u)
          (User.mfa_settings u) (User.is_active u) b
          (User.failed_attempts u) (User.last_login u).

Definition with_last_login (d : option Z) (u : User.t) : User.t :=
  User.mk (User.id u) (User.username u) (User.email u) (User.password_hash u)
          (User.mfa_settings u) (User.is_active u) (User.is_locked u)
          (User.failed_attempts u) d.

Definition with_mfa_settings (s : option Mfa.Settings) (u : User.t) : User.t :=
  User.mk (User.id u) (User.username u) (User.email u) (User.password_hash u)
          s (User.is_active u) (User.is_locked u)
          (User.failed_attempts u) (User.last_login u).

(** [await user.increment("failed_attempts")]:
    [UPDATE users SET failed_attempts = failed_attempts + 1 WHERE id = ...].
    The result is the in-memory instance after the call. *)
Definition increment_failed_attempts (returning : bool) (user : User.t)
  : M User.t :=
  write (update_row (User.id user)
           (fun r => with_failed_attempts (User.failed_attempts r + 1) r)) ;;;
  row <- read (findByPk (User.id user)) ;;
  ret (match returning, row with
       | true, Some r => with_failed_attempts (User.failed_attempts r) user
       | _, _ => user
       end).

(** [await user.update(fields)]: the instance takes the fields and the
    row is rewritten with them; other columns are left alone. *)
Definition update (user : User.t) (fields : User.t -> User.t) : M User.t :=
  write (update_row (User.id user) fields) ;;;
  ret (fields user).

End UserModel.

Module ConsumerModel.

Definition findByPk (id : string) (db : Db) : option Consumer.t :=
  find (fun c => String.eqb (Consumer.id c) id) (consumers db).

(** [Consumer.isIpAllowed]. *)
Definition isIpAllowed (consumerId ipAddress : string) (db : Db) : bool :=
  match findByPk consumerId db with
  | None => false
  | Some consumer =>
      if negb (Consumer.is_active consumer) then false
      else
        match Consumer.allowed_ips consumer with
        | None => true
        | Some [] => true
        | Some ips =>
            existsb (fun allowedIp =>
                       String.eqb ipAddress allowedIp
                       || Js.includes "/0" allowedIp) ips
        end
  end.

End ConsumerModel.

Module TokenModel.

Definition findByPk (id : string) (db : Db) : option Token.t :=
  find (fun t => String.eqb (Token.id t) id) (tokens db).

(** [Token.findByTokenHash]: the [where] object is built first, and
    reading [sequelize.Op.gt] for it throws; the query it was written for
    (the hash, not revoked, [expires_at > now]) is never sent. *)
Definition findByTokenHash (tokenHash : string) (now : Z)
  : M (option Token.t) :=
  sequelize_Op "gt" ;;;
  read (fun db =>
          find (fun t => String.eqb (Token.token_hash t) tokenHash
                         && negb (Token.is_revoked t)
                         && (now <? Token.expires_at t))
               (tokens db)).

(** [Token.create]: [is_revoked] and [revoked_at] take their defaults. *)
Definition create (id user_id consumer_id token_hash signature
                   provider_key_id : string) (expires_at : Z)
                  (metadata : Token.Metadata) : M Token.t :=
  let t := Token.mk id user_id consumer_id token_hash signature
                    provider_key_id expires_at metadata false None in
  write (set_tokens (fun ts => (ts ++ [t])%list)) ;;;
  ret t.

Definition mark_revoked (at_ : Z) (t : Token.t) : Token.t :=
  Token.mk (Token.id t) (Token.user_id t) (Token.consumer_id t)
           (Token.token_hash t) (Token.signature t) (Token.provider_key_id t)
           (Token.expires_at t) (Token.metadata t) true (Some at_).

Definition update_row (id : string) (f : Token.t -> Token.t) (db : Db) : Db :=
  set_tokens (map (fun t => if String.eqb (Token.id t) id then f t else t)) db.

(** [Token.revokeById]. *)
Definition revokeById (tokenId : string) (now : Z) : M bool :=
  token <- read (findByPk tokenId) ;;
  match token with
  | None => throw (Js.PlainError "Token not found")
  | Some token =>
      if Token.is_revoked token then ret false
      else
        write (update_row (Token.id token) (mark_revoked now)) ;;;
        ret true
  end.

End TokenModel.

Module ProviderKeyModel.

Import ProviderKey.

Definition findByPk (keyId : string) (db : Db) : option ProviderKey.t :=
  find (fun k => String.eqb (id k) keyId) (provider_keys db).

Definition is_active (k : ProviderKey.t) : bool := status_eqb (status k) active.

(** The first row of greatest [key_version]. *)
Fixpoint greatest_version (ks : list ProviderKey.t) : option ProviderKey.t :=
  match ks with
  | [] => None
  | k :: rest =>
      match greatest_version rest with
      | Some k' => if key_version k <? key_version k' then Some k' else Some k
      | None => Some k
      end
  end.

(** [ProviderKey.findActiveKey]: [where: { status: "active" }],
    [order: key_version DESC]. *)
Definition findActiveKey (db : Db) : option ProviderKey.t :=
  greatest_version (filter is_active (provider_keys db)).

(** [this.max("key_version")]: [null] on an empty table. *)
Definition max_key_version (db : Db) : option Z :=
  option_map key_version (greatest_version (provider_keys db)).

Definition with_status (s : Status) (k : ProviderKey.t) : ProviderKey.t :=
  mk (id k) (public_key k) (private_key_encrypted k) (key_algorithm k)
     (key_version k) s (valid_from k) (valid_until k) (created_by k).

(** The update [{ status: "inactive" }] with [where: { status: "active" }],
    on one row. *)
Definition retire (k : ProviderKey.t) : ProviderKey.t :=
  if is_active k then with_status inactive k else k.

(** The update [{ status: "revoked" }] of the instance of primary key
    [keyId], on one row. *)
Definition revoke_if (keyId : string) (k : ProviderKey.t) : ProviderKey.t :=
  if String.eqb (id k) keyId then with_status revoked k else k.

(** The statements of [rotateKey] that reach the storage layer. *)
Inductive RotateStep := BeginTx | QueryMax | UpdateActive | InsertKey | CommitTx.

Definition Faults := RotateStep -> option Js.Error.

Definition no_fault : Faults := fun _ => None.

(** [ProviderKey.rotateKey]. *)
Definition rotateKey (faults : Faults)
    (publicKey privateKeyEncrypted keyAlgorithm : string)
    (createdBy : option string) (rt : Runtime) : M ProviderKey.t :=
  fallible (faults BeginTx) (
    transaction (faults CommitTx) (
      maxVersionResult <- fallible (faults QueryMax) (read max_key_version) ;;
      let newVersion := Js.num_or_zero maxVersionResult + 1 in
      fallible (faults UpdateActive)
        (write (set_provider_keys (map retire))) ;;;
      let validFrom := now rt in
      let validUntil := addDays (now rt) 90 in
      let newKey := mk (fresh_uuid rt) publicKey privateKeyEncrypted
                       keyAlgorithm newVersion active validFrom
                       (Some validUntil) createdBy in
      fallible (faults InsertKey)
        (write (set_provider_keys (fun ks => (ks ++ [newKey])%list))) ;;;
      ret newKey)).

(** [ProviderKey.revokeKey]; [fault] is the storage layer refusing the
    update. *)
Definition revokeKey (fault : option Js.Error) (keyId : string)
    (updatedBy : option string) : M bool :=
  key <- read (findByPk keyId) ;;
  match key with
  | None => throw (Js.PlainError "Key not found")
  | Some key =>
      fallible fault
        (write (set_provider_keys (map (revoke_if (id key))))) ;;;
      ret true
  end.

End ProviderKeyModel.

(** ** Authentication service *)

(** [{ username, password, mfa_code }], as the login controller builds it. *)
Record Credentials := mkCredentials {
  cred_username : string;
  cred_password : string;
  cred_mfa_code : option string
}.

(** [{ consumerId, ipAddress, userAgent, signatureHeader }]. *)
Record Context := mkContext {
  ctx_consumerId : string;
  ctx_ipAddress : string;
  ctx_userAgent : option string;
  ctx_signatureHeader : option string
}.

(** The [user] object of a successful result. *)
Record UserView := mkUserView {
  view_id : string;
  view_username : string;
  view_email : option string;
  view_roles : list string
}.

(** What [authenticateUser] returns. *)
Inductive AuthResult :=
| AuthFailure (code message : string)
| AuthMfaRequired (message : string) (user_id username : string)
                  (mfaMethod : option string)
| AuthSuccess (token : string) (expiresAt : Z) (user : UserView).

Definition auth_success (r : AuthResult) : bool :=
  match r with AuthSuccess _ _ _ => true | _ => false end.

Definition auth_code (r : AuthResult) : option string :=
  match r with
  | AuthFailure code _ => Some code
  | AuthMfaRequired _ _ _ _ => Some "MFA_REQUIRED"
  | AuthSuccess _ _ _ => None
  end.

(** What [verifyToken] returns. *)
Inductive VerifyResult :=
| VerifyFailure (code message : string)
| VerifySuccess (user : UserView).


(** What [revokeToken] returns. *)
Inductive RevokeResult :=
| RevokeFailure (code message : string)
| RevokeSuccess (message : string).

Definition revoke_success (r : RevokeResult) : bool :=
  match r with RevokeSuccess _ => true | RevokeFailure _ _ => false end.

(** The verifiers [authenticateUser] imports from the MFA service at run
    time; each yields the [success] field of its result. *)
Record MfaVerifiers := mkMfaVerifiers {
  verifyTOTP : string -> string -> M bool;
  verifySMSOTP : string -> string -> M bool;
  verifyEmailOTP : string -> string -> M bool
}.

(** The names that resolve where the body of [authenticateUser] reads its
    second factor: the globals the module uses, its imports and exports,
    the parameters, and the constants declared before that point. *)
Definition authenticateUser_scope : list string :=
  [ "console"; "process"; "JSON"; "Date"; "Math"; "Buffer";
    "jwt"; "UserModel"; "TokenModel"; "ConsumerModel"; "ProviderKeyModel";
    "verifyPassword"; "signData"; "generateRandomToken"; "hashData";
    "verifySignature"; "logger";
    "authenticateUser"; "verifyToken"; "revokeToken";
    "revokeAllTokensForUser"; "hasPermission";
    "credentials"; "context"; "username"; "password";
    "consumerId"; "ipAddress"; "userAgent"; "signatureHeader";
    "consumer"; "user"; "passwordMatch" ].

(** Reading an identifier: its value when the name is bound, a
    [ReferenceError] otherwise (the module is an ES module, so strict). *)
Definition read_identifier {A} (scope : list string) (name : string)
    (value : A) : M A :=
  if existsb (String.eqb name) scope then ret value
  else throw (Js.ReferenceError (name ++ " is not defined")).

Section AuthService.

Variable ext : Externals.
Variable env : ProcessEnv.
Variable mfa : MfaVerifiers.

(** [process.env.JWT_SECRET || "default-jwt-secret"]. *)
Definition jwt_secret : string :=
  Js.or_else (JWT_SECRET env) "default-jwt-secret".

(** [consumer.allowed_ips && consumer.allowed_ips.length > 0]. *)
Definition has_allowed_ips (consumer : Consumer.t) : bool :=
  match Consumer.allowed_ips consumer with
  | Some (_ :: _) => true
  | _ => false
  end.

(** [user.mfa_settings && user.mfa_settings.enabled]. *)
Definition mfa_enabled (user : User.t) : bool :=
  match User.mfa_settings user with
  | Some s => Mfa.enabled s
  | None => false
  end.

(** The second-factor block of [authenticateUser]; [Some r] is an early
    [return r], [None] falls through to token issuance. *)
Definition authenticateUser_mfa (credentials : Credentials) (user : User.t)
    (settings : Mfa.Settings) : M (option AuthResult) :=
  mfa_code <- read_identifier authenticateUser_scope "mfa_code"
                (cred_mfa_code credentials) ;;
  if Js.falsy_opt mfa_code then
    ret (Some (AuthMfaRequired "MFA code diperlukan" (User.id user)
                 (User.username user) (Mfa.preferred_method settings)))
  else
    let code := match mfa_code with Some c => c | None => "" end in
    let method := match Mfa.preferred_method settings with
                  | Some m => m
                  | None => ""
                  end in
    mfaVerified <-
      (if String.eqb method "totp" then verifyTOTP mfa (User.id user) code
       else if String.eqb method "sms" then
         verifySMSOTP mfa (User.id user) code
       else if String.eqb method "email" then
         verifyEmailOTP mfa (User.id user) code
       else ret false) ;;
    if negb mfaVerified then
      ret (Some (AuthFailure "INVALID_MFA" "Kode MFA tidak valid"))
    else ret None.

(** Token issuance, the tail of [authenticateUser]. *)
Definition authenticateUser_issue (rt : Runtime) (context : Context)
    (consumer : Consumer.t) (user : User.t) : M AuthResult :=
  user <- UserModel.update user
            (fun r => UserModel.with_last_login (Some (now rt))
                        (UserModel.with_failed_attempts 0 r)) ;;
  providerKey <- read ProviderKeyModel.findActiveKey ;;
  match providerKey with
  | None =>
      ret (AuthFailure "CONFIGURATION_ERROR"
             "System configuration error: No active signing key")
  | Some providerKey =>
      let tokenValue := random_hex rt in
      let tokenHash := sha256_hex ext tokenValue in
      let expiresAt := addHours (now rt) 1 in
      let signature := "" in
      token <- TokenModel.create (fresh_uuid rt) (User.id user)
                 (Consumer.id consumer) tokenHash
                 (Js.or_else (Some signature) "simulated-signature")
                 (ProviderKey.id providerKey) expiresAt
                 (Token.mkMetadata (ctx_ipAddress context)
                    (ctx_userAgent context) (now rt)) ;;
      let jwtPayload :=
        mkJwtPayload (User.id user) (User.username user)
          (Consumer.name consumer) (Some (Token.id token))
          (unix_seconds (now rt)) (unix_seconds expiresAt) in
      let jwtToken := jwt_sign ext jwtPayload jwt_secret in
      userWithRoles <- read (UserModel.findWithRoles (User.id user)) ;;
      match userWithRoles with
      | None =>
          throw (Js.TypeError
                   "Cannot read properties of null (reading 'Roles')")
      | Some (_, roles) =>
          ret (AuthSuccess jwtToken expiresAt
                 (mkUserView (User.id user) (User.username user)
                    (User.email user) roles))
      end
  end.

(** The [try] block of [authenticateUser]. *)
Definition authenticateUser_body (rt : Runtime) (credentials : Credentials)
    (context : Context) : M AuthResult :=
  let username := cred_username credentials in
  let password := cred_password credentials in
  let consumerId := ctx_consumerId context in
  let ipAddress := ctx_ipAddress context in
  if Js.falsy username || Js.falsy password then
    ret (AuthFailure "INVALID_CREDENTIALS"
           "Username and password are required")
  else
    consumer <- read (ConsumerModel.findByPk consumerId) ;;
    match consumer with
    | None =>
        ret (AuthFailure "INVALID_CONSUMER" "Invalid or inactive API consumer")
    | Some consumer =>
        if negb (Consumer.is_active consumer) then
          ret (AuthFailure "INVALID_CONSUMER"
                 "Invalid or inactive API consumer")
        else
          (* if (signatureHeader) { the check is switched off: only a
             console.log is left } *)
          isAllowed <-
            (if has_allowed_ips consumer then
               read (ConsumerModel.isIpAllowed consumerId ipAddress)
             else ret true) ;;
          if negb isAllowed then
            ret (AuthFailure "UNAUTHORIZED_IP"
                   "Access from this IP address is not allowed")
          else
            user <- read (UserModel.findByUsername username) ;;
            match user with
            | None =>
                ret (AuthFailure "INVALID_USER" "Invalid username or password")
            | Some user =>
                if User.is_locked user then
                  ret (AuthFailure "ACCOUNT_LOCKED"
                         "Account is locked. Please contact administrator")
                else
                  let passwordMatch :=
                    bcrypt_compare ext password (User.password_hash user) in
                  if negb passwordMatch then
                    user <- UserModel.increment_failed_attempts
                              (orm_increment_returning ext) user ;;
                    if 5 <=? User.failed_attempts user + 1 then
                      UserModel.update user (UserModel.with_is_locked true) ;;;
                      ret (AuthFailure "ACCOUNT_LOCKED"
                             "Too many failed attempts. Account has been locked")
                    else
                      ret (AuthFailure "INVALID_PASSWORD"
                             "Invalid username or password")
                  else
                    early <-
                      (match User.mfa_settings user with
                       | Some settings =>
                           if Mfa.enabled settings then
                             authenticateUser_mfa credentials user settings
                           else ret None
                       | None => ret None
                       end) ;;
                    match early with
                    | Some result => ret result
                    | None => authenticateUser_issue rt context consumer user
                    end
            end
    end.

(** [authenticateUser]: the body, with every thrown error turned into
    [SYSTEM_ERROR] by the [catch]. *)
Definition authenticateUser (rt : Runtime) (credentials : Credentials)
    (context : Context) : Db -> AuthResult * Db :=
  try_catch (authenticateUser_body rt credentials context)
    (fun _ => AuthFailure "SYSTEM_ERROR" "An internal system error occurred").

(** The [try] block of [verifyToken]. *)
Definition verifyToken_body (rt : Runtime) (token consumerId : string)
    : M VerifyResult :=
  match jwt_decode ext token with
  | None => ret (VerifyFailure "INVALID_TOKEN" "Invalid token format")
  | Some decoded =>
      match jwt_token_id decoded with
      | None => ret (VerifyFailure "INVALID_TOKEN" "Invalid token format")
      | Some token_id =>
          if Js.falsy token_id then
            ret (VerifyFailure "INVALID_TOKEN" "Invalid token format")
          else if negb (jwt_verify ext token jwt_secret (now rt)) then
            ret (VerifyFailure "INVALID_SIGNATURE" "Invalid token signature")
          else
            tokenRecord <- read (TokenModel.findByPk token_id) ;;
            match tokenRecord with
            | None => ret (VerifyFailure "TOKEN_NOT_FOUND" "Token not found")
            | Some tokenRecord =>
                if Token.is_revoked tokenRecord then
                  ret (VerifyFailure "TOKEN_REVOKED" "Token has been revoked")
                else if Token.expires_at tokenRecord <? now rt then
                  ret (VerifyFailure "TOKEN_EXPIRED" "Token has expired")
                else if negb (String.eqb (Token.consumer_id tokenRecord)
                                         consumerId) then
                  ret (VerifyFailure "CONSUMER_MISMATCH"
                         "Token was not issued to this consumer")
                else
                  user <- read (UserModel.findWithRoles
                                  (Token.user_id tokenRecord)) ;;
                  match user with
                  | None =>
                      ret (VerifyFailure "USER_UNAVAILABLE"
                             "User not found or inactive")
                  | Some (user, roles) =>
                      if negb (User.is_active user) then
                        ret (VerifyFailure "USER_UNAVAILABLE"
                               "User not found or inactive")
                      else
                        ret (VerifySuccess
                               (mkUserView (User.id user) (User.username user)
                                  (User.email user) roles))
                  end
            end
      end
  end.

(** [verifyToken]. *)
Definition verifyToken (rt : Runtime) (token consumerId : string)
    : Db -> VerifyResult * Db :=
  try_catch (verifyToken_body rt token consumerId)
    (fun _ => VerifyFailure "SYSTEM_ERROR" "An internal system error occurred").

(** [revokeToken] of the authentication service. *)
Definition revokeToken (rt : Runtime) (tokenId : string)
    : Db -> RevokeResult * Db :=
  try_catch
    (revoked <- TokenModel.revokeById tokenId (now rt) ;;
     if negb revoked then
       ret (RevokeFailure "TOKEN_NOT_FOUND"
              "Token not found or already revoked")
     else ret (RevokeSuccess "Token successfully revoked"))
    (fun _ => RevokeFailure "SYSTEM_ERROR" "An internal system error occurred").

End AuthService.



(** ** Token service *)

(** What [validateTokenFromHeader] returns. *)
Inductive HeaderResult :=
| HeaderFailure (code message : string)
| HeaderSuccess (token : Token.t) (user : User.t).

Section TokenService.

Variable ext : Externals.

(** [validateTokenFromHeader]. *)
Definition validateTokenFromHeader (rt : Runtime)
    (tokenHeader : option string) : Db -> HeaderResult * Db :=
  try_catch
    (match tokenHeader with
     | None =>
         ret (HeaderFailure "TOKEN_MISSING" "Authentication token is missing")
     | Some header =>
         if Js.falsy header then
           ret (HeaderFailure "TOKEN_MISSING"
                  "Authentication token is missing")
         else
           match Js.split " " header with
           | [bearer; tokenValue] =>
               if negb (String.eqb bearer "Bearer") then
                 ret (HeaderFailure "INVALID_TOKEN_FORMAT"
                        "Invalid token format")
               else
                 let tokenHash := sha256_hex ext tokenValue in
                 token <- TokenModel.findByTokenHash tokenHash (now rt) ;;
                 match token with
                 | None =>
                     ret (HeaderFailure "TOKEN_NOT_FOUND"
                            "Token not found or expired")
                 | Some token =>
                     user <- read (UserModel.findByPk (Token.user_id token)) ;;
                     match user with
                     | None =>
                         ret (HeaderFailure "USER_INACTIVE" "User is inactive")
                     | Some user =>
                         if negb (User.is_active user) then
                           ret (HeaderFailure "USER_INACTIVE"
                                  "User is inactive")
                         else ret (HeaderSuccess token user)
                     end
                 end
           | _ =>
               ret (HeaderFailure "INVALID_TOKEN_FORMAT" "Invalid token format")
           end
     end)
    (fun _ => HeaderFailure "SYSTEM_ERROR" "An internal system error occurred").

End TokenService.

(** ** Crypto service *)

(** [verifySignature]: a throwing library call is logged and counts as an
    invalid signature. *)
Definition verifySignature (ext : Externals) (data signature publicKey : string)
    : bool :=
  match rsa_verify ext data signature publicKey with
  | Some valid => valid
  | None => false
  end.

(** ** Request-signature middleware *)

(** The parts of the Express request the middleware reads; [req_body]
    lists the properties of [req.body] in [Object.keys] order, each value
    as its JSON text. *)
Record Request := mkRequest {
  req_x_signature : option string;
  req_method : string;
  req_originalUrl : string;
  req_body : option (list (string * string));
  req_consumer : option Consumer.t
}.

(** How the middleware leaves: [next()] with [req.signatureVerified] set,
    or an error response. *)
Inductive SignatureOutcome :=
| SigNext (signatureVerified : bool)
| SigError (code message : string).

(** [Object.keys(body).sort()] followed by the rebuild of the object. *)
Fixpoint insert_by_key (p : string * string) (l : list (string * string))
    : list (string * string) :=
  match l with
  | [] => [p]
  | q :: rest =>
      if String.leb (fst p) (fst q) then p :: l
      else q :: insert_by_key p rest
  end.

Definition sort_by_key (l : list (string * string)) : list (string * string) :=
  fold_right insert_by_key [] l.

(** [5 * 60]. *)
Definition timeThreshold : Z := 5 * 60.

(** [verifyRequestSignature]. *)
Definition verifyRequestSignature (ext : Externals) (now : Z) (req : Request)
    : SignatureOutcome :=
  match req_x_signature req with
  | None => SigNext false
  | Some signature =>
      if Js.falsy signature then SigNext false
      else
        match Js.split ":" signature with
        | [signatureValue; timestamp; nonce] =>
            let signatureTime := Js.parseInt timestamp in
            let currentTime := unix_seconds now in
            if Js.gt (Js.sub (Some currentTime) signatureTime)
                     (Some timeThreshold) then
              SigError "UNAUTHORIZED" "Tanda tangan sudah kedaluwarsa"
            else
              let bodyStr :=
                match req_body req with
                | Some (p :: ps) => json_stringify ext (sort_by_key (p :: ps))
                | _ => ""
                end in
              let signatureData :=
                timestamp ++ ":" ++ nonce ++ ":" ++ req_method req ++ ":"
                ++ req_originalUrl req ++ ":" ++ bodyStr in
              match req_consumer req with
              | None =>
                  (* req.consumer.public_key throws; the catch answers *)
                  SigError "INTERNAL_ERROR"
                    "Terjadi kesalahan saat memverifikasi tanda tangan"
              | Some consumer =>
                  let isValid :=
                    verifySignature ext signatureData signatureValue
                      (Consumer.public_key consumer) in
                  if negb isValid then
                    SigError "UNAUTHORIZED" "Tanda tangan tidak valid"
                  else SigNext true
              end
        | _ => SigError "UNAUTHORIZED" "Format tanda tangan tidak valid"
        end
  end.

(** ** MFA service *)

(** [Math.random()]: the k-th draw of a call, as the numerator of a
    fraction over [random_resolution]; a draw [r] stands for the number
    [r / random_resolution] of the interval from 0 to 1. *)
Definition RandomSource : Type := nat -> Z.

Definition random_resolution : Z := 9007199254740992.

(** [Math.floor(Math.random() * n)]. *)
Definition random_below (draw : Z) (n : Z) : Z :=
  (draw * n) / random_resolution.

(** A draw that [Math.random] can return: at least 0, below 1. *)
Definition in_unit_interval (draw : Z) : Prop :=
  0 <= draw < random_resolution.

(** [s[i]] appended to a string: the character, or the text of
    [undefined] outside the string. *)
Definition char_at (s : string) (i : Z) : string :=
  match (if i <? 0 then None else String.get (Z.to_nat i) s) with
  | Some c => String c EmptyString
  | None => "undefined"
  end.

Definition backup_code_chars : string :=
  "0123456789ABCDEFGHIJKLMNOPQRSTUVWXYZ".

(** The loop [for (let i = 0; i < 10; i++)] of [generateBackupCode], with
    [n] rounds left; [pos] counts the draws taken so far. *)
Fixpoint generateBackupCode_loop (rnd : RandomSource) (n : nat) (i : Z)
    (pos : nat) (code : string) : string * nat :=
  match n with
  | O => (code, pos)
  | S n' =>
      if i =? 5 then
        generateBackupCode_loop rnd n' (i + 1) pos (code ++ "-")
      else
        generateBackupCode_loop rnd n' (i + 1) (S pos)
          (code ++ char_at backup_code_chars
                     (random_below (rnd pos)
                        (Z.of_nat (String.length backup_code_chars))))
  end.

(** [generateBackupCode]: the code, and the position in the random
    source after it. *)
Definition generateBackupCode (rnd : RandomSource) (pos : nat)
    : string * nat :=
  generateBackupCode_loop rnd 10 0 pos "".

(** [for (let i = 0; i < 10; i++) backupCodes.push(generateBackupCode())],
    with [n] rounds left. *)
Fixpoint generateBackupCodes (rnd : RandomSource) (n : nat) (pos : nat)
    (backupCodes : list string) : list string * nat :=
  match n with
  | O => (backupCodes, pos)
  | S n' =>
      let '(code, pos') := generateBackupCode rnd pos in
      generateBackupCodes rnd n' pos' (backupCodes ++ [code])%list
  end.

(** What [verifyAndEnableTOTP] returns. *)
Inductive EnableResult :=
| EnableFailure (code message : string)
| EnableSuccess (backupCodes : list string) (message : string).

(** [verifyAndEnableTOTP]. *)
Definition verifyAndEnableTOTP (ext : Externals) (rnd : RandomSource)
    (rt : Runtime) (userId token : string) : Db -> EnableResult * Db :=
  try_catch
    (user <- read (UserModel.findByPk userId) ;;
     match user with
     | None => ret (EnableFailure "USER_NOT_FOUND" "User tidak ditemukan")
     | Some user =>
         let mfaSettings :=
           match User.mfa_settings user with
           | Some s => s
           | None => Mfa.mkSettings false None None
           end in
         match Mfa.totp mfaSettings with
         | None =>
             ret (EnableFailure "TOTP_NOT_SETUP"
                    "TOTP belum di-setup, silakan setup terlebih dahulu")
         | Some totp =>
             if Js.falsy (Mfa.secret totp) then
               ret (EnableFailure "TOTP_NOT_SETUP"
                      "TOTP belum di-setup, silakan setup terlebih dahulu")
             else if Mfa.verified totp && Mfa.enabled mfaSettings then
               ret (EnableFailure "TOTP_ALREADY_VERIFIED"
                      "TOTP sudah diverifikasi sebelumnya")
             else
               let verified :=
                 totp_verify ext (Mfa.secret totp) token (now rt) in
               if negb verified then
                 ret (EnableFailure "INVALID_TOKEN"
                        "Token TOTP tidak valid atau kedaluwarsa")
               else
                 let backupCodes := fst (generateBackupCodes rnd 10 0 []) in
                 let mfaSettings' :=
                   Mfa.mkSettings true (Some "totp")
                     (Some (Mfa.mkTotp (Mfa.secret totp) true backupCodes
                              (Some (now rt)))) in
                 UserModel.update user
                   (UserModel.with_mfa_settings (Some mfaSettings')) ;;;
                 ret (EnableSuccess backupCodes
                        "TOTP berhasil diaktifkan. Simpan backup codes dengan aman.")
         end
     end)
    (fun _ => EnableFailure "SYSTEM_ERROR"
                "Terjadi kesalahan saat verifikasi TOTP").

(** A character of the alphabet of backup codes. *)
Definition backup_code_char (c : ascii) : Prop :=
  exists i, String.get i backup_code_chars = Some c.

Definition all_backup_code_chars (s : string) : Prop :=
  forall i c, String.get i s = Some c -> backup_code_char c.

(** Two groups of [m] and of [n] characters of the alphabet, joined by a
    hyphen; the documented format [XXXXX-XXXXX] is [grouped 5 5]. *)
Definition grouped (m n : nat) (code : string) : Prop :=
  exists a b,
    code = a ++ "-" ++ b
    /\ String.length a = m /\ String.length b = n
    /\ all_backup_code_chars a /\ all_backup_code_chars b.

(** ** Sequences of operations *)

(** One login attempt: what the call draws, the credentials, the context. *)
Definition Attempt : Type := Runtime * Credentials * Context.

(** Login attempts made one after the other, each on the database the
    previous one left. *)
Fixpoint authenticate_all (ext : Externals) (env : ProcessEnv)
    (mfa : MfaVerifiers) (attempts : list Attempt) (db : Db)
    : list AuthResult * Db :=
  match attempts with
  | [] => ([], db)
  | (rt, credentials, context) :: rest =>
      let '(r, db1) := authenticateUser ext env mfa rt credentials context db in
      let '(rs, db2) := authenticate_all ext env mfa rest db1 in
      (r :: rs, db2)
  end.

(** The operations on provider keys, with the faults the storage layer
    injects into each. *)
Inductive KeyOp :=
| OpRotate (faults : ProviderKeyModel.Faults)
           (publicKey privateKeyEncrypted keyAlgorithm : string)
           (createdBy : option string) (rt : Runtime)
| OpRevoke (fault : option Js.Error) (keyId : string)
           (updatedBy : option string).

Definition run_key_op (op : KeyOp) (db : Db) : Db :=
  match op with
  | OpRotate faults publicKey privateKeyEncrypted keyAlgorithm createdBy rt =>
      snd (ProviderKeyModel.rotateKey faults publicKey privateKeyEncrypted
             keyAlgorithm createdBy rt db)
  | OpRevoke fault keyId updatedBy =>
      snd (ProviderKeyModel.revokeKey fault keyId updatedBy db)
  end.

Definition run_key_ops (ops : list KeyOp) (db : Db) : Db :=
  fold_left (fun d op => run_key_op op d) ops db.

(** The key that [rotateKey] inserts. *)
Definition rotated_in (publicKey privateKeyEncrypted keyAlgorithm : string)
    (createdBy : option string) (rt : Runtime) (db : Db) : ProviderKey.t :=
  ProviderKey.mk (fresh_uuid rt) publicKey privateKeyEncrypted keyAlgorithm
    (Js.num_or_zero (ProviderKeyModel.max_key_version db) + 1)
    ProviderKey.active (now rt) (Some (now rt + 90 * ms_per_day)) createdBy.

(** The table that a completed [rotateKey] leaves. *)
Definition rotated (publicKey privateKeyEncrypted keyAlgorithm : string)
    (createdBy : option string) (rt : Runtime) (db : Db) : Db :=
  set_provider_keys
    (fun ks =>
       (map ProviderKeyModel.retire ks
        ++ [rotated_in publicKey privateKeyEncrypted keyAlgorithm createdBy
              rt db])%list) db.

(** The number of rows whose status is [active]. *)
Definition count_active (ks : list ProviderKey.t) : nat :=
  length (filter ProviderKeyModel.is_active ks).

(** ** Sample data

    A concrete instance of the library calls and a small database, on
    which the model runs by computation. *)

Module Sample.

Definition token_id_text (p : JwtPayload) : string :=
  match jwt_token_id p with Some t => t | None => "" end.

(** The text with its colons turned into dots, so that it can sit in a
    signature header. *)
Fixpoint dotted (s : string) : string :=
  match s with
  | EmptyString => EmptyString
  | String c rest =>
      String (if Ascii.eqb c ":" then "."%char else c) (dotted rest)
  end.

(** Library calls with transparent stand-ins: a hash is its input with a
    tag, a web token spells out its record id and the secret it was
    signed with, a signature spells out the data and the key. *)
Definition ext (returning : bool) : Externals :=
  mkExternals
    (fun password hash => String.eqb hash ("bcrypt$" ++ password))
    (fun data => "sha256:" ++ data)
    (fun payload secret => "jwt." ++ token_id_text payload ++ "." ++ secret)
    (fun token =>
       match Js.split "." token with
       | [_; tid; _] => Some (mkJwtPayload "" "" "" (Some tid) 0 0)
       | _ => None
       end)
    (fun token secret _ =>
       match Js.split "." token with
       | [_; _; s] => String.eqb s secret
       | _ => false
       end)
    (fun data signature publicKey =>
       Some (String.eqb signature
               ("signed[" ++ dotted data ++ "]by[" ++ publicKey ++ "]")))
    (fun _ token _ => String.eqb token "123456")
    (fun props =>
       "{" ++ String.concat "," (map (fun p => fst p ++ ":" ++ snd p) props)
       ++ "}")
    returning.


Definition env : ProcessEnv := mkProcessEnv None.

Definition mfa : MfaVerifiers :=
  mkMfaVerifiers (fun _ _ => ret true) (fun _ _ => ret true)
                 (fun _ _ => ret true).

Definition portal : Consumer.t :=
  Consumer.mk "c-1" "portal" "portal-public-key" (Some []) true.

Definition backoffice : Consumer.t :=
  Consumer.mk "c-2" "backoffice" "backoffice-public-key" None true.

Definition alice (failed : Z) : User.t :=
  User.mk "u-1" "alice" None "bcrypt$correct horse" None true false failed None.

Definition carol : User.t :=
  User.mk "u-3" "carol" None "bcrypt$staple"
          (Some (Mfa.mkSettings true (Some "totp")
                   (Some (Mfa.mkTotp "JBSWY3DPEHPK3PXP" true [] None))))
          true false 0 None.

Definition dave : User.t :=
  User.mk "u-4" "dave" None "bcrypt$battery"
          (Some (Mfa.mkSettings false None
                   (Some (Mfa.mkTotp "JBSWY3DPEHPK3PXP" false [] None))))
          true false 0 None.

Definition key1 : ProviderKey.t :=
  ProviderKey.mk "k-1" "pub-1" "enc-1" "RSA-2048" 1 ProviderKey.active
                 0 (Some 7776000000) None.

Definition key0 : ProviderKey.t :=
  ProviderKey.mk "k-0" "pub-0" "enc-0" "RSA-2048" 0 ProviderKey.revoked
                 0 (Some 7776000000) None.

Definition token_a : Token.t :=
  Token.mk "t-a" "u-1" "c-1" "sha256:aaaa" "simulated-signature" "k-1"
           5000000 (Token.mkMetadata "10.0.0.1" None 1400000) false None.

Definition token_b : Token.t :=
  Token.mk "t-b" "u-4" "c-1" "sha256:bbbb" "simulated-signature" "k-1"
           5000000 (Token.mkMetadata "10.0.0.2" None 1400000) false None.

Definition db (failed : Z) : Db :=
  mkDb [alice failed; carol; dave] [portal; backoffice] [token_a; token_b]
       [key0; key1] [("u-1", "admin"); ("u-4", "auditor")].

Definition rt (t : Z) (uuid : string) : Runtime := mkRuntime t uuid "c0ffee".

Definition login (user password : string) : Credentials :=
  mkCredentials user password None.

Definition from_portal : Context := mkContext "c-1" "10.0.0.1" None None.

(** A random source that walks through the alphabet. *)
Definition rnd : RandomSource :=
  fun k => (Z.of_nat k mod 36) * (random_resolution / 36)
           + random_resolution / 72.

End Sample.

(** ** Conditions on a login attempt *)

(** The account can be reached through the context: the user name is
    present, the consumer exists, is active and admits the caller's
    address, the user name selects the active row [user], which is the row
    of its primary key and is not locked. *)
Definition account_reachable (username : string) (context : Context)
    (user : User.t) (db : Db) : Prop :=
  Js.falsy username = false /\
  (exists consumer,
     ConsumerModel.findByPk (ctx_consumerId context) db = Some consumer /\
     Consumer.is_active consumer = true /\
     (has_allowed_ips consumer = true ->
      ConsumerModel.isIpAllowed (ctx_consumerId context)
        (ctx_ipAddress context) db = true)) /\
  UserModel.findByUsername username db = Some user /\
  UserModel.findByPk (User.id user) db = Some user /\
  User.is_locked user = false.

(** The attempt passes every check that [authenticateUser] makes before
    it compares the password, and [user] is the row the password is
    compared against. *)
Definition reaches_password_check (credentials : Credentials)
    (context : Context) (user : User.t) (db : Db) : Prop :=
  account_reachable (cred_username credentials) context user db /\
  Js.falsy (cred_password credentials) = false.

(** The row after one more failure is counted on it. *)
Definition count_failure (r : User.t) : User.t :=
  UserModel.with_failed_attempts (User.failed_attempts r + 1) r.

(** An attempt for the given user name, through the given context, with a
    password that does not match the given hash. *)
Definition wrong_password_for (ext : Externals) (username : string)
    (context : Context) (password_hash : string) (a : Attempt) : Prop :=
  let '(_, credentials, context') := a in
  cred_username credentials = username /\
  context' = context /\
  Js.falsy (cred_password credentials) = false /\
  bcrypt_compare ext (cred_password credentials) password_hash = false.

(** ** Token model and token service: bulk operations and issuance *)

Module TokenSweep.

(** The rows [revokeAllForUser] updates: the user's, not revoked,
    [expires_at > now]. *)
Definition live_for_user (userId : string) (now : Z) (t : Token.t) : bool :=
  String.eqb (Token.user_id t) userId
  && negb (Token.is_revoked t)
  && (now <? Token.expires_at t).

(** [Token.findActiveTokensByUser]: reading [sequelize.Op.gt] for the
    [where] object throws; the query was written for the live rows of the
    user, newest first ([order: created_at DESC] on a table kept oldest
    first). *)
Definition findActiveTokensByUser (userId : string) (now : Z)
    : M (list Token.t) :=
  sequelize_Op "gt" ;;;
  read (fun db => rev (filter (live_for_user userId now) (tokens db))).

(** [Token.revokeAllForUser]: reading [sequelize.Op.gt] for the [where]
    object throws; the statement was written as one [UPDATE], whose row
    count is returned. *)
Definition revokeAllForUser (userId : string) (now : Z) : M nat :=
  sequelize_Op "gt" ;;;
  count <- read (fun db =>
             length (filter (live_for_user userId now) (tokens db))) ;;
  write (set_tokens
           (map (fun t => if live_for_user userId now t
                          then TokenModel.mark_revoked now t else t))) ;;;
  ret count.

(** The rows [revokeByConsumerAndUser] updates. *)
Definition live_for_pair (consumerId userId : string) (now : Z) (t : Token.t)
    : bool :=
  String.eqb (Token.consumer_id t) consumerId
  && String.eqb (Token.user_id t) userId
  && negb (Token.is_revoked t)
  && (now <? Token.expires_at t).

(** [Token.revokeByConsumerAndUser], which throws in the same way. *)
Definition revokeByConsumerAndUser (consumerId userId : string) (now : Z)
    : M nat :=
  sequelize_Op "gt" ;;;
  count <- read (fun db =>
             length (filter (live_for_pair consumerId userId now)
                            (tokens db))) ;;
  write (set_tokens
           (map (fun t => if live_for_pair consumerId userId now t
                          then TokenModel.mark_revoked now t else t))) ;;;
  ret count.

(** The rows [cleanupExpired] destroys: [expires_at < cutoff], or revoked
    with [revoked_at < cutoff]; a null [revoked_at] compares false. *)
Definition purgeable (cutoffDate : Z) (t : Token.t) : bool :=
  (Token.expires_at t <? cutoffDate)
  || (Token.is_revoked t
      && match Token.revoked_at t with
         | Some at_ => at_ <? cutoffDate
         | None => false
         end).

(** [Token.cleanupExpired(olderThanDays = 30)]: the first key of the
    [where] object is [sequelize.Op.or], and reading it throws. *)
Definition cleanupExpired (olderThanDays : option Z) (now : Z) : M nat :=
  let days := match olderThanDays with Some d => d | None => 30 end in
  let cutoffDate := addDays now (- days) in
  sequelize_Op "or" ;;;
  count <- read (fun db => length (filter (purgeable cutoffDate) (tokens db))) ;;
  write (set_tokens (filter (fun t => negb (purgeable cutoffDate t)))) ;;;
  ret count.

End TokenSweep.

(** What the bulk operations of the services return. *)
Inductive CountResult :=
| CountFailure (code message : string)
| CountSuccess (count : nat).

(** [revokeAllTokensForUser] of the authentication service (and
    [revokeAllUserTokens] of the token service, which differs in its log
    line only). *)
Definition revokeAllTokensForUser (rt : Runtime) (userId : string)
    : Db -> CountResult * Db :=
  try_catch
    (count <- TokenSweep.revokeAllForUser userId (now rt) ;;
     ret (CountSuccess count))
    (fun _ => CountFailure "SYSTEM_ERROR" "An internal system error occurred").

(** [cleanupExpiredTokens(olderThanDays = 30)] of the token service. *)
Definition cleanupExpiredTokens (rt : Runtime) (olderThanDays : option Z)
    : Db -> CountResult * Db :=
  try_catch
    (count <- TokenSweep.cleanupExpired
                (Some (match olderThanDays with Some d => d | None => 30 end))
                (now rt) ;;
     ret (CountSuccess count))
    (fun _ => CountFailure "SYSTEM_ERROR" "An internal system error occurred").

(** What [createToken] returns: [{ id, value, expiresAt }] on success. *)
Inductive CreateResult :=
| CreateFailure (code message : string)
| CreateSuccess (id value : string) (expiresAt : Z).

(** [createToken] of the token service.  [signatureSuffix] is the second
    draw of [generateRandomToken]; the free-form [metadata] object is kept
    in the slots of [Token.Metadata], its [created_at] in [issued_at]. *)
Definition createToken (ext : Externals) (rt : Runtime)
    (signatureSuffix : string) (userId consumerId : string)
    (ip_address : string) (user_agent : option string)
    : Db -> CreateResult * Db :=
  try_catch
    (user <- read (UserModel.findByPk userId) ;;
     match user with
     | None => ret (CreateFailure "INVALID_USER" "User not found or inactive")
     | Some user =>
         if negb (User.is_active user) || User.is_locked user then
           ret (CreateFailure "INVALID_USER" "User not found or inactive")
         else
           consumer <- read (ConsumerModel.findByPk consumerId) ;;
           match consumer with
           | None =>
               ret (CreateFailure "INVALID_CONSUMER"
                      "API consumer not found or inactive")
           | Some consumer =>
               if negb (Consumer.is_active consumer) then
                 ret (CreateFailure "INVALID_CONSUMER"
                        "API consumer not found or inactive")
               else
                 providerKey <- read ProviderKeyModel.findActiveKey ;;
                 match providerKey with
                 | None =>
                     ret (CreateFailure "CONFIGURATION_ERROR"
                            "System configuration error: No active signing key")
                 | Some providerKey =>
                     let tokenValue := random_hex rt in
                     let tokenHash := sha256_hex ext tokenValue in
                     let expiresAt := addHours (now rt) 1 in
                     let signature :=
                       "simulated-signature-" ++ signatureSuffix in
                     token <- TokenModel.create (fresh_uuid rt) userId
                                consumerId tokenHash signature
                                (ProviderKey.id providerKey) expiresAt
                                (Token.mkMetadata ip_address user_agent
                                   (now rt)) ;;
                     ret (CreateSuccess (Token.id token) tokenValue expiresAt)
                 end
           end
     end)
    (fun _ => CreateFailure "SYSTEM_ERROR" "An internal system error occurred").

(** ** Rows written by a successful login *)

(** The update [{ failed_attempts: 0, last_login: new Date() }]. *)
Definition login_reset (now : Z) (r : User.t) : User.t :=
  UserModel.with_last_login (Some now) (UserModel.with_failed_attempts 0 r).

(** The token row that [authenticateUser] creates. *)
Definition issued_token (ext : Externals) (rt : Runtime) (context : Context)
    (consumer : Consumer.t) (user : User.t) (key : ProviderKey.t) : Token.t :=
  Token.mk (fresh_uuid rt) (User.id user) (Consumer.id consumer)
    (sha256_hex ext (random_hex rt)) "simulated-signature"
    (ProviderKey.id key) (now rt + 3600000)
    (Token.mkMetadata (ctx_ipAddress context) (ctx_userAgent context) (now rt))
    false None.

(** What [authenticateUser] leaves of a user row whatever it does: the
    identity, the credentials and the second-factor settings, and a lock
    once it is set. *)
Definition row_kept (r r' : User.t) : Prop :=
  User.id r' = User.id r
  /\ User.username r' = User.username r
  /\ User.email r' = User.email r
  /\ User.password_hash r' = User.password_hash r
  /\ User.mfa_settings r' = User.mfa_settings r
  /\ User.is_active r' = User.is_active r
  /\ (User.is_locked r = true -> User.is_locked r' = true).

(** The request passes the checks on the credentials and on the
    consumer, which come before the user is looked up. *)
Definition consumer_admits (credentials : Credentials) (context : Context)
    (db : Db) : Prop :=
  Js.falsy (cred_username credentials) = false
  /\ Js.falsy (cred_password credentials) = false
  /\ exists consumer,
       ConsumerModel.findByPk (ctx_consumerId context) db = Some consumer
       /\ Consumer.is_active consumer = true
       /\ (has_allowed_ips consumer = true ->
           ConsumerModel.isIpAllowed (ctx_consumerId context)
             (ctx_ipAddress context) db = true).

(** What a login may change between two states of the database: nothing
    of the consumers, the provider keys and the role assignments; token
    rows are only appended; user rows keep what [row_kept] says. *)
Definition login_frame (db db' : Db) : Prop :=
  consumers db' = consumers db
  /\ provider_keys db' = provider_keys db
  /\ user_roles db' = user_roles db
  /\ (exists added, tokens db' = (tokens db ++ added)%list)
  /\ (exists g, users db' = map g (users db)
                /\ forall r, row_kept r (g r)).

(** ** More sample data *)

Module Fixture.

(** A locked account and a deactivated one. *)
Definition erin : User.t :=
  User.mk "u-5" "erin" None "bcrypt$tr0ub4dor" None true true 5 None.

Definition frank : User.t :=
  User.mk "u-6" "frank" None "bcrypt$hunter2" None false false 0 None.

Definition db : Db :=
  mkDb [Sample.alice 2; erin; frank] [Sample.portal; Sample.backoffice]
       [Sample.token_a] [Sample.key0; Sample.key1] [("u-1", "admin")].

(** The same database once the only active key is revoked. *)
Definition db_without_key : Db :=
  mkDb [Sample.alice 2; erin; frank] [Sample.portal; Sample.backoffice]
       [Sample.token_a]
       [Sample.key0; ProviderKeyModel.with_status ProviderKey.revoked Sample.key1]
       [("u-1", "admin")].

Definition portal_admits (credentials : Credentials) : Prop :=
  consumer_admits credentials Sample.from_portal db.

End Fixture.

(** ** Key service *)

(** [process.env], as the key service reads it. *)
Record KeyEnv := mkKeyEnv {
  KEY_PASSPHRASE : option string;
  KEY_STORAGE_PATH : option string
}.

(** The calls of the crypto service that sign with a stored key; [None]
    is the call throwing. *)
Record KeyCrypto := mkKeyCrypto {
  (** [decryptPrivateKey(encryptedPrivateKey, passphrase)] *)
  decryptPrivateKey : string -> string -> option string;
  (** [signData(data, privateKey)] *)
  signData : string -> string -> option string
}.

(** What one [rotateProviderKey] draws from its surroundings: the clock
    and the row id, the key pair that [generateRsaKeyPair(bits)] makes,
    the encryption of the private key under a fresh vector ([None] where
    the call throws), and the faults of the disk and of the storage
    layer.  The files that the call writes under [KEY_STORAGE_PATH] are
    not part of the database and are not kept. *)
Record KeyRun := mkKeyRun {
  run_rt : Runtime;
  run_generateRsaKeyPair : Z -> option (string * string);
  run_encryptPrivateKey : string -> string -> option string;
  run_disk_fault : option Js.Error;
  run_faults : ProviderKeyModel.Faults
}.

(** The [options] of [rotateProviderKey]. *)
Record RotateOptions := mkRotateOptions {
  opt_keyAlgorithm : option string;
  opt_passphrase : option string;
  opt_validDays : option Z
}.

(** The [key] object of a result; its [created_at] reads a column the
    model does not have, and is absent. *)
Record KeyView := mkKeyView {
  kv_id : string;
  kv_public_key : string;
  kv_key_algorithm : string;
  kv_key_version : Z;
  kv_status : ProviderKey.Status;
  kv_valid_from : Z;
  kv_valid_until : option Z
}.

Definition key_view (key : ProviderKey.t) : KeyView :=
  mkKeyView (ProviderKey.id key) (ProviderKey.public_key key)
    (ProviderKey.key_algorithm key) (ProviderKey.key_version key)
    (ProviderKey.status key) (ProviderKey.valid_from key)
    (ProviderKey.valid_until key).

Inductive KeyResult :=
| KeyFailure (code message : string)
| KeySuccess (key : KeyView).

Inductive KeyRevokeResult :=
| KeyRevokeFailure (code message : string)
| KeyRevokeSuccess (message : string).

Inductive SignResult :=
| SignFailure (code message : string)
| SignSuccess (signature keyId : string) (keyVersion : Z) (algorithm : string).

Inductive RotationSweep :=
| SweepFailure (code message : string)
| SweepSuccess (message : string) (rotated : nat).

(** A call of the crypto service: its value, or the error it throws. *)
Definition crypto_call {A} (r : option A) (message : string) : M A :=
  match r with
  | Some a => ret a
  | None => throw (Js.PlainError message)
  end.

(** [getActiveProviderKey]; [fault] is the storage layer refusing the
    query. *)
Definition getActiveProviderKey (fault : option Js.Error)
  : Db -> KeyResult * Db :=
  try_catch
    (key <- fallible fault (read ProviderKeyModel.findActiveKey) ;;
     match key with
     | None => ret (KeyFailure "KEY_NOT_FOUND" "No active provider key found")
     | Some key => ret (KeySuccess (key_view key))
     end)
    (fun _ => KeyFailure "SYSTEM_ERROR" "An internal system error occurred").

(** [rotateProviderKey]. *)
Definition rotateProviderKey (env : KeyEnv) (run : KeyRun)
    (options : RotateOptions) (adminId : option string)
  : Db -> KeyResult * Db :=
  let keyAlgorithm :=
    match opt_keyAlgorithm options with Some a => a | None => "RSA-2048" end in
  let passphrase :=
    match opt_passphrase options with
    | Some p => p
    | None => Js.or_else (KEY_PASSPHRASE env) "default-passphrase"
    end in
  try_catch
    (pair <- crypto_call
               (run_generateRsaKeyPair run
                  (if String.eqb keyAlgorithm "RSA-4096" then 4096 else 2048))
               "Failed to generate RSA key pair" ;;
     let publicKey := fst pair in
     let privateKey := snd pair in
     privateKeyEncrypted <-
       crypto_call (run_encryptPrivateKey run privateKey passphrase)
         "Failed to encrypt data" ;;
     (if Js.falsy_opt (KEY_STORAGE_PATH env) then ret tt
      else fallible (run_disk_fault run) (ret tt)) ;;;
     newKey <- ProviderKeyModel.rotateKey (run_faults run) publicKey
                 privateKeyEncrypted keyAlgorithm adminId (run_rt run) ;;
     ret (KeySuccess (key_view newKey)))
    (fun _ => KeyFailure "SYSTEM_ERROR" "An internal system error occurred").

(** [revokeProviderKey]. *)
Definition revokeProviderKey (fault : option Js.Error) (keyId : string)
    (adminId : option string) : Db -> KeyRevokeResult * Db :=
  try_catch
    (revoked <- ProviderKeyModel.revokeKey fault keyId adminId ;;
     if negb revoked
     then ret (KeyRevokeFailure "KEY_NOT_FOUND"
                 "Key not found or already revoked")
     else ret (KeyRevokeSuccess "Key successfully revoked"))
    (fun _ =>
       KeyRevokeFailure "SYSTEM_ERROR" "An internal system error occurred").

(** [signWithProviderKey(data, { keyId, passphrase })]; [fault] is the
    storage layer refusing the query. *)
Definition signWithProviderKey (crypto : KeyCrypto) (env : KeyEnv)
    (fault : option Js.Error) (data : string) (keyId : option string)
    (passphrase : option string) : Db -> SignResult * Db :=
  let passphrase :=
    match passphrase with
    | Some p => p
    | None => Js.or_else (KEY_PASSPHRASE env) "default-passphrase"
    end in
  try_catch
    (key <- fallible fault
              (match keyId with
               | Some keyId =>
                   if Js.falsy keyId then read ProviderKeyModel.findActiveKey
                   else read (ProviderKeyModel.findByPk keyId)
               | None => read ProviderKeyModel.findActiveKey
               end) ;;
     match key with
     | None => ret (SignFailure "KEY_NOT_FOUND" "Signing key not found")
     | Some key =>
         if negb (ProviderKey.status_eqb (ProviderKey.status key)
                    ProviderKey.active)
         then ret (SignFailure "KEY_INACTIVE" "Signing key is not active")
         else
           privateKey <-
             crypto_call
               (decryptPrivateKey crypto
                  (ProviderKey.private_key_encrypted key) passphrase)
               "Failed to decrypt data" ;;
           signature <- crypto_call (signData crypto data privateKey)
                          "Failed to sign data" ;;
           ret (SignSuccess signature (ProviderKey.id key)
                  (ProviderKey.key_version key)
                  (ProviderKey.key_algorithm key))
     end)
    (fun _ => SignFailure "SIGNING_ERROR" "Failed to sign data").

(** The rows that the [where] of [checkAndRotateExpiringKeys] was written
    for: an active key whose [valid_until] is set and lies strictly
    between [now] and [warningDate]. *)
Definition expiring (now warningDate : Z) (key : ProviderKey.t) : bool :=
  ProviderKeyModel.is_active key
  && match ProviderKey.valid_until key with
     | Some u => (u <? warningDate) && (now <? u)
     | None => false
     end.

(** The loop of [checkAndRotateExpiringKeys] over the keys found, the
    [i]-th pass rotating with what [runs i] supplies. *)
Fixpoint rotate_each (env : KeyEnv) (runs : nat -> KeyRun)
    (adminId : option string) (i : nat) (expiringKeys : list ProviderKey.t)
    (rotated : nat) (db : Db) : nat * Db :=
  match expiringKeys with
  | [] => (rotated, db)
  | key :: rest =>
      let (result, db') :=
        rotateProviderKey env (runs i)
          (mkRotateOptions (Some (ProviderKey.key_algorithm key)) None None)
          adminId db in
      rotate_each env runs adminId (S i) rest
        (match result with
         | KeySuccess _ => S rotated
         | KeyFailure _ _ => rotated
         end) db'
  end.

(** [checkAndRotateExpiringKeys]: the [where] object of the query for the
    expiring keys reads [sequelize.Op.not] first, which throws, so the
    query and the loop after it are never reached; [fault] is the storage
    layer refusing that query. *)
Definition checkAndRotateExpiringKeys (env : KeyEnv) (rt : Runtime)
    (runs : nat -> KeyRun) (fault : option Js.Error)
    (adminId : option string) : Db -> RotationSweep * Db :=
  let warningDays := 10 in
  let warningDate := addDays (now rt) warningDays in
  try_catch
    (sequelize_Op "not" ;;;
     expiringKeys <-
       fallible fault
         (read (fun db => filter (expiring (now rt) warningDate)
                            (provider_keys db))) ;;
     if (length expiringKeys =? 0)%nat
     then ret (SweepSuccess "No keys need rotation" 0)
     else
       fun db =>
         let (rotated, db') :=
           rotate_each env runs adminId 0 expiringKeys 0 db in
         (Returned
            (SweepSuccess
               ("Rotated " ++ NilZero.string_of_uint (Nat.to_uint rotated)
                ++ " expiring keys")
               rotated),
          db'))
    (fun _ =>
       SweepFailure "SYSTEM_ERROR" "An internal system error occurred").

(** The invariant of the key table: at most one row is active, and no two
    rows carry the same version. *)
Definition key_table_ok (db : Db) : Prop :=
  (count_active (provider_keys db) <= 1)%nat
  /\ NoDup (map ProviderKey.key_version (provider_keys db)).

(** Sample crypto calls and rotation inputs. *)
Module KeyFixture.

Definition crypto : KeyCrypto :=
  mkKeyCrypto
    (fun encrypted passphrase =>
       if String.eqb passphrase "default-passphrase"
       then Some ("plain:" ++ encrypted) else None)
    (fun data privateKey => Some (data ++ "/" ++ privateKey)).

Definition env : KeyEnv := mkKeyEnv None None.

Definition run (t : Z) (uuid : string) : KeyRun :=
  mkKeyRun (Sample.rt t uuid)
    (fun bits => Some ("pub-" ++ uuid, "priv-" ++ uuid))
    (fun privateKey passphrase => Some ("enc:" ++ privateKey))
    None ProviderKeyModel.no_fault.

Definition runs (t : Z) (i : nat) : KeyRun :=
  run t (match i with O => "k-2" | _ => "k-3" end).

End KeyFixture.

(** ** MFA service: verification, disabling, new backup codes *)

Module MfaService.

(** What [verifyTOTP] returns; [usedBackupCode] is [true] where the
    result carries the property. *)
Inductive TotpResult :=
| TotpFailure (code message : string)
| TotpSuccess (usedBackupCode : bool) (message : string).

(** What [disableMFA] returns. *)
Inductive DisableResult :=
| DisableFailure (code message : string)
| DisableSuccess (message : string).

(** What [regenerateBackupCodes] returns. *)
Inductive CodesResult :=
| CodesFailure (code message : string)
| CodesSuccess (backupCodes : list string) (message : string).

(** [user.mfa_settings || {}]. *)
Definition settings_or_empty (user : User.t) : Mfa.Settings :=
  match User.mfa_settings user with
  | Some s => s
  | None => Mfa.mkSettings false None None
  end.

(** The [totp] record once [mfaSettings.enabled], [mfaSettings.totp] and
    [mfaSettings.totp.verified] are all truthy. *)
Definition enabled_totp (mfaSettings : Mfa.Settings) : option Mfa.Totp :=
  if negb (Mfa.enabled mfaSettings) then None
  else
    match Mfa.totp mfaSettings with
    | None => None
    | Some totp => if negb (Mfa.verified totp) then None else Some totp
    end.

(** [await user.update({ mfa_settings: mfaSettings })] where
    [mfaSettings] is the object the loaded instance holds, changed in
    place.  The ORM writes the attributes it finds changed, and whether it
    finds an object changed that is still the same object is not fixed by
    the code: [writes] says whether it does. *)
Definition update_in_place (writes : bool) (user : User.t)
    (mfaSettings : Mfa.Settings) : M unit :=
  if writes then
    UserModel.update user (UserModel.with_mfa_settings (Some mfaSettings)) ;;;
    ret tt
  else ret tt.

(** [verifyAndEnableTOTP], with the update of the settings, which the
    function changes in place, under [writes]. *)
Definition verifyAndEnableTOTP (ext : Externals) (writes : bool)
    (rnd : RandomSource) (rt : Runtime) (userId token : string)
  : Db -> EnableResult * Db :=
  try_catch
    (user <- read (UserModel.findByPk userId) ;;
     match user with
     | None => ret (EnableFailure "USER_NOT_FOUND" "User tidak ditemukan")
     | Some user =>
         let mfaSettings := settings_or_empty user in
         match Mfa.totp mfaSettings with
         | None =>
             ret (EnableFailure "TOTP_NOT_SETUP"
                    "TOTP belum di-setup, silakan setup terlebih dahulu")
         | Some totp =>
             if Js.falsy (Mfa.secret totp) then
               ret (EnableFailure "TOTP_NOT_SETUP"
                      "TOTP belum di-setup, silakan setup terlebih dahulu")
             else if Mfa.verified totp && Mfa.enabled mfaSettings then
               ret (EnableFailure "TOTP_ALREADY_VERIFIED"
                      "TOTP sudah diverifikasi sebelumnya")
             else
               let verified :=
                 totp_verify ext (Mfa.secret totp) token (now rt) in
               if negb verified then
                 ret (EnableFailure "INVALID_TOKEN"
                        "Token TOTP tidak valid atau kedaluwarsa")
               else
                 let backupCodes := fst (generateBackupCodes rnd 10 0 []) in
                 update_in_place writes user
                   (Mfa.mkSettings true (Some "totp")
                      (Some (Mfa.mkTotp (Mfa.secret totp) true backupCodes
                               (Some (now rt))))) ;;;
                 ret (EnableSuccess backupCodes
                        "TOTP berhasil diaktifkan. Simpan backup codes dengan aman.")
         end
     end)
    (fun _ => EnableFailure "SYSTEM_ERROR"
                "Terjadi kesalahan saat verifikasi TOTP").

(** [verifyTOTP]. *)
Definition verifyTOTP (ext : Externals) (writes : bool) (rt : Runtime)
    (userId token : string) : Db -> TotpResult * Db :=
  try_catch
    (user <- read (UserModel.findByPk userId) ;;
     match user with
     | None => ret (TotpFailure "USER_NOT_FOUND" "User tidak ditemukan")
     | Some user =>
         let mfaSettings := settings_or_empty user in
         match enabled_totp mfaSettings with
         | None =>
             ret (TotpFailure "TOTP_NOT_ENABLED"
                    "TOTP tidak diaktifkan untuk user ini")
         | Some totp =>
             if existsb (String.eqb token) (Mfa.backup_codes totp) then
               let backup_codes :=
                 filter (fun code => negb (String.eqb code token))
                        (Mfa.backup_codes totp) in
               update_in_place writes user
                 (Mfa.mkSettings (Mfa.enabled mfaSettings)
                    (Mfa.preferred_method mfaSettings)
                    (Some (Mfa.mkTotp (Mfa.secret totp) (Mfa.verified totp)
                             backup_codes (Mfa.verified_at totp)))) ;;;
               ret (TotpSuccess true "Backup code valid dan telah digunakan")
             else
               let verified :=
                 totp_verify ext (Mfa.secret totp) token (now rt) in
               if negb verified then
                 ret (TotpFailure "INVALID_TOKEN"
                        "Token TOTP tidak valid atau kedaluwarsa")
               else ret (TotpSuccess false "Token TOTP valid")
         end
     end)
    (fun _ => TotpFailure "SYSTEM_ERROR"
                "Terjadi kesalahan saat verifikasi TOTP").

(** [disableMFA].  The new settings are a fresh object, so the update
    writes them; their [disabled_at] and [previous_settings] are read by
    no function and are not kept. *)
Definition disableMFA (ext : Externals) (rt : Runtime)
    (userId currentPassword : string) : Db -> DisableResult * Db :=
  try_catch
    (user <- read (UserModel.findByPk userId) ;;
     match user with
     | None => ret (DisableFailure "USER_NOT_FOUND" "User tidak ditemukan")
     | Some user =>
         let mfaSettings := settings_or_empty user in
         if negb (Mfa.enabled mfaSettings) then
           ret (DisableFailure "MFA_NOT_ENABLED"
                  "MFA tidak diaktifkan untuk user ini")
         else
           let isPasswordValid :=
             bcrypt_compare ext currentPassword (User.password_hash user) in
           if negb isPasswordValid then
             ret (DisableFailure "INVALID_PASSWORD" "Password tidak valid")
           else
             let resetSettings := Mfa.mkSettings false None None in
             UserModel.update user
               (UserModel.with_mfa_settings (Some resetSettings)) ;;;
             ret (DisableSuccess "MFA berhasil dinonaktifkan")
     end)
    (fun _ => DisableFailure "SYSTEM_ERROR"
                "Terjadi kesalahan saat menonaktifkan MFA").

(** [regenerateBackupCodes]; the [backup_codes_regenerated_at] it stamps
    is read by no function and is not kept. *)
Definition regenerateBackupCodes (ext : Externals) (writes : bool)
    (rnd : RandomSource) (rt : Runtime) (userId currentPassword : string)
  : Db -> CodesResult * Db :=
  try_catch
    (user <- read (UserModel.findByPk userId) ;;
     match user with
     | None => ret (CodesFailure "USER_NOT_FOUND" "User tidak ditemukan")
     | Some user =>
         let mfaSettings := settings_or_empty user in
         match enabled_totp mfaSettings with
         | None =>
             ret (CodesFailure "TOTP_NOT_ENABLED"
                    "TOTP tidak diaktifkan untuk user ini")
         | Some totp =>
             let isPasswordValid :=
               bcrypt_compare ext currentPassword (User.password_hash user) in
             if negb isPasswordValid then
               ret (CodesFailure "INVALID_PASSWORD" "Password tidak valid")
             else
               let backupCodes := fst (generateBackupCodes rnd 10 0 []) in
               update_in_place writes user
                 (Mfa.mkSettings (Mfa.enabled mfaSettings)
                    (Mfa.preferred_method mfaSettings)
                    (Some (Mfa.mkTotp (Mfa.secret totp) (Mfa.verified totp)
                             backupCodes (Mfa.verified_at totp)))) ;;;
               ret (CodesSuccess backupCodes
                      "Backup codes berhasil digenerate ulang")
         end
     end)
    (fun _ => CodesFailure "SYSTEM_ERROR"
                "Terjadi kesalahan saat mengenerate ulang backup codes").

(** The text of a number appended to a string. *)
Definition number_text (n : Z) : string :=
  NilZero.string_of_int (Z.to_int n).

(** The loop of [generateNumericCode], with [n] rounds left. *)
Fixpoint generateNumericCode_loop (rnd : RandomSource) (n : nat) (pos : nat)
    (code : string) : string :=
  match n with
  | O => code
  | S n' =>
      generateNumericCode_loop rnd n' (S pos)
        (code ++ number_text (random_below (rnd pos) 10))
  end.

(** [generateNumericCode(length)]. *)
Definition generateNumericCode (rnd : RandomSource) (length : Z) : string :=
  generateNumericCode_loop rnd (Z.to_nat length) 0 "".

(** The stored backup codes of a user. *)
Definition stored_backup_codes (userId : string) (db : Db) : list string :=
  match UserModel.findByPk userId db with
  | Some user =>
      match Mfa.totp (settings_or_empty user) with
      | Some totp => Mfa.backup_codes totp
      | None => []
      end
  | None => []
  end.

(** The settings [verifyTOTP] saves when [token] was used as a backup
    code. *)
Definition settings_without (token : string) (s : Mfa.Settings)
    (totp : Mfa.Totp) : Mfa.Settings :=
  Mfa.mkSettings (Mfa.enabled s) (Mfa.preferred_method s)
    (Some (Mfa.mkTotp (Mfa.secret totp) (Mfa.verified totp)
             (filter (fun code => negb (String.eqb code token))
                     (Mfa.backup_codes totp))
             (Mfa.verified_at totp))).

(** The text is made of decimal digits only. *)
Fixpoint all_decimal (s : string) : bool :=
  match s with
  | EmptyString => true
  | String c rest =>
      match Js.digit_value 10 c with
      | Some _ => all_decimal rest
      | None => false
      end
  end.

End MfaService.

(** A user whose authenticator is enabled and verified, with backup
    codes of which one is stored twice, and one who has set up an
    authenticator and not yet verified it. *)
Module MfaFixture.

Definition gina : User.t :=
  User.mk "u-7" "gina" None "bcrypt$swordfish"
    (Some (Mfa.mkSettings true (Some "totp")
             (Some (Mfa.mkTotp "JBSWY3DPEHPK3PXP" true
                      ["01234-5678"; "ABCDE-FGHI"; "01234-5678"]
                      (Some 500)))))
    true false 0 None.

Definition henry : User.t :=
  User.mk "u-8" "henry" None "bcrypt$marlin"
    (Some (Mfa.mkSettings false None
             (Some (Mfa.mkTotp "JBSWY3DPEHPK3PXP" false [] None))))
    true false 0 None.

Definition db : Db :=
  mkDb [Sample.alice 0; gina; henry] [Sample.portal; Sample.backoffice]
       [Sample.token_a] [Sample.key0; Sample.key1] [("u-1", "admin")].

End MfaFixture.

(** ** Authentication and authorization middleware *)

(** The text the request signature is checked against:
    [timestamp:nonce:method:path:body]. *)
Definition signatureData (ext : Externals) (req : Request)
    (timestamp nonce : string) : string :=
  timestamp ++ ":" ++ nonce ++ ":" ++ req_method req ++ ":"
  ++ req_originalUrl req ++ ":"
  ++ match req_body req with
     | Some (p :: ps) => json_stringify ext (sort_by_key (p :: ps))
     | _ => ""
     end.

(** [s.startsWith(prefix)]. *)
Fixpoint startsWith (prefix s : string) : bool :=
  match prefix, s with
  | EmptyString, _ => true
  | String a p, String b r => Ascii.eqb a b && startsWith p r
  | String _ _, EmptyString => false
  end.

(** How a guard leaves: [next()], for [authenticateJwt] with [req.user]
    set, or an error response. *)
Inductive JwtOutcome :=
| JwtNext (user : UserView)
| JwtError (code message : string).

Inductive GuardOutcome :=
| GuardNext
| GuardError (code message : string).

(** [authHeader.split(' ')[1]]. *)
Definition bearer_token (authHeader : string) : string :=
  match Js.split " " authHeader with
  | _ :: token :: _ => token
  | _ => ""
  end.

(** [authenticateJwt], on [req.headers.authorization] and [req.consumer];
    without [req.consumer] the read of [req.consumer.id] throws and the
    [catch] answers. *)
Definition authenticateJwt (ext : Externals) (env : ProcessEnv)
    (rt : Runtime) (authorization : option string)
    (consumer : option Consumer.t) : Db -> JwtOutcome * Db :=
  fun db =>
    if Js.falsy_opt authorization
       || negb (startsWith "Bearer "
                  (match authorization with Some h => h | None => "" end))
    then (JwtError "UNAUTHORIZED" "Token otentikasi tidak valid", db)
    else
      let token :=
        bearer_token (match authorization with Some h => h | None => "" end) in
      match consumer with
      | None =>
          (JwtError "INTERNAL_ERROR"
             "Terjadi kesalahan saat memverifikasi token", db)
      | Some consumer =>
          let (result, db') :=
            verifyToken ext env rt token (Consumer.id consumer) db in
          match result with
          | VerifyFailure _ message =>
              (JwtError "UNAUTHORIZED"
                 (Js.or_else (Some message) "Token tidak valid"), db')
          | VerifySuccess user => (JwtNext user, db')
          end
      end.

(** The query of [User.hasPermission] on the view [user_permissions]:
    the count it returns, or the error it throws. *)
Definition PermissionQuery : Type := string -> string -> Outcome Z.

(** [hasPermission] of the authentication service, over
    [User.hasPermission]: an error counts as no permission. *)
Definition hasPermission (query : PermissionQuery)
    (userId permission : string) : bool :=
  match query userId permission with
  | Returned count => 0 <? count
  | Thrown _ => false
  end.

(** The loop of [requirePermission] over the required permissions. *)
Fixpoint requirePermission_loop (query : PermissionQuery) (userId : string)
    (requiredPermissions : list string) : GuardOutcome :=
  match requiredPermissions with
  | [] => GuardNext
  | permission :: rest =>
      if negb (hasPermission query userId permission)
      then GuardError "FORBIDDEN" "Anda tidak memiliki izin yang diperlukan"
      else requirePermission_loop query userId rest
  end.

(** [requirePermission(permissions)], on [req.user]; a single permission
    given as a string is the list of that one permission. *)
Definition requirePermission (query : PermissionQuery)
    (permissions : list string) (user : option UserView) : GuardOutcome :=
  match user with
  | None => GuardError "UNAUTHORIZED" "Autentikasi diperlukan"
  | Some user =>
      if Js.falsy (view_id user)
      then GuardError "UNAUTHORIZED" "Autentikasi diperlukan"
      else if (length permissions =? 0)%nat then GuardNext
      else requirePermission_loop query (view_id user) permissions
  end.

(** [requireRole(roles)], on [req.user]. *)
Definition requireRole (roles : list string) (user : option UserView)
    : GuardOutcome :=
  match user with
  | None => GuardError "UNAUTHORIZED" "Autentikasi diperlukan"
  | Some user =>
      let allowedRoles := roles in
      let userRoles := view_roles user in
      let hasAllowedRole :=
        existsb (fun role => existsb (String.eqb role) allowedRoles)
                userRoles in
      if negb hasAllowedRole
      then GuardError "FORBIDDEN" "Anda tidak memiliki peran yang diizinkan"
      else GuardNext
  end.

(** ** Responses and the authentication controller *)

(** [HTTP_STATUS_MAP]. *)
Definition HTTP_STATUS_MAP : list (string * Z) :=
  [ ("SUCCESS", 200); ("CREATED", 201); ("ACCEPTED", 202);
    ("NO_CONTENT", 204);
    ("BAD_REQUEST", 400); ("UNAUTHORIZED", 401); ("FORBIDDEN", 403);
    ("NOT_FOUND", 404); ("METHOD_NOT_ALLOWED", 405); ("CONFLICT", 409);
    ("UNPROCESSABLE", 422); ("TOO_MANY_REQUESTS", 429);
    ("INVALID_CREDENTIALS", 401); ("INVALID_TOKEN", 401);
    ("TOKEN_EXPIRED", 401); ("TOKEN_REVOKED", 401); ("ACCOUNT_LOCKED", 403);
    ("INSUFFICIENT_PERMISSIONS", 403); ("INVALID_SIGNATURE", 401);
    ("INTERNAL_ERROR", 500); ("SERVICE_UNAVAILABLE", 503);
    ("DATABASE_ERROR", 500); ("EXTERNAL_SERVICE_ERROR", 502) ].

(** [HTTP_STATUS_MAP[code] || fallback]. *)
Definition http_status (code : string) (fallback : Z) : Z :=
  match find (fun entry => String.eqb (fst entry) code) HTTP_STATUS_MAP with
  | Some entry => snd entry
  | None => fallback
  end.

(** The [data] of a response. *)
Inductive ResponseData :=
| NoData
| LoginData (token : string) (expires_at : Z) (user : UserView)
| LogoutData (revoked_count : nat).

(** What is sent: [res.status(statusCode).json({ code, message, data })]. *)
Record Response := mkResponse {
  res_status : Z;
  res_code : string;
  res_message : string;
  res_data : ResponseData
}.

(** [successResponse(res, code, message, data)]. *)
Definition successResponse (code message : string) (data : ResponseData)
    : Response :=
  mkResponse (http_status code 200) code message data.

(** [errorResponse(res, code, message)]. *)
Definition errorResponse (code message : string) : Response :=
  mkResponse (http_status code 500) code message NoData.

(** [serviceErrorResponse(res, serviceResult)], on the [code] and the
    [message] of the service result. *)
Definition serviceErrorResponse (code message : string) : Response :=
  let among cases := existsb (String.eqb code) cases in
  let responseCode :=
    if among ["INVALID_INPUT"] then "BAD_REQUEST"
    else if among ["INVALID_CREDENTIALS"] then "INVALID_CREDENTIALS"
    else if among ["USER_NOT_FOUND"; "TOKEN_NOT_FOUND"; "CONSUMER_NOT_FOUND";
                   "KEY_NOT_FOUND"]
    then "NOT_FOUND"
    else if among ["USERNAME_EXISTS"; "EMAIL_EXISTS"; "NAME_EXISTS"]
    then "CONFLICT"
    else if among ["INVALID_TOKEN"; "TOKEN_EXPIRED"; "TOKEN_REVOKED"]
    then "INVALID_TOKEN"
    else if among ["ACCOUNT_LOCKED"] then "ACCOUNT_LOCKED"
    else if among ["INVALID_SIGNATURE"] then "INVALID_SIGNATURE"
    else if among ["SYSTEM_ERROR"; "DATABASE_ERROR"] then "INTERNAL_ERROR"
    else "INTERNAL_ERROR" in
  errorResponse responseCode (Js.or_else (Some message) "An error occurred").

(** The parts of the Express request the controller reads.  [req.body]
    is taken as parsed: [username], [password], [mfa_code] for the login,
    [token] and [all_devices] for the logout. *)
Record ControllerRequest := mkControllerRequest {
  creq_credentials : Credentials;
  creq_token : option string;
  creq_all_devices : bool;
  creq_consumer : option Consumer.t;
  creq_user : option UserView;
  creq_ip : string;
  creq_user_agent : option string;
  creq_x_signature : option string;
  creq_authorization : option string
}.

(** The names bound where the body of a controller function runs: the
    globals, the imports of the module, its functions, and the
    parameters and locals of the function. *)
Definition controller_scope : list string :=
  [ "console"; "process"; "JSON"; "Date"; "Math"; "Buffer";
    "authenticateUser"; "verifyToken"; "revokeToken";
    "revokeAllTokensForUser"; "logLoginActivity"; "logLogoutActivity";
    "successResponse"; "errorResponse"; "serviceErrorResponse";
    "ResponseCode"; "logger";
    "login"; "verify"; "logout"; "me";
    "req"; "res"; "username"; "password"; "mfa_code"; "token";
    "all_devices"; "context"; "result"; "decoded" ].

(** [req.consumer.id], [req.user.id]: a [TypeError] when the object is
    not on the request. *)
Definition on_request {A} (what : string) (v : option A) : M A :=
  match v with
  | Some a => ret a
  | None =>
      throw (Js.TypeError
               ("Cannot read properties of undefined (reading '" ++ what
                ++ "')"))
  end.

(** The [login] controller.  The audit record it writes through
    [logLoginActivity], which catches its own errors, is outside the
    tables kept here. *)
Definition login (ext : Externals) (env : ProcessEnv) (mfa : MfaVerifiers)
    (rt : Runtime) (req : ControllerRequest) : Db -> Response * Db :=
  try_catch
    (consumer <- on_request "id" (creq_consumer req) ;;
     let context :=
       mkContext (Consumer.id consumer) (creq_ip req) (creq_user_agent req)
         (creq_x_signature req) in
     fun db =>
       let (result, db') :=
         authenticateUser ext env mfa rt (creq_credentials req) context db in
       (Returned
          match result with
          | AuthSuccess token expiresAt user =>
              successResponse "SUCCESS" "Login berhasil"
                (LoginData token expiresAt user)
          | AuthFailure code message => serviceErrorResponse code message
          | AuthMfaRequired message _ _ _ =>
              serviceErrorResponse "MFA_REQUIRED" message
          end, db'))
    (fun _ => errorResponse "INTERNAL_ERROR"
                "Terjadi kesalahan saat proses login").

(** The [logout] controller: all tokens of the user, or the one token
    that the web token names.  The audit record of [logLogoutActivity] is
    outside the tables kept here; its arguments read [req.consumer.id]. *)
Definition logout (ext : Externals) (rt : Runtime) (req : ControllerRequest)
    : Db -> Response * Db :=
  try_catch
    (user <- on_request "id" (creq_user req) ;;
     result <-
       (if creq_all_devices req then
          fun db =>
            let (r, db') := revokeAllTokensForUser rt (view_id user) db in
            (Returned
               match r with
               | CountSuccess count => inl (Some count)
               | CountFailure code message => inr (code, message)
               end, db')
        else
          read_identifier controller_scope "jwt" tt ;;;
          text <-
            (if Js.falsy_opt (creq_token req) then
               authHeader <- on_request "split" (creq_authorization req) ;;
               ret (nth_error (Js.split " " authHeader) 1)
             else ret (creq_token req)) ;;
          decoded <-
            on_request "token_id"
              (match text with
               | Some t => jwt_decode ext t
               | None => None
               end) ;;
          fun db =>
            let (r, db') :=
              revokeToken rt
                (match jwt_token_id decoded with Some i => i | None => "" end)
                db in
            (Returned
               match r with
               | RevokeSuccess _ => inl None
               | RevokeFailure code message => inr (code, message)
               end, db')) ;;
     on_request "id" (creq_consumer req) ;;;
     ret match result with
         | inl count =>
             successResponse "SUCCESS"
               (if creq_all_devices req
                then "Logout dari semua perangkat berhasil"
                else "Logout berhasil")
               (LogoutData
                  match count with
                  | Some (S n) => S n
                  | _ => 1%nat
                  end)
         | inr (code, message) => serviceErrorResponse code message
         end)
    (fun _ => errorResponse "INTERNAL_ERROR"
                "Terjadi kesalahan saat proses logout").

(** * Properties *)

(** ** Tactics *)

(** Case analysis on the tests a monadic body makes, innermost first. *)
Ltac split_tests :=
  unfold bind, read, write, ret, throw;
  repeat (cbv beta iota;
          match goal with
          | |- context [match ?x with _ => _ end] =>
              lazymatch x with
              | context [match _ with _ => _ end] => fail
              | _ => destruct x eqn:?
              end
          end);
  cbv beta iota.

(** ** Rows and lookups *)

Lemma find_map_stable {A} (p : A -> bool) (g : A -> A) (l : list A) :
  (forall x, p (g x) = p x) ->
  find p (map g l) = option_map g (find p l).
Proof.
  intros Hp. induction l as [|x l IH]; simpl; [reflexivity|].
  rewrite Hp. destruct (p x); [reflexivity | exact IH].
Qed.

Lemma find_some_holds {A} (p : A -> bool) (l : list A) (x : A) :
  find p l = Some x -> p x = true.
Proof. intros H. apply find_some in H. tauto. Qed.

Lemma find_app_last {A} (p : A -> bool) (l : list A) (x : A) :
  (forall y, In y l -> p y = false) -> p x = true ->
  find p (l ++ [x]) = Some x.
Proof.
  intros Hl Hx. induction l as [|y l IH]; simpl.
  - rewrite Hx. reflexivity.
  - rewrite (Hl y (or_introl eq_refl)). apply IH.
    intros z Hz. apply Hl. right. exact Hz.
Qed.

(** A row update that keeps the primary key is seen by [findByPk]. *)
Lemma user_findByPk_update_row (uid : string) (f : User.t -> User.t)
    (db : Db) (u : User.t) :
  (forall r, User.id (f r) = User.id r) ->
  UserModel.findByPk uid db = Some u ->
  UserModel.findByPk uid (UserModel.update_row uid f db) = Some (f u).
Proof.
  intros Hid Hu. unfold UserModel.findByPk, UserModel.update_row in *; simpl.
  rewrite find_map_stable.
  - rewrite Hu; simpl.
    apply find_some_holds in Hu. rewrite Hu. reflexivity.
  - intros x. destruct (String.eqb (User.id x) uid) eqn:E.
    + rewrite Hid. exact E.
    + exact E.
Qed.

(** A row update that keeps name and activity is seen by
    [findByUsername]. *)
Lemma user_findByUsername_update_row (name : string) (f : User.t -> User.t)
    (db : Db) (u : User.t) :
  (forall r, User.username (f r) = User.username r) ->
  (forall r, User.is_active (f r) = User.is_active r) ->
  UserModel.findByUsername name db = Some u ->
  UserModel.findByUsername name (UserModel.update_row (User.id u) f db)
  = Some (f u).
Proof.
  intros Hn Ha Hu.
  unfold UserModel.findByUsername, UserModel.update_row in *; simpl.
  rewrite find_map_stable.
  - rewrite Hu; simpl. rewrite String.eqb_refl. reflexivity.
  - intros x. destruct (String.eqb (User.id x) (User.id u)).
    + rewrite Hn, Ha. reflexivity.
    + reflexivity.
Qed.

(** ** Lockout *)

(** One attempt with a wrong password: the row is counted up, and locked
    when the count the code looks at, plus one, reaches five. *)
Lemma wrong_password_attempt (ext : Externals) (env : ProcessEnv)
    (mfa : MfaVerifiers) (rt : Runtime) (credentials : Credentials)
    (context : Context) (user : User.t) (db : Db) :
  reaches_password_check credentials context user db ->
  bcrypt_compare ext (cred_password credentials) (User.password_hash user)
  = false ->
  authenticateUser ext env mfa rt credentials context db =
  if 5 <=? (if orm_increment_returning ext
            then User.failed_attempts user + 1
            else User.failed_attempts user) + 1
  then (AuthFailure "ACCOUNT_LOCKED"
          "Too many failed attempts. Account has been locked",
        UserModel.update_row (User.id user) (UserModel.with_is_locked true)
          (UserModel.update_row (User.id user) count_failure db))
  else (AuthFailure "INVALID_PASSWORD" "Invalid username or password",
        UserModel.update_row (User.id user) count_failure db).
Proof.
  intros ((Hu & (consumer & Hc & Hact & Hip) & Hname & Hpk & Hlock) & Hp) Hpw.
  unfold authenticateUser, try_catch, authenticateUser_body.
  rewrite Hu, Hp. cbn [orb].
  unfold bind at 1. unfold read at 1. rewrite Hc, Hact. cbn [negb].
  assert (Hallowed :
    (if has_allowed_ips consumer
     then read (ConsumerModel.isIpAllowed (ctx_consumerId context)
                  (ctx_ipAddress context))
     else ret true) db = (Returned true, db)).
  { destruct (has_allowed_ips consumer) eqn:E.
    - unfold read. rewrite Hip; reflexivity.
    - reflexivity. }
  unfold bind at 1. rewrite Hallowed. cbn [negb].
  unfold bind at 1. unfold read at 1. rewrite Hname, Hlock, Hpw. cbn [negb].
  unfold bind at 1.
  unfold UserModel.increment_failed_attempts, bind, write, read, ret.
  fold count_failure.
  rewrite (user_findByPk_update_row _ count_failure _ _ (fun r => eq_refl) Hpk).
  destruct (orm_increment_returning ext); cbn [User.failed_attempts
    UserModel.with_failed_attempts count_failure User.id];
  match goal with |- context [5 <=? ?n] => destruct (5 <=? n) end;
  reflexivity.
Qed.

(** Counting a failure on the row keeps the account reachable. *)
Lemma account_reachable_count_failure (username : string) (context : Context)
    (user : User.t) (db : Db) :
  account_reachable username context user db ->
  account_reachable username context (count_failure user)
    (UserModel.update_row (User.id user) count_failure db).
Proof.
  intros (Hu & (consumer & Hc & Hact & Hip) & Hname & Hpk & Hlock).
  split; [exact Hu|]. split; [|split; [|split]].
  - exists consumer. auto.
  - apply (user_findByUsername_update_row username count_failure db user);
      auto.
  - apply (user_findByPk_update_row (User.id user) count_failure db user);
      auto.
  - exact Hlock.
Qed.

(** While the count the code looks at stays below the threshold, every
    wrong password is answered [INVALID_PASSWORD] and counted: up to a
    stored count of four where [increment] leaves the loaded instance as
    it was, of three where it refreshes it. *)
Lemma wrong_passwords_below_threshold (ext : Externals) (env : ProcessEnv)
    (mfa : MfaVerifiers) (username : string) (context : Context) :
  forall (attempts : list Attempt) (user : User.t) (db : Db),
    account_reachable username context user db ->
    Forall (wrong_password_for ext username context (User.password_hash user))
           attempts ->
    User.failed_attempts user + Z.of_nat (length attempts)
    <= (if orm_increment_returning ext then 3 else 4) ->
    exists db' user',
      authenticate_all ext env mfa attempts db
      = (repeat (AuthFailure "INVALID_PASSWORD" "Invalid username or password")
                (length attempts), db') /\
      account_reachable username context user' db' /\
      User.id user' = User.id user /\
      User.password_hash user' = User.password_hash user /\
      User.failed_attempts user'
      = User.failed_attempts user + Z.of_nat (length attempts).
Proof.
  intros attempts.
  induction attempts as [|[[rt credentials] context'] rest IH];
    intros user db Hreach Hall Hbound.
  - exists db, user. simpl. rewrite Z.add_0_r. auto.
  - inversion Hall as [|a l Hhead Hrest]; subst.
    destruct Hhead as (Hname & Hctx & Hpresent & Hwrong). subst context'.
    cbn [length] in Hbound. rewrite Nat2Z.inj_succ in Hbound.
    assert (Hstep := wrong_password_attempt ext env mfa rt credentials context
                       user db).
    unfold reaches_password_check in Hstep. rewrite Hname in Hstep.
    specialize (Hstep (conj Hreach Hpresent) Hwrong).
    assert (Hbelow :
              (5 <=? (if orm_increment_returning ext
                      then User.failed_attempts user + 1
                      else User.failed_attempts user) + 1) = false).
    { destruct (orm_increment_returning ext); apply Z.leb_gt; lia. }
    rewrite Hbelow in Hstep.
    destruct (IH (count_failure user)
                 (UserModel.update_row (User.id user) count_failure db))
      as (db' & user' & Hrun & Hreach' & Hid & Hhash & Hcount).
    + apply account_reachable_count_failure; exact Hreach.
    + exact Hrest.
    + cbn [count_failure UserModel.with_failed_attempts User.failed_attempts].
      lia.
    + exists db', user'. cbn [authenticate_all].
      rewrite Hstep, Hrun. cbn [length repeat].
      split; [reflexivity|]. split; [exact Hreach'|].
      split; [exact Hid|]. split; [exact Hhash|].
      rewrite Hcount.
      cbn [count_failure UserModel.with_failed_attempts User.failed_attempts].
      rewrite Nat2Z.inj_succ. lia.
Qed.

Lemma authenticate_all_app (ext : Externals) (env : ProcessEnv)
    (mfa : MfaVerifiers) (l1 l2 : list Attempt) (db : Db) :
  authenticate_all ext env mfa (l1 ++ l2) db =
  let '(r1, db1) := authenticate_all ext env mfa l1 db in
  let '(r2, db2) := authenticate_all ext env mfa l2 db1 in
  ((r1 ++ r2)%list, db2).
Proof.
  revert db. induction l1 as [|[[rt c] x] l1 IH]; intros db; simpl.
  - destruct (authenticate_all ext env mfa l2 db); reflexivity.
  - destruct (authenticateUser ext env mfa rt c x db) as [r db1].
    rewrite IH.
    destruct (authenticate_all ext env mfa l1 db1) as [r1 db2].
    destruct (authenticate_all ext env mfa l2 db2) as [r2 db3].
    reflexivity.
Qed.

(** With four failures stored, one more wrong password locks the row. *)
Lemma wrong_password_at_four (ext : Externals) (env : ProcessEnv)
    (mfa : MfaVerifiers) (rt : Runtime) (credentials : Credentials)
    (context : Context) (user : User.t) (db : Db) :
  reaches_password_check credentials context user db ->
  User.failed_attempts user = 4 ->
  bcrypt_compare ext (cred_password credentials) (User.password_hash user)
  = false ->
  exists db' user',
    authenticateUser ext env mfa rt credentials context db
    = (AuthFailure "ACCOUNT_LOCKED"
         "Too many failed attempts. Account has been locked", db') /\
    UserModel.findByPk (User.id user) db' = Some user' /\
    User.is_locked user' = true /\
    User.failed_attempts user' = 5.
Proof.
  intros Hreach Hfour Hwrong.
  exists (UserModel.update_row (User.id user) (UserModel.with_is_locked true)
            (UserModel.update_row (User.id user) count_failure db)),
         (UserModel.with_is_locked true (count_failure user)).
  split.
  - rewrite (wrong_password_attempt ext env mfa rt credentials context user db
               Hreach Hwrong).
    rewrite Hfour. destruct (orm_increment_returning ext); reflexivity.
  - destruct Hreach as ((_ & _ & _ & Hpk & _) & _).
    split; [|split].
    + apply user_findByPk_update_row; [reflexivity|].
      apply user_findByPk_update_row; [reflexivity|exact Hpk].
    + reflexivity.
    + cbn. rewrite Hfour. reflexivity.
Qed.

(** The attempt after the one that locked the row: the lock is seen
    first, and nothing is written. *)
Lemma attempt_after_the_lock (ext : Externals) (env : ProcessEnv)
    (mfa : MfaVerifiers) (rt : Runtime) (credentials : Credentials)
    (context : Context) (user : User.t) (db : Db) :
  reaches_password_check credentials context user db ->
  let locked :=
    UserModel.update_row (User.id user) (UserModel.with_is_locked true)
      (UserModel.update_row (User.id user) count_failure db) in
  authenticateUser ext env mfa rt credentials context locked
  = (AuthFailure "ACCOUNT_LOCKED"
       "Account is locked. Please contact administrator", locked).
Proof.
  intros ((Hu & (consumer & Hc & Hact & Hip) & Hname & Hpk & Hlock) & Hp).
  cbv zeta.
  assert (Hname' :
            UserModel.findByUsername (cred_username credentials)
              (UserModel.update_row (User.id user)
                 (UserModel.with_is_locked true)
                 (UserModel.update_row (User.id user) count_failure db))
            = Some (UserModel.with_is_locked true (count_failure user))).
  { apply (user_findByUsername_update_row (cred_username credentials)
             (UserModel.with_is_locked true)
             (UserModel.update_row (User.id user) count_failure db)
             (count_failure user)); [reflexivity | reflexivity |].
    apply (user_findByUsername_update_row (cred_username credentials)
             count_failure db user); [reflexivity | reflexivity | exact Hname]. }
  unfold authenticateUser, try_catch, authenticateUser_body.
  rewrite Hu, Hp. cbn [orb].
  unfold bind at 1. unfold read at 1.
  change (ConsumerModel.findByPk (ctx_consumerId context)
            (UserModel.update_row (User.id user)
               (UserModel.with_is_locked true)
               (UserModel.update_row (User.id user) count_failure db)))
    with (ConsumerModel.findByPk (ctx_consumerId context) db).
  rewrite Hc, Hact. cbn [negb].
  unfold bind at 1.
  destruct (has_allowed_ips consumer) eqn:Hhas.
  - unfold read at 1.
    change (ConsumerModel.isIpAllowed (ctx_consumerId context)
              (ctx_ipAddress context)
              (UserModel.update_row (User.id user)
                 (UserModel.with_is_locked true)
                 (UserModel.update_row (User.id user) count_failure db)))
      with (ConsumerModel.isIpAllowed (ctx_consumerId context)
              (ctx_ipAddress context) db).
    rewrite (Hip eq_refl). cbn [negb].
    unfold bind at 1. unfold read at 1. rewrite Hname'. reflexivity.
  - cbn [ret negb]. unfold bind at 1. unfold read at 1. rewrite Hname'.
    reflexivity.
Qed.

(** C1, as the code runs on the configured database.  An active,
    unlocked user who has four failed attempts stored and submits a wrong
    password is answered [ACCOUNT_LOCKED] and is left locked with five
    failed attempts, as stated.  But the database is configured with
    [dialect: 'postgres'], where [increment] refreshes the loaded
    instance, so the test [user.failed_attempts + 1 >= 5] sees the count
    after the increment: from a count of zero the first three wrong
    passwords are answered [INVALID_PASSWORD], the fourth is answered
    [ACCOUNT_LOCKED] and locks the account with four failed attempts
    stored, and the fifth is answered [ACCOUNT_LOCKED] because the
    account is locked already, and writes nothing. *)
Theorem lockout_on_fourth_wrong_password (ext : Externals) (env : ProcessEnv)
    (mfa : MfaVerifiers) :
  (forall (rt : Runtime) (credentials : Credentials) (context : Context)
          (user : User.t) (db : Db),
     reaches_password_check credentials context user db ->
     User.failed_attempts user = 4 ->
     bcrypt_compare ext (cred_password credentials) (User.password_hash user)
     = false ->
     exists db' user',
       authenticateUser ext env mfa rt credentials context db
       = (AuthFailure "ACCOUNT_LOCKED"
            "Too many failed attempts. Account has been locked", db') /\
       UserModel.findByPk (User.id user) db' = Some user' /\
       User.is_locked user' = true /\
       User.failed_attempts user' = 5)
  /\
  (orm_increment_returning ext = true ->
   forall (username : string) (context : Context) (user : User.t) (db : Db)
          (attempts : list Attempt),
     account_reachable username context user db ->
     User.failed_attempts user = 0 ->
     length attempts = 5%nat ->
     Forall (wrong_password_for ext username context (User.password_hash user))
            attempts ->
     exists db4 user',
       authenticate_all ext env mfa (firstn 4 attempts) db
       = ([AuthFailure "INVALID_PASSWORD" "Invalid username or password";
           AuthFailure "INVALID_PASSWORD" "Invalid username or password";
           AuthFailure "INVALID_PASSWORD" "Invalid username or password";
           AuthFailure "ACCOUNT_LOCKED"
             "Too many failed attempts. Account has been locked"], db4) /\
       authenticate_all ext env mfa attempts db
       = ([AuthFailure "INVALID_PASSWORD" "Invalid username or password";
           AuthFailure "INVALID_PASSWORD" "Invalid username or password";
           AuthFailure "INVALID_PASSWORD" "Invalid username or password";
           AuthFailure "ACCOUNT_LOCKED"
             "Too many failed attempts. Account has been locked";
           AuthFailure "ACCOUNT_LOCKED"
             "Account is locked. Please contact administrator"], db4) /\
       UserModel.findByPk (User.id user) db4 = Some user' /\
       User.is_locked user' = true /\
       User.failed_attempts user' = 4).
Proof.
  split.
  - intros rt credentials context user db.
    apply wrong_password_at_four.
  - intros Hfresh username context user db attempts Hreach Hzero Hlen Hall.
    destruct attempts as [|a1 [|a2 [|a3 [|a4 [|a5 [|a6 rest]]]]]];
      try discriminate Hlen.
    cbn [firstn].
    change [a1; a2; a3; a4; a5] with ([a1; a2; a3] ++ [a4; a5])%list in *.
    change [a1; a2; a3; a4] with ([a1; a2; a3] ++ [a4])%list.
    apply Forall_app in Hall. destruct Hall as [Hfirst Hlast].
    destruct (wrong_passwords_below_threshold ext env mfa username context
                [a1; a2; a3] user db Hreach Hfirst)
      as (db3 & user3 & Hrun & Hreach3 & Hid & Hhash & Hcount).
    { rewrite Hzero, Hfresh. cbn. lia. }
    rewrite Hzero in Hcount. cbn in Hcount.
    inversion Hlast as [|a l Hfourth Hlast']; subst.
    inversion Hlast' as [|a l Hfifth _]; subst.
    destruct a4 as [[rt4 credentials4] context4].
    destruct a5 as [[rt5 credentials5] context5].
    destruct Hfourth as (Hname4 & Hctx4 & Hpresent4 & Hwrong4).
    destruct Hfifth as (Hname5 & Hctx5 & Hpresent5 & Hwrong5).
    subst context4 context5.
    rewrite <- Hhash in Hwrong4.
    assert (Hreach4 : reaches_password_check credentials4 context user3 db3)
      by (split; [rewrite Hname4; exact Hreach3 | exact Hpresent4]).
    assert (Hreach5 : reaches_password_check credentials5 context user3 db3)
      by (split; [rewrite Hname5; exact Hreach3 | exact Hpresent5]).
    assert (Hstep4 := wrong_password_attempt ext env mfa rt4 credentials4
                        context user3 db3 Hreach4 Hwrong4).
    rewrite Hfresh, Hcount in Hstep4. cbn [Z.leb Z.add Z.compare Pos.add
      Pos.compare Pos.compare_cont Pos.succ] in Hstep4.
    assert (Hstep5 := attempt_after_the_lock ext env mfa rt5 credentials5
                        context user3 db3 Hreach5).
    cbv zeta in Hstep5.
    exists (UserModel.update_row (User.id user3)
              (UserModel.with_is_locked true)
              (UserModel.update_row (User.id user3) count_failure db3)),
           (UserModel.with_is_locked true (count_failure user3)).
    rewrite !authenticate_all_app, Hrun. cbn [authenticate_all].
    rewrite Hstep4, Hstep5. cbn [app repeat length].
    split; [reflexivity|]. split; [reflexivity|].
    destruct Hreach3 as (_ & _ & _ & Hpk & _).
    rewrite <- Hid.
    split; [|split].
    + apply user_findByPk_update_row; [reflexivity|].
      apply user_findByPk_update_row; [reflexivity|exact Hpk].
    + reflexivity.
    + cbn. rewrite Hcount. reflexivity.
Qed.

(** The sample account is reachable from the portal. *)
Lemma sample_alice_reachable (failed : Z) :
  account_reachable "alice" Sample.from_portal (Sample.alice failed)
    (Sample.db failed).
Proof.
  split; [reflexivity|]. split; [|split; [reflexivity|split; reflexivity]].
  exists Sample.portal.
  split; [reflexivity|]. split; [reflexivity|discriminate].
Defined.

(** The statement of C1 on the sample database: alice with four stored
    failures, and alice with none, five wrong passwords in a row. *)
Lemma lockout_on_fourth_wrong_password_witness :
  fst (authenticateUser (Sample.ext true) Sample.env Sample.mfa
         (Sample.rt 1000 "t-1") (Sample.login "alice" "guess")
         Sample.from_portal (Sample.db 4))
  = AuthFailure "ACCOUNT_LOCKED"
      "Too many failed attempts. Account has been locked"
  /\
  map auth_code
    (fst (authenticate_all (Sample.ext true) Sample.env Sample.mfa
            [(Sample.rt 1000 "t-1", Sample.login "alice" "a", Sample.from_portal);
             (Sample.rt 2000 "t-2", Sample.login "alice" "b", Sample.from_portal);
             (Sample.rt 3000 "t-3", Sample.login "alice" "c", Sample.from_portal);
             (Sample.rt 4000 "t-4", Sample.login "alice" "d", Sample.from_portal);
             (Sample.rt 5000 "t-5", Sample.login "alice" "e", Sample.from_portal)]
            (Sample.db 0)))
  = [Some "INVALID_PASSWORD"; Some "INVALID_PASSWORD";
     Some "INVALID_PASSWORD"; Some "ACCOUNT_LOCKED";
     Some "ACCOUNT_LOCKED"].
Proof.
  destruct (lockout_on_fourth_wrong_password (Sample.ext true) Sample.env
              Sample.mfa) as [Hfour Hrun5].
  split.
  - destruct (Hfour (Sample.rt 1000 "t-1") (Sample.login "alice" "guess")
                Sample.from_portal (Sample.alice 4) (Sample.db 4)
                (conj (sample_alice_reachable 4) eq_refl) eq_refl eq_refl)
      as (db' & user' & Hrun & _).
    rewrite Hrun. reflexivity.
  - destruct (Hrun5 eq_refl "alice" Sample.from_portal (Sample.alice 0)
                (Sample.db 0)
                [(Sample.rt 1000 "t-1", Sample.login "alice" "a", Sample.from_portal);
                 (Sample.rt 2000 "t-2", Sample.login "alice" "b", Sample.from_portal);
                 (Sample.rt 3000 "t-3", Sample.login "alice" "c", Sample.from_portal);
                 (Sample.rt 4000 "t-4", Sample.login "alice" "d", Sample.from_portal);
                 (Sample.rt 5000 "t-5", Sample.login "alice" "e", Sample.from_portal)]
                (sample_alice_reachable 0) eq_refl eq_refl)
      as (db' & user' & _ & Hrun & _).
    + repeat constructor.
    + rewrite Hrun. reflexivity.
Defined.

(** The test after the increment was written for a loaded instance that
    the increment leaves as it was: there, from a count of zero, five
    wrong passwords in a row are answered [INVALID_PASSWORD] four times
    and [ACCOUNT_LOCKED] the fifth time, and leave the account locked
    with five failed attempts. *)
Lemma lockout_without_refresh (ext : Externals) (env : ProcessEnv)
    (mfa : MfaVerifiers) (username : string) (context : Context)
    (user : User.t) (db : Db) (attempts : list Attempt) :
  orm_increment_returning ext = false ->
  account_reachable username context user db ->
  User.failed_attempts user = 0 ->
  length attempts = 5%nat ->
  Forall (wrong_password_for ext username context (User.password_hash user))
         attempts ->
  exists db' user',
    authenticate_all ext env mfa attempts db
    = ([AuthFailure "INVALID_PASSWORD" "Invalid username or password";
        AuthFailure "INVALID_PASSWORD" "Invalid username or password";
        AuthFailure "INVALID_PASSWORD" "Invalid username or password";
        AuthFailure "INVALID_PASSWORD" "Invalid username or password";
        AuthFailure "ACCOUNT_LOCKED"
          "Too many failed attempts. Account has been locked"], db') /\
    UserModel.findByPk (User.id user) db' = Some user' /\
    User.is_locked user' = true /\
    User.failed_attempts user' = 5.
Proof.
  intros Hstale Hreach Hzero Hlen Hall.
  destruct attempts as [|a1 [|a2 [|a3 [|a4 [|a5 [|a6 rest]]]]]];
    try discriminate Hlen.
  change [a1; a2; a3; a4; a5] with ([a1; a2; a3; a4] ++ [a5])%list in *.
  apply Forall_app in Hall. destruct Hall as [Hfirst Hlast].
  destruct (wrong_passwords_below_threshold ext env mfa username context
              [a1; a2; a3; a4] user db Hreach Hfirst)
    as (db4 & user4 & Hrun & Hreach4 & Hid & Hhash & Hcount).
  { rewrite Hzero, Hstale. cbn. lia. }
  rewrite Hzero in Hcount. cbn in Hcount.
  inversion Hlast as [|a l Hfifth _]; subst.
  destruct a5 as [[rt credentials] context'].
  destruct Hfifth as (Hname & Hctx & Hpresent & Hwrong). subst context'.
  rewrite <- Hhash in Hwrong.
  destruct (wrong_password_at_four ext env mfa rt credentials context
              user4 db4) as (db' & user' & Hlock & Hpk & Hlocked & Hfive);
    auto.
  { split; [rewrite Hname; exact Hreach4 | exact Hpresent]. }
  exists db', user'.
  rewrite authenticate_all_app, Hrun. cbn [authenticate_all].
  rewrite Hlock. rewrite <- Hid.
  split; [reflexivity|]. auto.
Qed.

(** ** The second-factor block *)

(** [mfa_code] is not among the names bound in [authenticateUser]. *)
Lemma mfa_code_unbound {A} (value : A) :
  read_identifier authenticateUser_scope "mfa_code" value
  = throw (Js.ReferenceError "mfa_code is not defined").
Proof. reflexivity. Qed.

(** The second-factor block throws before it reads the database or calls
    a verifier. *)
Lemma authenticateUser_mfa_throws (mfa : MfaVerifiers)
    (credentials : Credentials) (user : User.t) (settings : Mfa.Settings)
    (db : Db) :
  authenticateUser_mfa mfa credentials user settings db
  = (Thrown (Js.ReferenceError "mfa_code is not defined"), db).
Proof.
  unfold authenticateUser_mfa. rewrite mfa_code_unbound. reflexivity.
Qed.

(** With the second factor enabled and the right password, the call ends
    in the [catch] and the database is as it was. *)
Lemma mfa_login_system_error (ext : Externals) (env : ProcessEnv)
    (mfa : MfaVerifiers) (rt : Runtime) (credentials : Credentials)
    (context : Context) (user : User.t) (db : Db) :
  reaches_password_check credentials context user db ->
  mfa_enabled user = true ->
  bcrypt_compare ext (cred_password credentials) (User.password_hash user)
  = true ->
  authenticateUser ext env mfa rt credentials context db
  = (AuthFailure "SYSTEM_ERROR" "An internal system error occurred", db).
Proof.
  intros ((Hu & (consumer & Hc & Hact & Hip) & Hname & Hpk & Hlock) & Hp)
         Hmfa Hpw.
  unfold authenticateUser, try_catch, authenticateUser_body.
  rewrite Hu, Hp. cbn [orb].
  unfold bind at 1. unfold read at 1. rewrite Hc, Hact. cbn [negb].
  assert (Hallowed :
    (if has_allowed_ips consumer
     then read (ConsumerModel.isIpAllowed (ctx_consumerId context)
                  (ctx_ipAddress context))
     else ret true) db = (Returned true, db)).
  { destruct (has_allowed_ips consumer) eqn:E.
    - unfold read. rewrite Hip; reflexivity.
    - reflexivity. }
  unfold bind at 1. rewrite Hallowed. cbn [negb].
  unfold bind at 1. unfold read at 1. rewrite Hname, Hlock, Hpw. cbn [negb].
  unfold mfa_enabled in Hmfa.
  destruct (User.mfa_settings user) as [settings|]; [|discriminate].
  rewrite Hmfa. unfold bind. rewrite authenticateUser_mfa_throws.
  reflexivity.
Qed.

(** Whatever the input, a user with the second factor enabled is never
    signed in and never asked for the code, and no token row is added. *)
Lemma mfa_login_never_succeeds (ext : Externals) (env : ProcessEnv)
    (mfa : MfaVerifiers) (rt : Runtime) (credentials : Credentials)
    (context : Context) (user : User.t) (db : Db) :
  UserModel.findByUsername (cred_username credentials) db = Some user ->
  mfa_enabled user = true ->
  let '(result, db') :=
    authenticateUser ext env mfa rt credentials context db in
  auth_success result = false /\
  auth_code result <> Some "MFA_REQUIRED" /\
  tokens db' = tokens db.
Proof.
  intros Hname Hmfa.
  unfold authenticateUser, try_catch, authenticateUser_body.
  destruct (Js.falsy (cred_username credentials)
            || Js.falsy (cred_password credentials));
    [cbn; repeat split; discriminate|].
  unfold bind at 1. unfold read at 1.
  destruct (ConsumerModel.findByPk (ctx_consumerId context) db)
    as [consumer|]; [|cbn; repeat split; discriminate].
  destruct (Consumer.is_active consumer);
    [|cbn; repeat split; discriminate].
  cbn [negb]. unfold bind at 1.
  assert (Hallowed : exists b,
    (if has_allowed_ips consumer
     then read (ConsumerModel.isIpAllowed (ctx_consumerId context)
                  (ctx_ipAddress context))
     else ret true) db = (Returned b, db)).
  { destruct (has_allowed_ips consumer); eexists; reflexivity. }
  destruct Hallowed as [b Hb]. rewrite Hb.
  destruct b; [|cbn; repeat split; discriminate].
  cbn [negb]. unfold bind at 1. unfold read at 1. rewrite Hname.
  destruct (User.is_locked user); [cbn; repeat split; discriminate|].
  destruct (bcrypt_compare ext (cred_password credentials)
              (User.password_hash user)).
  - cbn [negb]. unfold mfa_enabled in Hmfa.
    destruct (User.mfa_settings user) as [settings|]; [|discriminate].
    rewrite Hmfa. unfold bind. rewrite authenticateUser_mfa_throws.
    cbn; repeat split; discriminate.
  - cbn [negb].
    unfold UserModel.increment_failed_attempts, UserModel.update, bind,
      write, read, ret.
    match goal with |- context [5 <=? ?n] => destruct (5 <=? n) end;
      cbn; repeat split; discriminate.
Qed.

(** C10. For a user whose [mfa_settings.enabled] is true,
    [authenticateUser] never succeeds, never returns the MFA-required
    outcome and adds no token; with the correct password the read of the
    unbound [mfa_code] raises, the [catch] answers [SYSTEM_ERROR], and the
    database (so [failed_attempts] and [last_login]) is unchanged. *)
Theorem mfa_enabled_login_ends_in_system_error (ext : Externals)
    (env : ProcessEnv) (mfa : MfaVerifiers) (rt : Runtime)
    (credentials : Credentials) (context : Context) (user : User.t)
    (db : Db) :
  UserModel.findByUsername (cred_username credentials) db = Some user ->
  mfa_enabled user = true ->
  (let '(result, db') :=
     authenticateUser ext env mfa rt credentials context db in
   auth_success result = false /\
   auth_code result <> Some "MFA_REQUIRED" /\
   tokens db' = tokens db)
  /\
  (reaches_password_check credentials context user db ->
   bcrypt_compare ext (cred_password credentials) (User.password_hash user)
   = true ->
   authenticateUser ext env mfa rt credentials context db
   = (AuthFailure "SYSTEM_ERROR" "An internal system error occurred", db)).
Proof.
  intros Hname Hmfa. split.
  - apply (mfa_login_never_succeeds ext env mfa rt credentials context user db
             Hname Hmfa).
  - intros Hreach Hpw. apply mfa_login_system_error with (user := user); auto.
Qed.

(** The sample user with a verified authenticator is reachable. *)
Lemma sample_carol_reachable :
  account_reachable "carol" Sample.from_portal Sample.carol (Sample.db 0).
Proof.
  split; [reflexivity|]. split; [|split; [reflexivity|split; reflexivity]].
  exists Sample.portal.
  split; [reflexivity|]. split; [reflexivity|discriminate].
Defined.

(** The statement of C10 on the sample database. *)
Lemma mfa_enabled_login_ends_in_system_error_witness :
  authenticateUser (Sample.ext false) Sample.env Sample.mfa
    (Sample.rt 1000 "t-1") (mkCredentials "carol" "staple" (Some "123456"))
    Sample.from_portal (Sample.db 0)
  = (AuthFailure "SYSTEM_ERROR" "An internal system error occurred",
     Sample.db 0).
Proof.
  apply (mfa_enabled_login_ends_in_system_error (Sample.ext false) Sample.env
           Sample.mfa (Sample.rt 1000 "t-1")
           (mkCredentials "carol" "staple" (Some "123456"))
           Sample.from_portal Sample.carol (Sample.db 0) eq_refl eq_refl).
  - exact (conj sample_carol_reachable eq_refl).
  - reflexivity.
Defined.

(** ** Token verification *)

(** [verifyToken] only reads. *)
Lemma verifyToken_readonly (ext : Externals) (env : ProcessEnv) (rt : Runtime)
    (token consumerId : string) (db : Db) :
  snd (verifyToken ext env rt token consumerId db) = db.
Proof.
  unfold verifyToken, try_catch, verifyToken_body.
  split_tests; reflexivity.
Qed.

(** A token whose wrapper decodes to a record id and passes [jwt.verify]
    is judged on the stored record of that id alone. *)
Lemma verifyToken_on_record (ext : Externals) (env : ProcessEnv)
    (rt : Runtime) (token consumerId : string) (db : Db)
    (payload : JwtPayload) (token_id : string) :
  jwt_decode ext token = Some payload ->
  jwt_token_id payload = Some token_id ->
  Js.falsy token_id = false ->
  jwt_verify ext token (jwt_secret env) (now rt) = true ->
  fst (verifyToken ext env rt token consumerId db) =
  match TokenModel.findByPk token_id db with
  | None => VerifyFailure "TOKEN_NOT_FOUND" "Token not found"
  | Some tokenRecord =>
      if Token.is_revoked tokenRecord then
        VerifyFailure "TOKEN_REVOKED" "Token has been revoked"
      else if Token.expires_at tokenRecord <? now rt then
        VerifyFailure "TOKEN_EXPIRED" "Token has expired"
      else if negb (String.eqb (Token.consumer_id tokenRecord) consumerId) then
        VerifyFailure "CONSUMER_MISMATCH" "Token was not issued to this consumer"
      else
        match UserModel.findWithRoles (Token.user_id tokenRecord) db with
        | None => VerifyFailure "USER_UNAVAILABLE" "User not found or inactive"
        | Some (user, roles) =>
            if negb (User.is_active user) then
              VerifyFailure "USER_UNAVAILABLE" "User not found or inactive"
            else
              VerifySuccess (mkUserView (User.id user) (User.username user)
                               (User.email user) roles)
        end
  end.
Proof.
  intros Hdec Hid Hfalsy Hver.
  unfold verifyToken, try_catch, verifyToken_body.
  rewrite Hdec, Hid, Hfalsy, Hver. cbn [negb].
  split_tests; reflexivity.
Qed.

(** A success of [verifyToken] went through every check. *)
Lemma verifyToken_success_inv (ext : Externals) (env : ProcessEnv)
    (rt : Runtime) (token consumerId : string) (db : Db) (view : UserView) :
  fst (verifyToken ext env rt token consumerId db) = VerifySuccess view ->
  exists payload token_id tokenRecord user roles,
    jwt_decode ext token = Some payload /\
    jwt_token_id payload = Some token_id /\
    jwt_verify ext token (jwt_secret env) (now rt) = true /\
    TokenModel.findByPk token_id db = Some tokenRecord /\
    Token.is_revoked tokenRecord = false /\
    now rt <= Token.expires_at tokenRecord /\
    Token.consumer_id tokenRecord = consumerId /\
    UserModel.findWithRoles (Token.user_id tokenRecord) db
    = Some (user, roles) /\
    User.is_active user = true /\
    view = mkUserView (User.id user) (User.username user) (User.email user)
                      roles.
Proof.
  unfold verifyToken, try_catch, verifyToken_body.
  destruct (jwt_decode ext token) as [payload|]; [|discriminate].
  destruct (jwt_token_id payload) as [token_id|] eqn:Hid; [|discriminate].
  destruct (Js.falsy token_id); [discriminate|].
  destruct (jwt_verify ext token (jwt_secret env) (now rt)) eqn:Hver;
    [|discriminate].
  cbn [negb]. unfold bind, read, ret.
  destruct (TokenModel.findByPk token_id db) as [tokenRecord|] eqn:Hrec;
    [|discriminate].
  destruct (Token.is_revoked tokenRecord) eqn:Hrev; [discriminate|].
  destruct (Z.ltb_spec (Token.expires_at tokenRecord) (now rt)) as [Hexp|Hexp];
    [discriminate|].
  destruct (String.eqb_spec (Token.consumer_id tokenRecord) consumerId)
    as [Hcons|Hcons]; [|discriminate].
  cbn [negb].
  destruct (UserModel.findWithRoles (Token.user_id tokenRecord) db)
    as [[user roles]|] eqn:Huser; [|discriminate].
  destruct (User.is_active user) eqn:Hact; [|discriminate].
  cbn. intros Hview. injection Hview as <-.
  exists payload, token_id, tokenRecord, user, roles.
  repeat split; auto.
Qed.










(** One more run on the sample database: the record [t-a] after its
    revocation. *)
Example verifyToken_revoked_sample :
  fst (verifyToken (Sample.ext false) Sample.env (Sample.rt 6000 "x")
         "jwt.t-a.default-jwt-secret" "c-1"
         (snd (revokeToken (Sample.rt 1000 "y") "t-a" (Sample.db 0))))
  = VerifyFailure "TOKEN_REVOKED" "Token has been revoked".
Proof. reflexivity. Qed.

(** ** Which key selects the stored record *)

(** [validateTokenFromHeader] never reaches its lookup: for a header of
    the form [Bearer <value>] the call of [findByTokenHash] throws, and
    the [catch] answers [SYSTEM_ERROR]. *)
Lemma validateTokenFromHeader_run (ext : Externals) (rt : Runtime)
    (tokenHeader : option string) (db : Db) :
  validateTokenFromHeader ext rt tokenHeader db
  = (match tokenHeader with
     | None => HeaderFailure "TOKEN_MISSING" "Authentication token is missing"
     | Some header =>
         if Js.falsy header then
           HeaderFailure "TOKEN_MISSING" "Authentication token is missing"
         else
           match Js.split " " header with
           | [bearer; tokenValue] =>
               if String.eqb bearer "Bearer" then
                 HeaderFailure "SYSTEM_ERROR"
                   "An internal system error occurred"
               else
                 HeaderFailure "INVALID_TOKEN_FORMAT" "Invalid token format"
           | _ => HeaderFailure "INVALID_TOKEN_FORMAT" "Invalid token format"
           end
     end, db).
Proof.
  unfold validateTokenFromHeader, try_catch.
  destruct tokenHeader as [header|]; [|reflexivity].
  destruct (Js.falsy header); [reflexivity|].
  destruct (Js.split " " header) as [|bearer [|tokenValue [|x rest]]];
    try reflexivity.
  destruct (String.eqb bearer "Bearer"); reflexivity.
Qed.




(** ** Revocation of a token *)

Lemma token_findByPk_update_row (tid : string) (f : Token.t -> Token.t)
    (db : Db) (t : Token.t) :
  (forall r, Token.id (f r) = Token.id r) ->
  TokenModel.findByPk tid db = Some t ->
  TokenModel.findByPk tid (TokenModel.update_row tid f db) = Some (f t).
Proof.
  intros Hid Ht. unfold TokenModel.findByPk, TokenModel.update_row in *; simpl.
  rewrite find_map_stable.
  - rewrite Ht; simpl.
    apply find_some_holds in Ht. rewrite Ht. reflexivity.
  - intros x. destruct (String.eqb (Token.id x) tid) eqn:E.
    + rewrite Hid. exact E.
    + exact E.
Qed.

(** C6, as the code has it.  The first [revokeToken] on a stored,
    unrevoked token succeeds and leaves it revoked with the time of the
    call; a second call changes nothing: [Token.revokeById] returns
    [false] without throwing, and [revokeToken] answers with
    [success: false], code [TOKEN_NOT_FOUND]. *)
Theorem revokeToken_twice (rt1 rt2 : Runtime) (tokenId : string) (db : Db)
    (token : Token.t) :
  TokenModel.findByPk tokenId db = Some token ->
  Token.is_revoked token = false ->
  exists db1,
    revokeToken rt1 tokenId db
    = (RevokeSuccess "Token successfully revoked", db1) /\
    TokenModel.findByPk tokenId db1
    = Some (TokenModel.mark_revoked (now rt1) token) /\
    TokenModel.revokeById tokenId (now rt2) db1 = (Returned false, db1) /\
    revokeToken rt2 tokenId db1
    = (RevokeFailure "TOKEN_NOT_FOUND" "Token not found or already revoked",
       db1).
Proof.
  intros Hfound Hfresh.
  assert (Hid : Token.id token = tokenId).
  { apply find_some_holds in Hfound. apply String.eqb_eq in Hfound.
    exact Hfound. }
  exists (TokenModel.update_row tokenId (TokenModel.mark_revoked (now rt1)) db).
  assert (Hafter :
    TokenModel.findByPk tokenId
      (TokenModel.update_row tokenId (TokenModel.mark_revoked (now rt1)) db)
    = Some (TokenModel.mark_revoked (now rt1) token)).
  { apply token_findByPk_update_row; [reflexivity | exact Hfound]. }
  split; [|split; [exact Hafter|split]].
  - unfold revokeToken, try_catch, TokenModel.revokeById, bind, read, write,
      ret.
    rewrite Hfound, Hfresh, Hid. reflexivity.
  - unfold TokenModel.revokeById, bind, read, ret.
    rewrite Hafter. reflexivity.
  - unfold revokeToken, try_catch, TokenModel.revokeById, bind, read, ret.
    rewrite Hafter. reflexivity.
Qed.

(** The statement on the sample database. *)
Lemma revokeToken_twice_witness :
  exists db1,
    revokeToken (Sample.rt 1000 "x") "t-a" (Sample.db 0)
    = (RevokeSuccess "Token successfully revoked", db1) /\
    TokenModel.findByPk "t-a" db1
    = Some (TokenModel.mark_revoked 1000 Sample.token_a) /\
    TokenModel.revokeById "t-a" 2000 db1 = (Returned false, db1) /\
    revokeToken (Sample.rt 2000 "y") "t-a" db1
    = (RevokeFailure "TOKEN_NOT_FOUND" "Token not found or already revoked",
       db1).
Proof.
  exact (revokeToken_twice (Sample.rt 1000 "x") (Sample.rt 2000 "y") "t-a"
           (Sample.db 0) Sample.token_a eq_refl eq_refl).
Defined.

(** C6, as stated, fails: the second [revokeToken] on the same token is
    not reported as a success or a no-op but as the failure
    [TOKEN_NOT_FOUND]. *)
Lemma second_revokeToken_reports_failure :
  revoke_success
    (fst (revokeToken (Sample.rt 1000 "x") "t-a" (Sample.db 0))) = true
  /\
  fst (revokeToken (Sample.rt 2000 "y") "t-a"
         (snd (revokeToken (Sample.rt 1000 "x") "t-a" (Sample.db 0))))
  = RevokeFailure "TOKEN_NOT_FOUND" "Token not found or already revoked"
  /\
  revoke_success
    (fst (revokeToken (Sample.rt 2000 "y") "t-a"
            (snd (revokeToken (Sample.rt 1000 "x") "t-a" (Sample.db 0)))))
  = false.
Proof. repeat split. Qed.

(** ** Rotation of the provider key *)

Import ProviderKey.

Lemma greatest_version_none (ks : list ProviderKey.t) :
  ProviderKeyModel.greatest_version ks = None -> ks = [].
Proof.
  destruct ks as [|k rest]; [reflexivity|]. simpl.
  destruct (ProviderKeyModel.greatest_version rest) as [k'|];
    [destruct (key_version k <? key_version k')|]; discriminate.
Qed.

(** [greatest_version] returns a row of the table, and no row has a
    greater version. *)
Lemma greatest_version_spec (ks : list ProviderKey.t) (k : ProviderKey.t) :
  ProviderKeyModel.greatest_version ks = Some k ->
  In k ks /\ forall k', In k' ks -> key_version k' <= key_version k.
Proof.
  revert k. induction ks as [|x rest IH]; intros k; simpl; [discriminate|].
  destruct (ProviderKeyModel.greatest_version rest) as [m|] eqn:Hm.
  - destruct (IH m eq_refl) as [Hin Hmax].
    destruct (Z.ltb_spec (key_version x) (key_version m)) as [Hlt|Hge];
      intros H; injection H as <-.
    + split; [right; exact Hin|].
      intros k' [<-|Hk']; [lia | apply Hmax; exact Hk'].
    + split; [left; reflexivity|].
      intros k' [<-|Hk']; [lia | specialize (Hmax k' Hk'); lia].
  - intros H; injection H as <-.
    apply greatest_version_none in Hm. subst rest.
    split; [left; reflexivity|]. intros k' [<-|[]]. lia.
Qed.

(** After the active rows are retired, none is active. *)
Lemma no_active_after_retire (ks : list ProviderKey.t) :
  filter ProviderKeyModel.is_active (map ProviderKeyModel.retire ks) = [].
Proof.
  induction ks as [|k rest IH]; [reflexivity|]. simpl.
  unfold ProviderKeyModel.retire at 1.
  destruct (ProviderKeyModel.is_active k) eqn:E.
  - cbn. exact IH.
  - rewrite E. exact IH.
Qed.

(** Without a fault in the storage layer, [rotateKey] returns the new key
    and leaves the rotated table. *)
Lemma rotateKey_completes (publicKey privateKeyEncrypted keyAlgorithm : string)
    (createdBy : option string) (rt : Runtime) (db : Db) :
  ProviderKeyModel.rotateKey ProviderKeyModel.no_fault publicKey
    privateKeyEncrypted keyAlgorithm createdBy rt db
  = (Returned (rotated_in publicKey privateKeyEncrypted keyAlgorithm createdBy
                 rt db),
     rotated publicKey privateKeyEncrypted keyAlgorithm createdBy rt db).
Proof. reflexivity. Qed.

(** Whatever the faults, [rotateKey] either throws and leaves the
    database as it was, or completes. *)
Lemma rotateKey_all_or_nothing (faults : ProviderKeyModel.Faults)
    (publicKey privateKeyEncrypted keyAlgorithm : string)
    (createdBy : option string) (rt : Runtime) (db : Db) :
  (exists e,
     ProviderKeyModel.rotateKey faults publicKey privateKeyEncrypted
       keyAlgorithm createdBy rt db = (Thrown e, db))
  \/
  ProviderKeyModel.rotateKey faults publicKey privateKeyEncrypted
    keyAlgorithm createdBy rt db
  = (Returned (rotated_in publicKey privateKeyEncrypted keyAlgorithm createdBy
                 rt db),
     rotated publicKey privateKeyEncrypted keyAlgorithm createdBy rt db).
Proof.
  unfold ProviderKeyModel.rotateKey, fallible, transaction, bind.
  destruct (faults ProviderKeyModel.BeginTx) as [e|];
    [left; exists e; reflexivity|].
  destruct (faults ProviderKeyModel.QueryMax) as [e|];
    [left; exists e; reflexivity|].
  destruct (faults ProviderKeyModel.UpdateActive) as [e|];
    [left; exists e; reflexivity|].
  destruct (faults ProviderKeyModel.InsertKey) as [e|];
    [left; exists e; reflexivity|].
  destruct (faults ProviderKeyModel.CommitTx) as [e|];
    [left; exists e; reflexivity|].
  right. reflexivity.
Qed.

(** The version [rotateKey] gives the new key is one above the greatest
    version in the table, and 1 on an empty table. *)
Lemma new_version_spec (db : Db) :
  let v := Js.num_or_zero (ProviderKeyModel.max_key_version db) + 1 in
  (forall k, In k (provider_keys db) -> key_version k < v)
  /\ (provider_keys db = [] -> v = 1)
  /\ (provider_keys db <> [] ->
      exists k, In k (provider_keys db) /\ v = key_version k + 1).
Proof.
  cbv zeta. unfold ProviderKeyModel.max_key_version.
  destruct (ProviderKeyModel.greatest_version (provider_keys db)) as [m|]
    eqn:Hg.
  - destruct (greatest_version_spec _ _ Hg) as [Hin Hmax].
    cbn [option_map Js.num_or_zero].
    split; [intros k Hk; specialize (Hmax k Hk); lia|].
    split; [intros Hempty; rewrite Hempty in Hin; destruct Hin|].
    intros _; exists m; split; [exact Hin|reflexivity].
  - apply greatest_version_none in Hg. rewrite Hg.
    cbn [option_map Js.num_or_zero].
    split; [intros k []|].
    split; [reflexivity|].
    intros Hne; contradiction Hne; reflexivity.
Qed.

(** C4. One [rotateKey] that the storage layer lets through turns every
    [active] key [inactive] and leaves the other keys as they were,
    appends exactly one key, which is [active], has a version one above
    the greatest version present (1 on an empty table) and is valid from
    the time of the call until 90 days later; exactly one key is active
    afterwards; no other table changes.  Under any faults the call either
    throws and leaves the database as it was, or completes in full. *)
Theorem rotateKey_rotates_atomically
    (publicKey privateKeyEncrypted keyAlgorithm : string)
    (createdBy : option string) (rt : Runtime) (db : Db) :
  let newKey :=
    rotated_in publicKey privateKeyEncrypted keyAlgorithm createdBy rt db in
  let db' :=
    rotated publicKey privateKeyEncrypted keyAlgorithm createdBy rt db in
  ProviderKeyModel.rotateKey ProviderKeyModel.no_fault publicKey
    privateKeyEncrypted keyAlgorithm createdBy rt db = (Returned newKey, db')
  /\ provider_keys db'
     = (map ProviderKeyModel.retire (provider_keys db) ++ [newKey])%list
  /\ (forall k, status k = active ->
                ProviderKeyModel.retire k
                = ProviderKeyModel.with_status inactive k)
  /\ (forall k, status k <> active -> ProviderKeyModel.retire k = k)
  /\ status newKey = active
  /\ (forall k, In k (provider_keys db) -> key_version k < key_version newKey)
  /\ (provider_keys db = [] -> key_version newKey = 1)
  /\ (provider_keys db <> [] ->
      exists k, In k (provider_keys db)
                /\ key_version newKey = key_version k + 1)
  /\ valid_from newKey = now rt
  /\ valid_until newKey = Some (now rt + 90 * 86400000)
  /\ count_active (provider_keys db') = 1%nat
  /\ length (provider_keys db') = S (length (provider_keys db))
  /\ (users db' = users db /\ consumers db' = consumers db
      /\ tokens db' = tokens db /\ user_roles db' = user_roles db)
  /\ (forall faults,
        (exists e,
           ProviderKeyModel.rotateKey faults publicKey privateKeyEncrypted
             keyAlgorithm createdBy rt db = (Thrown e, db))
        \/
        ProviderKeyModel.rotateKey faults publicKey privateKeyEncrypted
          keyAlgorithm createdBy rt db = (Returned newKey, db')).
Proof.
  cbv zeta.
  split; [apply rotateKey_completes|].
  split; [reflexivity|].
  split.
  { intros k Hk. unfold ProviderKeyModel.retire, ProviderKeyModel.is_active.
    rewrite Hk. reflexivity. }
  split.
  { intros k Hk. unfold ProviderKeyModel.retire, ProviderKeyModel.is_active.
    destruct (status k); [contradiction|reflexivity|reflexivity]. }
  split; [reflexivity|].
  destruct (new_version_spec db) as (Habove & Hfirst & Hnext).
  split; [exact Habove|]. split; [exact Hfirst|]. split; [exact Hnext|].
  split; [reflexivity|]. split; [reflexivity|].
  split.
  { unfold count_active, rotated. cbn [provider_keys set_provider_keys].
    rewrite filter_app, no_active_after_retire. reflexivity. }
  split.
  { unfold rotated. cbn [provider_keys set_provider_keys].
    rewrite length_app, length_map. cbn. lia. }
  split; [repeat split|].
  intros faults. apply rotateKey_all_or_nothing.
Qed.

(** ** Revoked keys *)

Lemma find_app_some {A} (p : A -> bool) (l1 l2 : list A) (x : A) :
  find p l1 = Some x -> find p (l1 ++ l2) = Some x.
Proof.
  induction l1 as [|y l1 IH]; simpl; [discriminate|].
  destruct (p y); [auto | exact IH].
Qed.

(** A rewrite of the rows that keeps primary keys is seen by [findByPk]. *)
Lemma key_findByPk_map (keyId : string) (f : ProviderKey.t -> ProviderKey.t)
    (db : Db) (k : ProviderKey.t) :
  (forall r, id (f r) = id r) ->
  ProviderKeyModel.findByPk keyId db = Some k ->
  ProviderKeyModel.findByPk keyId (set_provider_keys (map f) db) = Some (f k).
Proof.
  intros Hid Hk. unfold ProviderKeyModel.findByPk in *. cbn.
  rewrite find_map_stable.
  - rewrite Hk. reflexivity.
  - intros x. rewrite Hid. reflexivity.
Qed.

Lemma retire_keeps_id (k : ProviderKey.t) : id (ProviderKeyModel.retire k) = id k.
Proof.
  unfold ProviderKeyModel.retire. destruct (ProviderKeyModel.is_active k);
    reflexivity.
Qed.

Lemma revoke_if_keeps_id (keyId : string) (k : ProviderKey.t) :
  id (ProviderKeyModel.revoke_if keyId k) = id k.
Proof.
  unfold ProviderKeyModel.revoke_if. destruct (String.eqb (id k) keyId);
    reflexivity.
Qed.

(** [revokeKey] leaves the table as it was, or sets the rows of one
    primary key to [revoked]. *)
Lemma revokeKey_effect (fault : option Js.Error) (keyId : string)
    (updatedBy : option string) (db : Db) :
  snd (ProviderKeyModel.revokeKey fault keyId updatedBy db) = db
  \/ snd (ProviderKeyModel.revokeKey fault keyId updatedBy db)
     = set_provider_keys (map (ProviderKeyModel.revoke_if keyId)) db.
Proof.
  unfold ProviderKeyModel.revokeKey, bind, read.
  destruct (ProviderKeyModel.findByPk keyId db) as [key|] eqn:Hkey;
    [|left; reflexivity].
  destruct fault as [e|]; [left; reflexivity|].
  right. cbn.
  apply find_some_holds in Hkey. apply String.eqb_eq in Hkey.
  rewrite Hkey. reflexivity.
Qed.

(** [rotateKey] leaves the table as it was, or retires the active rows
    and appends the new key. *)
Lemma rotateKey_effect (faults : ProviderKeyModel.Faults)
    (publicKey privateKeyEncrypted keyAlgorithm : string)
    (createdBy : option string) (rt : Runtime) (db : Db) :
  snd (ProviderKeyModel.rotateKey faults publicKey privateKeyEncrypted
         keyAlgorithm createdBy rt db) = db
  \/ snd (ProviderKeyModel.rotateKey faults publicKey privateKeyEncrypted
            keyAlgorithm createdBy rt db)
     = rotated publicKey privateKeyEncrypted keyAlgorithm createdBy rt db.
Proof.
  destruct (rotateKey_all_or_nothing faults publicKey privateKeyEncrypted
              keyAlgorithm createdBy rt db) as [[e He]|Hdone].
  - left. rewrite He. reflexivity.
  - right. rewrite Hdone. reflexivity.
Qed.

(** One operation keeps a revoked key revoked. *)
Lemma revoked_stays_revoked_step (op : KeyOp) (db : Db) (keyId : string)
    (k : ProviderKey.t) :
  ProviderKeyModel.findByPk keyId db = Some k ->
  status k = revoked ->
  exists k',
    ProviderKeyModel.findByPk keyId (run_key_op op db) = Some k'
    /\ status k' = revoked.
Proof.
  intros Hk Hrevoked.
  destruct op as [faults publicKey privateKeyEncrypted keyAlgorithm createdBy rt
                 | fault target updatedBy]; cbn [run_key_op].
  - destruct (rotateKey_effect faults publicKey privateKeyEncrypted
                keyAlgorithm createdBy rt db) as [-> | ->].
    + exists k. auto.
    + exists k. split; [|exact Hrevoked].
      unfold rotated, ProviderKeyModel.findByPk in *. cbn.
      apply find_app_some. rewrite find_map_stable.
      * rewrite Hk. cbn. unfold ProviderKeyModel.retire,
          ProviderKeyModel.is_active. rewrite Hrevoked. reflexivity.
      * intros x. rewrite retire_keeps_id. reflexivity.
  - destruct (revokeKey_effect fault target updatedBy db) as [-> | ->].
    + exists k. auto.
    + exists (ProviderKeyModel.revoke_if target k). split.
      * apply key_findByPk_map; [apply revoke_if_keeps_id | exact Hk].
      * unfold ProviderKeyModel.revoke_if.
        destruct (String.eqb (id k) target); [reflexivity | exact Hrevoked].
Qed.

(** C8. A provider key that is [revoked] stays [revoked] through every
    sequence of [rotateKey] and [revokeKey] operations, whatever faults
    the storage layer injects; [revokeKey] changes no row except to set
    the status [revoked] on the rows of the key it names, and [rotateKey]
    changes no stored row except to turn an [active] one [inactive]. *)
Theorem revoked_key_stays_revoked (ops : list KeyOp) (db : Db)
    (keyId : string) (k : ProviderKey.t) :
  ProviderKeyModel.findByPk keyId db = Some k ->
  status k = revoked ->
  (exists k',
     ProviderKeyModel.findByPk keyId (run_key_ops ops db) = Some k'
     /\ status k' = revoked)
  /\
  (forall fault target updatedBy d,
     exists f,
       provider_keys (run_key_op (OpRevoke fault target updatedBy) d)
       = map f (provider_keys d)
       /\ forall r, f r = r
                    \/ (id r = target
                        /\ f r = ProviderKeyModel.with_status revoked r))
  /\
  (forall faults publicKey privateKeyEncrypted keyAlgorithm createdBy rt d,
     exists f added,
       provider_keys
         (run_key_op (OpRotate faults publicKey privateKeyEncrypted
                        keyAlgorithm createdBy rt) d)
       = (map f (provider_keys d) ++ added)%list
       /\ forall r, f r = r
                    \/ (status r = active
                        /\ f r = ProviderKeyModel.with_status inactive r)).
Proof.
  intros Hk Hrevoked. split; [|split].
  - revert db k Hk Hrevoked.
    induction ops as [|op rest IH]; intros db k Hk Hrevoked.
    + exists k. auto.
    + destruct (revoked_stays_revoked_step op db keyId k Hk Hrevoked)
        as (k1 & Hk1 & Hrevoked1).
      exact (IH (run_key_op op db) k1 Hk1 Hrevoked1).
  - intros fault target updatedBy d. cbn [run_key_op].
    destruct (revokeKey_effect fault target updatedBy d) as [-> | ->].
    + exists (fun r => r). split; [symmetry; apply map_id|]. auto.
    + exists (ProviderKeyModel.revoke_if target). split; [reflexivity|].
      intros r. unfold ProviderKeyModel.revoke_if.
      destruct (String.eqb_spec (id r) target); auto.
  - intros faults publicKey privateKeyEncrypted keyAlgorithm createdBy rt d.
    cbn [run_key_op].
    destruct (rotateKey_effect faults publicKey privateKeyEncrypted
                keyAlgorithm createdBy rt d) as [-> | ->].
    + exists (fun r => r), []. split.
      * rewrite app_nil_r. symmetry; apply map_id.
      * auto.
    + exists ProviderKeyModel.retire,
        [rotated_in publicKey privateKeyEncrypted keyAlgorithm createdBy rt d].
      split; [reflexivity|].
      intros r. unfold ProviderKeyModel.retire, ProviderKeyModel.is_active.
      destruct (status r); cbn; auto.
Qed.

(** The statement on the sample database: the revoked key [k-0] through
    two rotations and two revocations, one of them of [k-0] itself. *)
Lemma revoked_key_stays_revoked_witness :
  exists k',
    ProviderKeyModel.findByPk "k-0"
      (run_key_ops
         [OpRotate ProviderKeyModel.no_fault "pub-2" "enc-2" "RSA-2048" None
            (Sample.rt 1000 "k-2");
          OpRevoke None "k-1" None;
          OpRotate ProviderKeyModel.no_fault "pub-3" "enc-3" "RSA-4096" None
            (Sample.rt 2000 "k-3");
          OpRevoke None "k-0" None]
         (Sample.db 0)) = Some k'
    /\ status k' = revoked.
Proof.
  apply (revoked_key_stays_revoked
           [OpRotate ProviderKeyModel.no_fault "pub-2" "enc-2" "RSA-2048" None
              (Sample.rt 1000 "k-2");
            OpRevoke None "k-1" None;
            OpRotate ProviderKeyModel.no_fault "pub-3" "enc-3" "RSA-4096" None
              (Sample.rt 2000 "k-3");
            OpRevoke None "k-0" None]
           (Sample.db 0) "k-0" Sample.key0 eq_refl eq_refl).
Defined.

(** ** Tokens across a rotation *)



(** After a completed rotation the signing key is the new key. *)
Lemma findActiveKey_after_rotation
    (publicKey privateKeyEncrypted keyAlgorithm : string)
    (createdBy : option string) (rt : Runtime) (db db2 : Db) :
  provider_keys db2
  = provider_keys
      (rotated publicKey privateKeyEncrypted keyAlgorithm createdBy rt db) ->
  ProviderKeyModel.findActiveKey db2
  = Some (rotated_in publicKey privateKeyEncrypted keyAlgorithm createdBy rt
            db).
Proof.
  intros Hkeys. unfold ProviderKeyModel.findActiveKey. rewrite Hkeys.
  unfold rotated. cbn [provider_keys set_provider_keys].
  rewrite filter_app, no_active_after_retire. reflexivity.
Qed.

(** The allow-list check of [authenticateUser] only reads. *)
Lemma ip_check_reads (consumer : Consumer.t) (context : Context) (db : Db) :
  exists b,
    (if has_allowed_ips consumer
     then read (ConsumerModel.isIpAllowed (ctx_consumerId context)
                  (ctx_ipAddress context))
     else ret true) db = (Returned b, db).
Proof. destruct (has_allowed_ips consumer); eexists; reflexivity. Qed.

(** A successful [authenticateUser], in full: which rows it read, the one
    row it reset, the one token it appended, what it returned. *)
Lemma authenticateUser_success_full (ext : Externals) (env : ProcessEnv)
    (mfa : MfaVerifiers) (rt : Runtime) (credentials : Credentials)
    (context : Context) (db db' : Db) (jwt : string) (expiresAt : Z)
    (view : UserView) :
  authenticateUser ext env mfa rt credentials context db
  = (AuthSuccess jwt expiresAt view, db') ->
  exists consumer user key,
    ConsumerModel.findByPk (ctx_consumerId context) db = Some consumer
    /\ Consumer.is_active consumer = true
    /\ UserModel.findByUsername (cred_username credentials) db = Some user
    /\ User.is_locked user = false
    /\ bcrypt_compare ext (cred_password credentials) (User.password_hash user)
       = true
    /\ mfa_enabled user = false
    /\ ProviderKeyModel.findActiveKey db = Some key
    /\ db' = set_tokens
               (fun ts =>
                  (ts ++ [issued_token ext rt context consumer user key])%list)
               (UserModel.update_row (User.id user) (login_reset (now rt)) db)
    /\ expiresAt = now rt + 3600000
    /\ jwt = jwt_sign ext
               (mkJwtPayload (User.id user) (User.username user)
                  (Consumer.name consumer) (Some (fresh_uuid rt))
                  (unix_seconds (now rt)) (unix_seconds (now rt + 3600000)))
               (jwt_secret env)
    /\ view = mkUserView (User.id user) (User.username user) (User.email user)
                (map snd (filter (fun ur => String.eqb (fst ur) (User.id user))
                                 (user_roles db))).
Proof.
  unfold authenticateUser, try_catch, authenticateUser_body.
  destruct (Js.falsy (cred_username credentials)
            || Js.falsy (cred_password credentials)); [discriminate|].
  unfold bind at 1. unfold read at 1.
  destruct (ConsumerModel.findByPk (ctx_consumerId context) db)
    as [consumer|] eqn:Hcons; [|discriminate].
  destruct (Consumer.is_active consumer) eqn:Hcact; [|discriminate].
  cbn [negb]. unfold bind at 1.
  destruct (ip_check_reads consumer context db) as [b Hb]. rewrite Hb.
  destruct b; [|discriminate].
  cbn [negb]. unfold bind at 1. unfold read at 1.
  destruct (UserModel.findByUsername (cred_username credentials) db)
    as [user|] eqn:Hname; [|discriminate].
  destruct (User.is_locked user) eqn:Hlock; [discriminate|].
  destruct (bcrypt_compare ext (cred_password credentials)
              (User.password_hash user)) eqn:Hpw.
  - cbn [negb]. unfold bind at 1.
    assert (Hgate :
      (mfa_enabled user = true /\ exists e,
         (match User.mfa_settings user with
          | Some settings =>
              if Mfa.enabled settings
              then authenticateUser_mfa mfa credentials user settings
              else ret None
          | None => ret None
          end) db = (Thrown e, db))
      \/ (mfa_enabled user = false /\
          (match User.mfa_settings user with
           | Some settings =>
               if Mfa.enabled settings
               then authenticateUser_mfa mfa credentials user settings
               else ret None
           | None => ret None
           end) db = (Returned None, db))).
    { unfold mfa_enabled.
      destruct (User.mfa_settings user) as [settings|];
        [|right; split; reflexivity].
      destruct (Mfa.enabled settings); [|right; split; reflexivity].
      left. split; [reflexivity|]. eexists.
      apply authenticateUser_mfa_throws. }
    destruct Hgate as [[_ [e ->]] | [Hoff ->]]; [discriminate|].
    unfold authenticateUser_issue, UserModel.update, TokenModel.create,
      UserModel.findWithRoles, bind, write, read, ret.
    change (ProviderKeyModel.findActiveKey (UserModel.update_row _ _ db))
      with (ProviderKeyModel.findActiveKey db).
    destruct (ProviderKeyModel.findActiveKey db) as [key|] eqn:Hkey;
      [|discriminate].
    match goal with
    | |- context [match UserModel.findByPk ?i ?d with _ => _ end] =>
        destruct (UserModel.findByPk i d) as [u|]
    end; [|discriminate].
    intros H. injection H as <- <- <- <-.
    exists consumer, user, key.
    repeat split; try assumption; reflexivity.
  - cbn [negb].
    unfold UserModel.increment_failed_attempts, UserModel.update, bind,
      write, read, ret.
    match goal with |- context [5 <=? ?n] => destruct (5 <=? n) end;
      discriminate.
Qed.

(** The web token of a login is accepted for the same consumer until
    [jwt.verify] refuses it or the hour is over. *)
Lemma issued_token_verifies (ext : Externals) (env : ProcessEnv)
    (mfa : MfaVerifiers) (rt rt' : Runtime) (credentials : Credentials)
    (context : Context) (db db' : Db) (jwt : string) (expiresAt : Z)
    (view : UserView) (payload : JwtPayload) :
  authenticateUser ext env mfa rt credentials context db
  = (AuthSuccess jwt expiresAt view, db') ->
  jwt_decode ext jwt = Some payload ->
  jwt_token_id payload = Some (fresh_uuid rt) ->
  jwt_verify ext jwt (jwt_secret env) (now rt') = true ->
  Js.falsy (fresh_uuid rt) = false ->
  (forall t, In t (tokens db) -> Token.id t <> fresh_uuid rt) ->
  (forall u, UserModel.findByUsername (cred_username credentials) db = Some u ->
             UserModel.findByPk (User.id u) db = Some u) ->
  now rt' <= expiresAt ->
  fst (verifyToken ext env rt' jwt (ctx_consumerId context) db')
  = VerifySuccess view.
Proof.
  intros Hok Hdec Hid Hver Hfalsy Hfresh Hpk Hahead.
  destruct (authenticateUser_success_full ext env mfa rt credentials context
              db db' jwt expiresAt view Hok)
    as (consumer & user & key & Hcons & _ & Hname & _ & _ & _ & _ & Hdb & Hexp
        & _ & Hview).
  rewrite (verifyToken_on_record ext env rt' jwt (ctx_consumerId context) db'
             payload (fresh_uuid rt) Hdec Hid Hfalsy Hver).
  assert (Hrec : TokenModel.findByPk (fresh_uuid rt) db'
                 = Some (issued_token ext rt context consumer user key)).
  { rewrite Hdb. unfold TokenModel.findByPk. cbn [tokens set_tokens].
    apply find_app_last.
    - intros t Ht. destruct (String.eqb_spec (Token.id t) (fresh_uuid rt));
        [exfalso; eapply Hfresh; eauto | reflexivity].
    - cbn. apply String.eqb_refl. }
  rewrite Hrec. cbn [issued_token Token.is_revoked Token.expires_at
                       Token.consumer_id Token.user_id].
  destruct (Z.ltb_spec (now rt + 3600000) (now rt')) as [Hlate|_]; [lia|].
  apply find_some_holds in Hcons. apply String.eqb_eq in Hcons.
  rewrite Hcons, String.eqb_refl. cbn [negb].
  assert (Huser : UserModel.findWithRoles (User.id user) db'
                  = Some (login_reset (now rt) user,
                          map snd (filter (fun ur => String.eqb (fst ur)
                                                       (User.id user))
                                          (user_roles db)))).
  { rewrite Hdb. unfold UserModel.findWithRoles.
    change (UserModel.findByPk (User.id user) (set_tokens _ ?d))
      with (UserModel.findByPk (User.id user) d).
    rewrite (user_findByPk_update_row (User.id user) (login_reset (now rt)) db
               user (fun r => eq_refl) (Hpk user Hname)).
    reflexivity. }
  rewrite Huser. cbn [login_reset UserModel.with_last_login
                        UserModel.with_failed_attempts User.is_active].
  unfold UserModel.findByUsername in Hname.
  apply find_some_holds in Hname. apply andb_prop in Hname.
  destruct Hname as [_ Hact]. rewrite Hact. cbn [negb].
  rewrite Hview. reflexivity.
Qed.




(** ** Replay window of the request signature *)

(** C7, as the code has it.  For every request whose signature header
    has three parts and carries the timestamp [t], the middleware answers
    with the expired-signature response whenever [now - t] exceeds 300
    seconds, that is when the timestamp lies more than five minutes in
    the past; the answer is given before the signature is checked, so it
    is the same for every verifier and every consumer key. *)
Theorem stale_signature_rejected (ext : Externals) (now : Z) (req : Request)
    (signature signatureValue timestamp nonce : string) (t : Z) :
  req_x_signature req = Some signature ->
  Js.split ":" signature = [signatureValue; timestamp; nonce] ->
  Js.parseInt timestamp = Some t ->
  unix_seconds now - t > 300 ->
  verifyRequestSignature ext now req
  = SigError "UNAUTHORIZED" "Tanda tangan sudah kedaluwarsa".
Proof.
  intros Hheader Hsplit Hparse Hstale.
  unfold verifyRequestSignature. rewrite Hheader.
  destruct signature as [|c rest]; [discriminate Hsplit|].
  cbn [Js.falsy]. rewrite Hsplit, Hparse.
  unfold Js.gt, Js.sub, timeThreshold.
  destruct (Z.ltb_spec (5 * 60) (unix_seconds now - t)); [reflexivity|lia].
Qed.

(** The statement on a sample request: signed at second 600, checked at
    second 1000, with a signature that no verifier is asked about. *)
Lemma stale_signature_rejected_witness :
  verifyRequestSignature (Sample.ext false) 1000000
    (mkRequest (Some "c2lnbmF0dXJl:600:n1") "POST" "/login" None
       (Some Sample.portal))
  = SigError "UNAUTHORIZED" "Tanda tangan sudah kedaluwarsa".
Proof.
  apply (stale_signature_rejected (Sample.ext false) 1000000
           (mkRequest (Some "c2lnbmF0dXJl:600:n1") "POST" "/login" None
              (Some Sample.portal))
           "c2lnbmF0dXJl:600:n1" "c2lnbmF0dXJl" "600" "n1" 600);
    [reflexivity | reflexivity | reflexivity | vm_compute; reflexivity].
Defined.

(** C7, as stated, fails for timestamps in the future: a request checked
    at second 1000 with a timestamp of second 2000, 1000 seconds ahead,
    passes the window and is accepted on its signature. *)
Lemma future_signature_not_rejected :
  Js.parseInt "2000" = Some 2000
  /\ Z.abs (unix_seconds 1000000 - 2000) > 300
  /\ verifyRequestSignature (Sample.ext false) 1000000
       (mkRequest
          (Some "signed[2000.n1.POST./login.]by[portal-public-key]:2000:n1")
          "POST" "/login" None (Some Sample.portal))
     = SigNext true.
Proof.
  split; [reflexivity|]. split; [vm_compute; reflexivity|]. reflexivity.
Qed.

(** ** Backup codes *)

Lemma string_length_app (a b : string) :
  String.length (a ++ b) = (String.length a + String.length b)%nat.
Proof. induction a as [|c a IH]; simpl; [reflexivity | rewrite IH; reflexivity]. Qed.

Lemma string_get_in_range (s : string) (n : nat) :
  (n < String.length s)%nat -> exists c, String.get n s = Some c.
Proof.
  revert n. induction s as [|c s IH]; intros n Hn; simpl in Hn; [lia|].
  destruct n as [|n]; simpl; [exists c; reflexivity|].
  apply IH. lia.
Qed.

(** A draw of the unit interval picks a character of the alphabet. *)
Lemma char_at_draw (draw : Z) :
  in_unit_interval draw ->
  exists c,
    char_at backup_code_chars
      (random_below draw (Z.of_nat (String.length backup_code_chars)))
    = String c EmptyString
    /\ backup_code_char c.
Proof.
  intros [Hlo Hhi]. unfold char_at, random_below.
  change (Z.of_nat (String.length backup_code_chars)) with 36.
  assert (Hidx : 0 <= draw * 36 / random_resolution < 36).
  { unfold random_resolution in *. split.
    - apply Z.div_pos; lia.
    - apply Z.div_lt_upper_bound; lia. }
  destruct (Z.ltb_spec (draw * 36 / random_resolution) 0) as [Hneg|_]; [lia|].
  destruct (string_get_in_range backup_code_chars
              (Z.to_nat (draw * 36 / random_resolution))) as [c Hc].
  { change (String.length backup_code_chars) with 36%nat. lia. }
  exists c. rewrite Hc. split; [reflexivity|].
  exists (Z.to_nat (draw * 36 / random_resolution)). exact Hc.
Qed.

(** What [generateBackupCode] returns: five characters, a hyphen, four
    characters, after nine draws. *)
Lemma generateBackupCode_shape (rnd : RandomSource) (pos : nat) :
  (forall k, in_unit_interval (rnd k)) ->
  grouped 5 4 (fst (generateBackupCode rnd pos))
  /\ String.length (fst (generateBackupCode rnd pos)) = 10%nat
  /\ snd (generateBackupCode rnd pos) = (pos + 9)%nat.
Proof.
  intros Hrnd. unfold generateBackupCode.
  cbn -[char_at random_below String.length backup_code_chars append].
  destruct (char_at_draw _ (Hrnd pos)) as (c0 & -> & H0).
  destruct (char_at_draw _ (Hrnd (S pos))) as (c1 & -> & H1).
  destruct (char_at_draw _ (Hrnd (S (S pos)))) as (c2 & -> & H2).
  destruct (char_at_draw _ (Hrnd (S (S (S pos))))) as (c3 & -> & H3).
  destruct (char_at_draw _ (Hrnd (S (S (S (S pos)))))) as (c4 & -> & H4).
  destruct (char_at_draw _ (Hrnd (S (S (S (S (S pos))))))) as (c5 & -> & H5).
  destruct (char_at_draw _ (Hrnd (S (S (S (S (S (S pos)))))))) as (c6 & -> & H6).
  destruct (char_at_draw _ (Hrnd (S (S (S (S (S (S (S pos))))))))) as (c7 & -> & H7).
  destruct (char_at_draw _ (Hrnd (S (S (S (S (S (S (S (S pos)))))))))) as (c8 & -> & H8).
  cbn [append fst snd].
  split; [|split; [reflexivity | lia]].
  exists (String c0 (String c1 (String c2 (String c3 (String c4 EmptyString))))),
         (String c5 (String c6 (String c7 (String c8 EmptyString)))).
  split; [reflexivity|]. split; [reflexivity|]. split; [reflexivity|].
  split.
  - intros i c Hget.
    do 5 (destruct i as [|i]; [injection Hget as <-; assumption|]).
    discriminate Hget.
  - intros i c Hget.
    do 4 (destruct i as [|i]; [injection Hget as <-; assumption|]).
    discriminate Hget.
Qed.

(** A string of ten characters is not made of two groups of five and a
    hyphen. *)
Lemma ten_characters_not_five_five (code : string) :
  String.length code = 10%nat -> ~ grouped 5 5 code.
Proof.
  intros Hlen (a & b & -> & Ha & Hb & _).
  rewrite !string_length_app, Ha, Hb in Hlen. discriminate Hlen.
Qed.

(** The loop that collects the codes adds one code per round. *)
Lemma generateBackupCodes_spec (rnd : RandomSource) (P : string -> Prop) :
  (forall pos, P (fst (generateBackupCode rnd pos))) ->
  forall (n pos : nat) (acc : list string),
    exists codes,
      fst (generateBackupCodes rnd n pos acc) = (acc ++ codes)%list
      /\ length codes = n /\ Forall P codes.
Proof.
  intros HP n. induction n as [|n IH]; intros pos acc.
  - exists []. cbn. rewrite app_nil_r. auto.
  - cbn [generateBackupCodes].
    destruct (generateBackupCode rnd pos) as [code pos'] eqn:Hcode.
    destruct (IH pos' (acc ++ [code])%list) as (codes & Heq & Hlen & Hall).
    exists (code :: codes). rewrite Heq, <- app_assoc. cbn.
    split; [reflexivity|]. split; [lia|].
    constructor; [|exact Hall].
    specialize (HP pos). rewrite Hcode in HP. exact HP.
Qed.

(** A success of [verifyAndEnableTOTP] returns the ten codes just
    generated. *)
Lemma verifyAndEnableTOTP_success_inv (ext : Externals) (rnd : RandomSource)
    (rt : Runtime) (userId token : string) (db db' : Db)
    (backupCodes : list string) (message : string) :
  verifyAndEnableTOTP ext rnd rt userId token db
  = (EnableSuccess backupCodes message, db') ->
  backupCodes = fst (generateBackupCodes rnd 10 0 []).
Proof.
  unfold verifyAndEnableTOTP, try_catch, UserModel.update, bind, read, write,
    ret.
  destruct (UserModel.findByPk userId db) as [user|]; [|discriminate].
  destruct (Mfa.totp _) as [totp|]; [|discriminate].
  destruct (Js.falsy (Mfa.secret totp)); [discriminate|].
  destruct (Mfa.verified totp && Mfa.enabled _); [discriminate|].
  destruct (totp_verify ext (Mfa.secret totp) token (now rt)); [|discriminate].
  cbn [negb]. intros H. injection H as <- _ _. reflexivity.
Qed.

(** C9, on the code.  A successful [verifyAndEnableTOTP] returns exactly
    ten backup codes, over the alphabet 0-9A-Z; each is a group of five
    characters, a hyphen and a group of four, ten characters in all, and
    so none has the documented format of two groups of five. *)
Theorem backup_codes_have_a_short_group (ext : Externals) (rnd : RandomSource)
    (rt : Runtime) (userId token : string) (db db' : Db)
    (backupCodes : list string) (message : string) :
  (forall k, in_unit_interval (rnd k)) ->
  verifyAndEnableTOTP ext rnd rt userId token db
  = (EnableSuccess backupCodes message, db') ->
  length backupCodes = 10%nat
  /\ Forall (fun code =>
               grouped 5 4 code
               /\ String.length code = 10%nat
               /\ ~ grouped 5 5 code) backupCodes.
Proof.
  intros Hrnd Hok.
  rewrite (verifyAndEnableTOTP_success_inv ext rnd rt userId token db db'
             backupCodes message Hok).
  destruct (generateBackupCodes_spec rnd
              (fun code => grouped 5 4 code
                           /\ String.length code = 10%nat
                           /\ ~ grouped 5 5 code))
    with (n := 10%nat) (pos := 0%nat) (acc := @nil string)
    as (codes & -> & Hlen & Hall).
  - intros pos.
    destruct (generateBackupCode_shape rnd pos Hrnd) as (Hshape & Hten & _).
    split; [exact Hshape|]. split; [exact Hten|].
    apply ten_characters_not_five_five. exact Hten.
  - cbn [app]. auto.
Qed.

(** Every draw of the sample source lies in the unit interval. *)
Lemma sample_rnd_in_unit_interval (k : nat) : in_unit_interval (Sample.rnd k).
Proof.
  unfold in_unit_interval, Sample.rnd.
  assert (H := Z.mod_pos_bound (Z.of_nat k) 36 eq_refl).
  change (random_resolution / 36) with 250199979298360.
  change (random_resolution / 72) with 125099989649180.
  unfold random_resolution. lia.
Defined.

(** The statement on the sample database: dave confirms his
    authenticator and receives ten codes of ten characters. *)
Lemma backup_codes_have_a_short_group_witness :
  length
    ["01234-5678"; "9ABCD-EFGH"; "IJKLM-NOPQ"; "RSTUV-WXYZ";
     "01234-5678"; "9ABCD-EFGH"; "IJKLM-NOPQ"; "RSTUV-WXYZ";
     "01234-5678"; "9ABCD-EFGH"] = 10%nat
  /\ Forall (fun code =>
               grouped 5 4 code
               /\ String.length code = 10%nat
               /\ ~ grouped 5 5 code)
       ["01234-5678"; "9ABCD-EFGH"; "IJKLM-NOPQ"; "RSTUV-WXYZ";
        "01234-5678"; "9ABCD-EFGH"; "IJKLM-NOPQ"; "RSTUV-WXYZ";
        "01234-5678"; "9ABCD-EFGH"].
Proof.
  apply (backup_codes_have_a_short_group (Sample.ext false) Sample.rnd
           (Sample.rt 1000 "x") "u-4" "123456" (Sample.db 0)
           (snd (verifyAndEnableTOTP (Sample.ext false) Sample.rnd
                   (Sample.rt 1000 "x") "u-4" "123456" (Sample.db 0)))
           _ "TOTP berhasil diaktifkan. Simpan backup codes dengan aman."
           sample_rnd_in_unit_interval).
  vm_compute. reflexivity.
Defined.

(** One code of the sample source, as [generateBackupCode] returns it. *)
Example generateBackupCode_sample :
  generateBackupCode Sample.rnd 0 = ("01234-5678", 9%nat).
Proof. vm_compute. reflexivity. Qed.

(** * Further properties of the code *)

(** ** Revocation of one token: the three answers *)

(** [revokeToken] answers an id that has no record with [SYSTEM_ERROR]
    (the model throws, the service catches) and writes nothing; the code
    [TOKEN_NOT_FOUND] is given only for a stored token that is already
    revoked; a success means the token was stored and not yet revoked. *)
Theorem revokeToken_answers (rt : Runtime) (tokenId : string) (db : Db) :
  (TokenModel.findByPk tokenId db = None ->
   revokeToken rt tokenId db
   = (RevokeFailure "SYSTEM_ERROR" "An internal system error occurred", db))
  /\
  (forall message db',
     revokeToken rt tokenId db
     = (RevokeFailure "TOKEN_NOT_FOUND" message, db') ->
     db' = db
     /\ exists t, TokenModel.findByPk tokenId db = Some t
                  /\ Token.is_revoked t = true)
  /\
  (forall message db',
     revokeToken rt tokenId db = (RevokeSuccess message, db') ->
     exists t, TokenModel.findByPk tokenId db = Some t
               /\ Token.is_revoked t = false
               /\ TokenModel.findByPk tokenId db'
                  = Some (TokenModel.mark_revoked (now rt) t)).
Proof.
  unfold revokeToken, try_catch, TokenModel.revokeById, bind, read, write, ret,
    throw.
  destruct (TokenModel.findByPk tokenId db) as [t|] eqn:Hfound.
  - destruct (Token.is_revoked t) eqn:Hrev; cbn [negb].
    + split; [discriminate|]. split.
      * intros message db' H. injection H as _ <-. split; [reflexivity|].
        exists t. auto.
      * intros message db' H. discriminate H.
    + split; [discriminate|]. split.
      * intros message db' H. discriminate H.
      * intros message db' H. injection H as _ <-.
        exists t. split; [reflexivity|]. split; [exact Hrev|].
        assert (Hid : Token.id t = tokenId).
        { apply find_some_holds in Hfound. apply String.eqb_eq in Hfound.
          exact Hfound. }
        rewrite Hid.
        apply token_findByPk_update_row; [reflexivity | exact Hfound].
  - split; [reflexivity|]. split; intros message db' H; discriminate H.
Qed.

(** On the sample database: an unknown id, and a stored token. *)
Lemma revokeToken_answers_witness :
  revokeToken (Sample.rt 1000 "x") "t-zz" (Sample.db 0)
  = (RevokeFailure "SYSTEM_ERROR" "An internal system error occurred",
     Sample.db 0)
  /\ exists t, TokenModel.findByPk "t-a" (Sample.db 0) = Some t
               /\ Token.is_revoked t = false
               /\ TokenModel.findByPk "t-a"
                    (snd (revokeToken (Sample.rt 1000 "x") "t-a" (Sample.db 0)))
                  = Some (TokenModel.mark_revoked 1000 t).
Proof.
  split.
  - apply (revokeToken_answers (Sample.rt 1000 "x") "t-zz" (Sample.db 0)).
    reflexivity.
  - destruct (revokeToken_answers (Sample.rt 1000 "x") "t-a" (Sample.db 0))
      as (_ & _ & Hok).
    exact (Hok "Token successfully revoked" _ eq_refl).
Defined.

(** ** Bulk operations on tokens *)

(** The bulk statements of the token model all throw while their [where]
    object is built, and write nothing. *)
Lemma token_model_bulk_statements_throw (userId consumerId : string)
    (olderThanDays : option Z) (now : Z) (db : Db) :
  let gt :=
    Js.TypeError "Cannot read properties of undefined (reading 'gt')" in
  TokenModel.findByTokenHash userId now db = (Thrown gt, db)
  /\ TokenSweep.findActiveTokensByUser userId now db = (Thrown gt, db)
  /\ TokenSweep.revokeAllForUser userId now db = (Thrown gt, db)
  /\ TokenSweep.revokeByConsumerAndUser consumerId userId now db
     = (Thrown gt, db)
  /\ TokenSweep.cleanupExpired olderThanDays now db
     = (Thrown (Js.TypeError
                  "Cannot read properties of undefined (reading 'or')"), db).
Proof. repeat split. Qed.

Lemma revokeAllTokensForUser_run (rt : Runtime) (userId : string) (db : Db) :
  revokeAllTokensForUser rt userId db
  = (CountFailure "SYSTEM_ERROR" "An internal system error occurred", db).
Proof. reflexivity. Qed.

(** [revokeAllTokensForUser] revokes nothing: its one statement,
    [Token.revokeAllForUser], throws on [sequelize.Op.gt], the answer is
    [SYSTEM_ERROR] for every user, no row is written, and every token is
    verified afterwards as it was before. *)
Theorem revokeAllTokensForUser_revokes_nothing (rt : Runtime)
    (userId : string) (db : Db) :
  revokeAllTokensForUser rt userId db
  = (CountFailure "SYSTEM_ERROR" "An internal system error occurred", db)
  /\ (forall (ext : Externals) (env : ProcessEnv) (rt' : Runtime)
             (token consumerId : string),
        verifyToken ext env rt' token consumerId
          (snd (revokeAllTokensForUser rt userId db))
        = verifyToken ext env rt' token consumerId db).
Proof.
  rewrite revokeAllTokensForUser_run. split; reflexivity.
Qed.

(** ** Cleanup of old tokens *)

(** [cleanupExpiredTokens] deletes nothing: [Token.cleanupExpired] throws
    on [sequelize.Op.or], the answer is [SYSTEM_ERROR] whatever the age
    asked for, and the table is left as it was. *)
Theorem cleanupExpiredTokens_deletes_nothing (rt : Runtime)
    (olderThanDays : option Z) (db : Db) :
  cleanupExpiredTokens rt olderThanDays db
  = (CountFailure "SYSTEM_ERROR" "An internal system error occurred", db).
Proof. reflexivity. Qed.

(** ** Issuance by the token service, and the bearer header *)

(** A success of [createToken] appended one row: for the given user and
    consumer, hashed from the value it returns, valid for one hour. *)
Lemma createToken_success_inv (ext : Externals) (rt : Runtime)
    (signatureSuffix userId consumerId ip_address : string)
    (user_agent : option string) (db db' : Db) (id value : string)
    (expiresAt : Z) :
  createToken ext rt signatureSuffix userId consumerId ip_address user_agent db
  = (CreateSuccess id value expiresAt, db') ->
  exists user key,
    UserModel.findByPk userId db = Some user
    /\ User.is_active user = true /\ User.is_locked user = false
    /\ ProviderKeyModel.findActiveKey db = Some key
    /\ id = fresh_uuid rt /\ value = random_hex rt
    /\ expiresAt = now rt + 3600000
    /\ db' = set_tokens
               (fun ts =>
                  (ts ++ [Token.mk id userId consumerId (sha256_hex ext value)
                            ("simulated-signature-" ++ signatureSuffix)
                            (ProviderKey.id key) expiresAt
                            (Token.mkMetadata ip_address user_agent (now rt))
                            false None])%list) db.
Proof.
  unfold createToken, try_catch, TokenModel.create, bind, read, write, ret.
  destruct (UserModel.findByPk userId db) as [user|]; [|discriminate].
  destruct (User.is_active user) eqn:Hact; [|discriminate].
  destruct (User.is_locked user) eqn:Hlock; [discriminate|]. cbn [negb orb].
  destruct (ConsumerModel.findByPk consumerId db) as [consumer|];
    [|discriminate].
  destruct (Consumer.is_active consumer); [|discriminate]. cbn [negb].
  destruct (ProviderKeyModel.findActiveKey db) as [key|]; [|discriminate].
  intros H. injection H as <- <- <- <-.
  exists user, key. repeat split; assumption.
Qed.

(** No round trip through the token service: [createToken] stores a row
    under the hash of the value it returns, unrevoked and valid for one
    hour, and that value presented as [Bearer value] (it holds no blank,
    being hexadecimal) is answered [SYSTEM_ERROR] by
    [validateTokenFromHeader] at any time, which leaves the database as
    it was. *)
Theorem created_token_is_not_validated (ext : Externals) (rt : Runtime)
    (signatureSuffix userId consumerId ip_address : string)
    (user_agent : option string) (db db' : Db) (id value : string)
    (expiresAt : Z) :
  createToken ext rt signatureSuffix userId consumerId ip_address user_agent db
  = (CreateSuccess id value expiresAt, db') ->
  Js.split " " ("Bearer " ++ value) = ["Bearer"; value] ->
  (exists row,
     tokens db' = (tokens db ++ [row])%list
     /\ Token.id row = id
     /\ Token.token_hash row = sha256_hex ext value
     /\ Token.is_revoked row = false
     /\ Token.expires_at row = expiresAt
     /\ expiresAt = now rt + 3600000)
  /\ (forall rt' : Runtime,
        validateTokenFromHeader ext rt' (Some ("Bearer " ++ value)) db'
        = (HeaderFailure "SYSTEM_ERROR" "An internal system error occurred",
           db')).
Proof.
  intros Hcreate Hsplit.
  destruct (createToken_success_inv ext rt signatureSuffix userId consumerId
              ip_address user_agent db db' id value expiresAt Hcreate)
    as (user & key & _ & _ & _ & _ & Hid & Hval & Hexp & ->).
  split.
  - eexists. split; [reflexivity|]. cbn. repeat split. exact Hexp.
  - intros rt'. rewrite validateTokenFromHeader_run.
    change (Js.falsy ("Bearer " ++ value)) with false. cbv iota.
    rewrite Hsplit. reflexivity.
Qed.

(** On the sample database: a token created for alice through the
    portal at 1000 and presented at 2000. *)
Lemma created_token_is_not_validated_witness :
  fst (validateTokenFromHeader (Sample.ext true) (Sample.rt 2000 "y")
         (Some ("Bearer " ++ "c0ffee"))
         (snd (createToken (Sample.ext true) (Sample.rt 1000 "t-7") "beef"
                 "u-1" "c-1" "10.0.0.1" None (Sample.db 0))))
  = HeaderFailure "SYSTEM_ERROR" "An internal system error occurred".
Proof.
  destruct (created_token_is_not_validated (Sample.ext true)
              (Sample.rt 1000 "t-7") "beef" "u-1" "c-1" "10.0.0.1" None
              (Sample.db 0) _ "t-7" "c0ffee" 3601000 eq_refl eq_refl)
    as [_ Hrefused].
  exact (f_equal fst (Hrefused (Sample.rt 2000 "y"))).
Defined.

(** ** What a login writes *)

Lemma find_exists {A} (p : A -> bool) (l : list A) (x : A) :
  In x l -> p x = true -> exists y, find p l = Some y.
Proof.
  intros Hin Hp. destruct (find p l) as [y|] eqn:Hf; [exists y; reflexivity|].
  rewrite (find_none _ _ Hf x Hin) in Hp. discriminate.
Qed.

(** Every successful login leaves the row of the signed-in user with
    [failed_attempts = 0] and [last_login] at the time of the call, and
    has appended exactly one token, unrevoked, for that user and the
    calling consumer, expiring one hour later. *)
Theorem successful_login_resets_and_issues (ext : Externals)
    (env : ProcessEnv) (mfa : MfaVerifiers) (rt : Runtime)
    (credentials : Credentials) (context : Context) (db db' : Db)
    (jwt : string) (expiresAt : Z) (view : UserView) :
  authenticateUser ext env mfa rt credentials context db
  = (AuthSuccess jwt expiresAt view, db') ->
  (exists row,
     UserModel.findByPk (view_id view) db' = Some row
     /\ User.failed_attempts row = 0
     /\ User.last_login row = Some (now rt))
  /\ (exists row,
        UserModel.findByUsername (cred_username credentials) db' = Some row
        /\ User.id row = view_id view
        /\ User.failed_attempts row = 0
        /\ User.last_login row = Some (now rt))
  /\ (exists t,
        tokens db' = (tokens db ++ [t])%list
        /\ Token.user_id t = view_id view
        /\ Token.consumer_id t = ctx_consumerId context
        /\ Token.is_revoked t = false
        /\ Token.expires_at t = now rt + 3600000
        /\ expiresAt = now rt + 3600000).
Proof.
  intros Hok.
  destruct (authenticateUser_success_full ext env mfa rt credentials context
              db db' jwt expiresAt view Hok)
    as (consumer & user & key & Hcons & _ & Hname & _ & _ & _ & _ & -> & ->
        & _ & ->).
  cbn [view_id].
  split; [|split].
  - assert (Hin : In user (users db)).
    { unfold UserModel.findByUsername in Hname. apply find_some in Hname.
      tauto. }
    destruct (find_exists (fun u => String.eqb (User.id u) (User.id user))
                (users db) user Hin (String.eqb_refl _)) as [row0 Hrow0].
    exists (login_reset (now rt) row0). split; [|split; reflexivity].
    change (UserModel.findByPk (User.id user) (set_tokens _ ?d))
      with (UserModel.findByPk (User.id user) d).
    apply user_findByPk_update_row; [reflexivity | exact Hrow0].
  - exists (login_reset (now rt) user).
    split; [|split; [reflexivity|split; reflexivity]].
    change (UserModel.findByUsername ?n (set_tokens _ ?d))
      with (UserModel.findByUsername n d).
    apply user_findByUsername_update_row; [reflexivity|reflexivity|exact Hname].
  - exists (issued_token ext rt context consumer user key).
    split; [reflexivity|]. cbn.
    apply find_some_holds in Hcons. apply String.eqb_eq in Hcons.
    repeat split; auto.
Qed.

(** On the sample database: alice signs in at 1000 with three failures
    on her counter. *)
Lemma successful_login_resets_and_issues_witness :
  exists row,
    UserModel.findByPk "u-1"
      (snd (authenticateUser (Sample.ext false) Sample.env Sample.mfa
              (Sample.rt 1000 "t-1") (Sample.login "alice" "correct horse")
              Sample.from_portal (Sample.db 3))) = Some row
    /\ User.failed_attempts row = 0
    /\ User.last_login row = Some 1000.
Proof.
  destruct (successful_login_resets_and_issues (Sample.ext false) Sample.env
              Sample.mfa (Sample.rt 1000 "t-1")
              (Sample.login "alice" "correct horse") Sample.from_portal
              (Sample.db 3) _ "jwt.t-1.default-jwt-secret" 3601000
              (mkUserView "u-1" "alice" None ["admin"]) eq_refl)
    as (Hrow & _).
  exact Hrow.
Defined.

(** Round trip of the login: the web token that [authenticateUser]
    returns is accepted by [verifyToken] for the same consumer until the
    hour is over, and answers with the same user and roles, provided the
    JWT library reads back the record id it signed and accepts its own
    signature, the id given to the new row is not empty nor already in
    use, and the user's row is the row of its primary key. *)
Theorem login_then_verify (ext : Externals) (env : ProcessEnv)
    (mfa : MfaVerifiers) (rt rt' : Runtime) (credentials : Credentials)
    (context : Context) (db db' : Db) (jwt : string) (expiresAt : Z)
    (view : UserView) (payload : JwtPayload) :
  authenticateUser ext env mfa rt credentials context db
  = (AuthSuccess jwt expiresAt view, db') ->
  jwt_decode ext jwt = Some payload ->
  jwt_token_id payload = Some (fresh_uuid rt) ->
  jwt_verify ext jwt (jwt_secret env) (now rt') = true ->
  Js.falsy (fresh_uuid rt) = false ->
  (forall t, In t (tokens db) -> Token.id t <> fresh_uuid rt) ->
  (forall u, UserModel.findByUsername (cred_username credentials) db = Some u ->
             UserModel.findByPk (User.id u) db = Some u) ->
  now rt' <= expiresAt ->
  fst (verifyToken ext env rt' jwt (ctx_consumerId context) db')
  = VerifySuccess view.
Proof.
  intros Hok Hdec Hid Hver Hfalsy Hfresh Hpk Hahead.
  exact (issued_token_verifies ext env mfa rt rt' credentials context db db'
           jwt expiresAt view payload Hok Hdec Hid Hver Hfalsy Hfresh Hpk
           Hahead).
Qed.

(** On the sample database: alice signs in at 1000 and presents her web
    token at 2000. *)
Lemma login_then_verify_witness :
  fst (verifyToken (Sample.ext false) Sample.env (Sample.rt 2000 "y")
         "jwt.t-1.default-jwt-secret" "c-1"
         (snd (authenticateUser (Sample.ext false) Sample.env Sample.mfa
                 (Sample.rt 1000 "t-1") (Sample.login "alice" "correct horse")
                 Sample.from_portal (Sample.db 0))))
  = VerifySuccess (mkUserView "u-1" "alice" None ["admin"]).
Proof.
  apply (login_then_verify (Sample.ext false) Sample.env Sample.mfa
           (Sample.rt 1000 "t-1") (Sample.rt 2000 "y")
           (Sample.login "alice" "correct horse") Sample.from_portal
           (Sample.db 0) _ "jwt.t-1.default-jwt-secret" 3601000
           (mkUserView "u-1" "alice" None ["admin"])
           (mkJwtPayload "" "" "" (Some "t-1") 0 0)
           eq_refl eq_refl eq_refl eq_refl eq_refl).
  - intros t [<-|[<-|[]]]; discriminate.
  - intros u Hu. injection Hu as <-. reflexivity.
  - vm_compute. discriminate.
Defined.

(** ** Refusals that write nothing, and one that writes *)

(** The steps of [authenticateUser] up to the lookup of the user, for a
    request that the consumer checks admit. *)
Ltac pass_consumer_checks Hadmit :=
  let Hu := fresh "Hu" in
  let Hp := fresh "Hp" in
  let consumer := fresh "consumer" in
  let Hc := fresh "Hc" in
  let Hact := fresh "Hact" in
  let Hip := fresh "Hip" in
  destruct Hadmit as (Hu & Hp & consumer & Hc & Hact & Hip);
  unfold authenticateUser, try_catch, authenticateUser_body;
  rewrite Hu, Hp; cbn [orb];
  unfold bind at 1; unfold read at 1; rewrite Hc, Hact; cbn [negb];
  unfold bind at 1;
  match goal with
  | |- context [(if has_allowed_ips consumer then ?a else ?b) ?d] =>
      replace ((if has_allowed_ips consumer then a else b) d)
        with (@Returned bool true, d)
        by (destruct (has_allowed_ips consumer);
            [unfold read; rewrite Hip; reflexivity | reflexivity])
  end;
  cbn [negb]; unfold bind at 1; unfold read at 1.

(** A locked account is refused with [ACCOUNT_LOCKED] whatever the
    password, right or wrong, and nothing is written: the failure counter
    does not move. *)
Theorem locked_account_refused (ext : Externals) (env : ProcessEnv)
    (mfa : MfaVerifiers) (rt : Runtime) (credentials : Credentials)
    (context : Context) (user : User.t) (db : Db) :
  consumer_admits credentials context db ->
  UserModel.findByUsername (cred_username credentials) db = Some user ->
  User.is_locked user = true ->
  authenticateUser ext env mfa rt credentials context db
  = (AuthFailure "ACCOUNT_LOCKED"
       "Account is locked. Please contact administrator", db).
Proof.
  intros Hadmit Hname Hlock.
  pass_consumer_checks Hadmit.
  rewrite Hname, Hlock. reflexivity.
Qed.

(** A user name that selects no active row, because it is unknown or
    because the account is deactivated, is answered [INVALID_USER], a
    code of its own and not the one of a wrong password, and nothing is
    written. *)
Theorem unknown_or_inactive_user_refused (ext : Externals) (env : ProcessEnv)
    (mfa : MfaVerifiers) (rt : Runtime) (credentials : Credentials)
    (context : Context) (db : Db) :
  consumer_admits credentials context db ->
  (forall u, In u (users db) ->
             User.username u = cred_username credentials ->
             User.is_active u = false) ->
  authenticateUser ext env mfa rt credentials context db
  = (AuthFailure "INVALID_USER" "Invalid username or password", db).
Proof.
  intros Hadmit Hnone.
  assert (Hname : UserModel.findByUsername (cred_username credentials) db
                  = None).
  { unfold UserModel.findByUsername.
    destruct (find _ (users db)) as [u|] eqn:Hf; [|reflexivity].
    apply find_some in Hf. destruct Hf as [Hin Hp].
    apply andb_prop in Hp. destruct Hp as [Heq Hact].
    apply String.eqb_eq in Heq. rewrite (Hnone u Hin Heq) in Hact.
    discriminate. }
  pass_consumer_checks Hadmit.
  rewrite Hname. reflexivity.
Qed.

(** With the right password but no active signing key, the call fails
    with [CONFIGURATION_ERROR] and issues no token, yet it has already
    reset the failure counter and stamped [last_login]: the reset is
    written before the key is looked up. *)
Theorem login_without_signing_key (ext : Externals) (env : ProcessEnv)
    (mfa : MfaVerifiers) (rt : Runtime) (credentials : Credentials)
    (context : Context) (user : User.t) (db : Db) :
  consumer_admits credentials context db ->
  UserModel.findByUsername (cred_username credentials) db = Some user ->
  User.is_locked user = false ->
  bcrypt_compare ext (cred_password credentials) (User.password_hash user)
  = true ->
  mfa_enabled user = false ->
  ProviderKeyModel.findActiveKey db = None ->
  authenticateUser ext env mfa rt credentials context db
  = (AuthFailure "CONFIGURATION_ERROR"
       "System configuration error: No active signing key",
     UserModel.update_row (User.id user) (login_reset (now rt)) db).
Proof.
  intros Hadmit Hname Hlock Hpw Hmfa Hkey.
  pass_consumer_checks Hadmit.
  rewrite Hname, Hlock, Hpw. cbn [negb].
  unfold bind at 1.
  replace ((match User.mfa_settings user with
            | Some settings =>
                if Mfa.enabled settings
                then authenticateUser_mfa mfa credentials user settings
                else ret None
            | None => ret None
            end) db) with (@Returned (option AuthResult) None, db).
  - unfold authenticateUser_issue, UserModel.update, bind, write, read, ret.
    change (ProviderKeyModel.findActiveKey (UserModel.update_row _ _ db))
      with (ProviderKeyModel.findActiveKey db).
    rewrite Hkey. reflexivity.
  - unfold mfa_enabled in Hmfa.
    destruct (User.mfa_settings user) as [settings|]; [|reflexivity].
    rewrite Hmfa. reflexivity.
Qed.

(** The portal of the sample data admits a request that carries both
    credentials. *)
Lemma fixture_portal_admits (username password : string) (d : Db) :
  Js.falsy username = false -> Js.falsy password = false ->
  consumers d = [Sample.portal; Sample.backoffice] ->
  consumer_admits (Sample.login username password) Sample.from_portal d.
Proof.
  intros Hu Hp Hd. split; [exact Hu|]. split; [exact Hp|].
  exists Sample.portal. unfold ConsumerModel.findByPk. rewrite Hd.
  split; [reflexivity|]. split; [reflexivity|discriminate].
Defined.

Lemma locked_account_refused_witness :
  authenticateUser (Sample.ext false) Sample.env Sample.mfa
    (Sample.rt 1000 "t-1") (Sample.login "erin" "tr0ub4dor")
    Sample.from_portal Fixture.db
  = (AuthFailure "ACCOUNT_LOCKED"
       "Account is locked. Please contact administrator", Fixture.db).
Proof.
  apply (locked_account_refused (Sample.ext false) Sample.env Sample.mfa
           (Sample.rt 1000 "t-1") (Sample.login "erin" "tr0ub4dor")
           Sample.from_portal Fixture.erin Fixture.db).
  - apply fixture_portal_admits; reflexivity.
  - reflexivity.
  - reflexivity.
Defined.

Lemma unknown_or_inactive_user_refused_witness :
  authenticateUser (Sample.ext false) Sample.env Sample.mfa
    (Sample.rt 1000 "t-1") (Sample.login "frank" "hunter2")
    Sample.from_portal Fixture.db
  = (AuthFailure "INVALID_USER" "Invalid username or password", Fixture.db).
Proof.
  apply (unknown_or_inactive_user_refused (Sample.ext false) Sample.env
           Sample.mfa (Sample.rt 1000 "t-1") (Sample.login "frank" "hunter2")
           Sample.from_portal Fixture.db).
  - apply fixture_portal_admits; reflexivity.
  - intros u [<-|[<-|[<-|[]]]] Hname; try discriminate Hname. reflexivity.
Defined.

Lemma login_without_signing_key_witness :
  authenticateUser (Sample.ext false) Sample.env Sample.mfa
    (Sample.rt 1000 "t-1") (Sample.login "alice" "correct horse")
    Sample.from_portal Fixture.db_without_key
  = (AuthFailure "CONFIGURATION_ERROR"
       "System configuration error: No active signing key",
     UserModel.update_row "u-1" (login_reset 1000) Fixture.db_without_key).
Proof.
  apply (login_without_signing_key (Sample.ext false) Sample.env Sample.mfa
           (Sample.rt 1000 "t-1") (Sample.login "alice" "correct horse")
           Sample.from_portal (Sample.alice 2) Fixture.db_without_key).
  - apply fixture_portal_admits; reflexivity.
  - reflexivity.
  - reflexivity.
  - reflexivity.
  - reflexivity.
  - reflexivity.
Defined.

(** ** What a login never changes *)

Lemma row_kept_refl (r : User.t) : row_kept r r.
Proof. unfold row_kept. tauto. Qed.

Lemma row_kept_trans (a b c : User.t) :
  row_kept a b -> row_kept b c -> row_kept a c.
Proof.
  unfold row_kept.
  intros (H1 & H2 & H3 & H4 & H5 & H6 & H7) (K1 & K2 & K3 & K4 & K5 & K6 & K7).
  repeat split; try congruence. auto.
Qed.

Lemma login_frame_refl (db : Db) : login_frame db db.
Proof.
  repeat split.
  - exists []. symmetry. apply app_nil_r.
  - exists (fun r => r). split; [symmetry; apply map_id|].
    intros r. apply row_kept_refl.
Qed.

Lemma login_frame_trans (a b c : Db) :
  login_frame a b -> login_frame b c -> login_frame a c.
Proof.
  intros (H1 & H2 & H3 & [ad Ht] & [g [Hg Hk]])
         (K1 & K2 & K3 & [ad' Ht'] & [g' [Hg' Hk']]).
  split; [congruence|]. split; [congruence|]. split; [congruence|].
  split.
  - exists (ad ++ ad')%list. rewrite Ht', Ht, app_assoc. reflexivity.
  - exists (fun r => g' (g r)). split.
    + rewrite Hg', Hg, map_map. reflexivity.
    + intros r. eapply row_kept_trans; [apply Hk | apply Hk'].
Qed.

Lemma login_frame_update_row (uid : string) (f : User.t -> User.t) (db : Db) :
  (forall r, row_kept r (f r)) ->
  login_frame db (UserModel.update_row uid f db).
Proof.
  intros Hf. repeat split.
  - exists []. symmetry. apply app_nil_r.
  - exists (fun u => if String.eqb (User.id u) uid then f u else u).
    split; [reflexivity|].
    intros r. destruct (String.eqb (User.id r) uid);
      [apply Hf | apply row_kept_refl].
Qed.

Lemma login_frame_append (t : Token.t) (db : Db) :
  login_frame db (set_tokens (fun ts => (ts ++ [t])%list) db).
Proof.
  repeat split.
  - exists [t]. reflexivity.
  - exists (fun r => r). split; [symmetry; apply map_id|].
    intros r. apply row_kept_refl.
Qed.

(** The five states one call of [authenticateUser] can leave. *)
Lemma authenticateUser_writes (ext : Externals) (env : ProcessEnv)
    (mfa : MfaVerifiers) (rt : Runtime) (credentials : Credentials)
    (context : Context) (db db' : Db) (result : AuthResult) :
  authenticateUser ext env mfa rt credentials context db = (result, db') ->
  db' = db
  \/ exists uid,
       db' = UserModel.update_row uid count_failure db
       \/ db' = UserModel.update_row uid (UserModel.with_is_locked true)
                  (UserModel.update_row uid count_failure db)
       \/ db' = UserModel.update_row uid (login_reset (now rt)) db
       \/ exists t,
            db' = set_tokens (fun ts => (ts ++ [t])%list)
                    (UserModel.update_row uid (login_reset (now rt)) db).
Proof.
  unfold authenticateUser, try_catch, authenticateUser_body.
  destruct (Js.falsy (cred_username credentials)
            || Js.falsy (cred_password credentials));
    [intros H; injection H as _ <-; left; reflexivity|].
  unfold bind at 1. unfold read at 1.
  destruct (ConsumerModel.findByPk (ctx_consumerId context) db)
    as [consumer|]; [|intros H; injection H as _ <-; left; reflexivity].
  destruct (Consumer.is_active consumer);
    [|intros H; injection H as _ <-; left; reflexivity].
  cbn [negb]. unfold bind at 1.
  destruct (ip_check_reads consumer context db) as [b Hb]. rewrite Hb.
  destruct b; [|intros H; injection H as _ <-; left; reflexivity].
  cbn [negb]. unfold bind at 1. unfold read at 1.
  destruct (UserModel.findByUsername (cred_username credentials) db)
    as [user|]; [|intros H; injection H as _ <-; left; reflexivity].
  destruct (User.is_locked user);
    [intros H; injection H as _ <-; left; reflexivity|].
  destruct (bcrypt_compare ext (cred_password credentials)
              (User.password_hash user)).
  - cbn [negb]. unfold bind at 1.
    assert (Hgate :
      (exists e,
         (match User.mfa_settings user with
          | Some settings =>
              if Mfa.enabled settings
              then authenticateUser_mfa mfa credentials user settings
              else ret None
          | None => ret None
          end) db = (Thrown e, db))
      \/ (match User.mfa_settings user with
          | Some settings =>
              if Mfa.enabled settings
              then authenticateUser_mfa mfa credentials user settings
              else ret None
          | None => ret None
          end) db = (Returned None, db)).
    { destruct (User.mfa_settings user) as [settings|]; [|right; reflexivity].
      destruct (Mfa.enabled settings); [|right; reflexivity].
      left. eexists. apply authenticateUser_mfa_throws. }
    destruct Hgate as [[e ->] | ->];
      [intros H; injection H as _ <-; left; reflexivity|].
    unfold authenticateUser_issue, UserModel.update, TokenModel.create,
      bind, write, read, ret. cbv beta iota. fold (login_reset (now rt)).
    match goal with
    | |- context [ProviderKeyModel.findActiveKey ?d] =>
        destruct (ProviderKeyModel.findActiveKey d) as [key|]
    end.
    + match goal with
      | |- context [UserModel.findWithRoles ?i ?d] =>
          destruct (UserModel.findWithRoles i d) as [[u roles]|]
      end; intros H; injection H as _ <-; right; exists (User.id user);
        right; right; right; eexists; reflexivity.
    + intros H; injection H as _ <-. right. exists (User.id user).
      right; right; left; reflexivity.
  - cbn [negb].
    unfold UserModel.increment_failed_attempts, UserModel.update, bind,
      write, read, ret. cbv beta iota. fold count_failure.
    match goal with
    | |- context [UserModel.findByPk ?i ?d] =>
        destruct (UserModel.findByPk i d) as [row|]
    end;
      destruct (orm_increment_returning ext);
      match goal with |- context [5 <=? ?n] => destruct (5 <=? n) end;
      cbn [User.id UserModel.with_failed_attempts];
      intros H; injection H as _ <-; right; exists (User.id user);
      ((left; reflexivity) || (right; left; reflexivity)).
Qed.

Lemma authenticateUser_frame (ext : Externals) (env : ProcessEnv)
    (mfa : MfaVerifiers) (rt : Runtime) (credentials : Credentials)
    (context : Context) (db : Db) :
  login_frame db (snd (authenticateUser ext env mfa rt credentials context db)).
Proof.
  destruct (authenticateUser ext env mfa rt credentials context db)
    as [result db'] eqn:Hrun. cbn [snd].
  assert (Hcount : forall r, row_kept r (count_failure r))
    by (intros r; unfold row_kept; cbn; tauto).
  assert (Hlock : forall r, row_kept r (UserModel.with_is_locked true r))
    by (intros r; unfold row_kept; cbn; tauto).
  assert (Hreset : forall r, row_kept r (login_reset (now rt) r))
    by (intros r; unfold row_kept; cbn; tauto).
  destruct (authenticateUser_writes ext env mfa rt credentials context db db'
              result Hrun)
    as [-> | (uid & [-> | [-> | [-> | [t ->]]]])].
  - apply login_frame_refl.
  - apply login_frame_update_row. exact Hcount.
  - eapply login_frame_trans; apply login_frame_update_row; assumption.
  - apply login_frame_update_row. exact Hreset.
  - eapply login_frame_trans;
      [apply login_frame_update_row; exact Hreset | apply login_frame_append].
Qed.

(** Whatever logins are attempted, with whatever credentials and
    outcomes, [authenticateUser] leaves the consumers, the provider keys
    and the role assignments untouched, only appends token rows, changes
    no user's name, password hash, activity or second-factor settings,
    and never unlocks an account: a row that is locked stays locked. *)
Theorem logins_never_unlock (ext : Externals) (env : ProcessEnv)
    (mfa : MfaVerifiers) (attempts : list Attempt) (db : Db) :
  login_frame db (snd (authenticate_all ext env mfa attempts db))
  /\ forall uid u,
       UserModel.findByPk uid db = Some u ->
       User.is_locked u = true ->
       exists u',
         UserModel.findByPk uid
           (snd (authenticate_all ext env mfa attempts db)) = Some u'
         /\ User.is_locked u' = true
         /\ User.password_hash u' = User.password_hash u.
Proof.
  assert (Hframe : forall l d,
            login_frame d (snd (authenticate_all ext env mfa l d))).
  { induction l as [|[[rt c] x] l IH]; intros d.
    - apply login_frame_refl.
    - cbn [authenticate_all].
      assert (Hstep := authenticateUser_frame ext env mfa rt c x d).
      destruct (authenticateUser ext env mfa rt c x d) as [r d1].
      cbn [snd] in Hstep.
      assert (Hrest := IH d1).
      destruct (authenticate_all ext env mfa l d1) as [rs d2].
      cbn [snd] in *. eapply login_frame_trans; eassumption. }
  split; [apply Hframe|].
  intros uid u Hu Hlocked.
  destruct (Hframe attempts db) as (_ & _ & _ & _ & g & Hg & Hkept).
  exists (g u).
  destruct (Hkept u) as (Hid & _ & _ & Hhash & _ & _ & Hl).
  split; [|split; [apply Hl; exact Hlocked | exact Hhash]].
  unfold UserModel.findByPk in *. rewrite Hg, find_map_stable.
  - rewrite Hu. reflexivity.
  - intros r. destruct (Hkept r) as (Hr & _). rewrite Hr. reflexivity.
Qed.

(** On the sample data: erin, locked, after three logins of which one is
    hers with the right password and one is alice's success. *)
Lemma logins_never_unlock_witness :
  exists u',
    UserModel.findByPk "u-5"
      (snd (authenticate_all (Sample.ext false) Sample.env Sample.mfa
              [(Sample.rt 1000 "t-1", Sample.login "erin" "tr0ub4dor",
                Sample.from_portal);
               (Sample.rt 2000 "t-2", Sample.login "alice" "correct horse",
                Sample.from_portal);
               (Sample.rt 3000 "t-3", Sample.login "erin" "guess",
                Sample.from_portal)]
              Fixture.db)) = Some u'
    /\ User.is_locked u' = true
    /\ User.password_hash u' = User.password_hash Fixture.erin.
Proof.
  destruct (logins_never_unlock (Sample.ext false) Sample.env Sample.mfa
              [(Sample.rt 1000 "t-1", Sample.login "erin" "tr0ub4dor",
                Sample.from_portal);
               (Sample.rt 2000 "t-2", Sample.login "alice" "correct horse",
                Sample.from_portal);
               (Sample.rt 3000 "t-3", Sample.login "erin" "guess",
                Sample.from_portal)]
              Fixture.db) as [_ Hlocked].
  exact (Hlocked "u-5" Fixture.erin eq_refl eq_refl).
Defined.

(** ** The key table under rotation and revocation *)

Lemma count_active_revoke_if (keyId : string) (ks : list ProviderKey.t) :
  (count_active (map (ProviderKeyModel.revoke_if keyId) ks)
   <= count_active ks)%nat.
Proof.
  unfold count_active. induction ks as [|k rest IH]; [apply le_n|].
  cbn [map filter]. unfold ProviderKeyModel.revoke_if at 1.
  destruct (String.eqb (id k) keyId).
  - cbn [ProviderKeyModel.is_active ProviderKeyModel.with_status status
         status_eqb].
    destruct (ProviderKeyModel.is_active k); cbn [length]; lia.
  - destruct (ProviderKeyModel.is_active k); cbn [length]; lia.
Qed.

Lemma versions_revoke_if (keyId : string) (ks : list ProviderKey.t) :
  map key_version (map (ProviderKeyModel.revoke_if keyId) ks)
  = map key_version ks.
Proof.
  rewrite map_map. apply map_ext. intros k.
  unfold ProviderKeyModel.revoke_if.
  destruct (String.eqb (id k) keyId); reflexivity.
Qed.

Lemma versions_retire (ks : list ProviderKey.t) :
  map key_version (map ProviderKeyModel.retire ks) = map key_version ks.
Proof.
  rewrite map_map. apply map_ext. intros k.
  unfold ProviderKeyModel.retire.
  destruct (ProviderKeyModel.is_active k); reflexivity.
Qed.

Lemma NoDup_snoc {A} (l : list A) (x : A) :
  NoDup l -> ~ In x l -> NoDup (l ++ [x]).
Proof.
  intros Hl Hx. induction Hl as [|y l Hy Hl IH]; cbn.
  - constructor; [intros [] | constructor].
  - constructor.
    + rewrite in_app_iff. intros [Hin | [Heq | []]].
      * exact (Hy Hin).
      * apply Hx. left. symmetry. exact Heq.
    + apply IH. intros Hin. apply Hx. right. exact Hin.
Qed.

Lemma key_table_ok_step (op : KeyOp) (db : Db) :
  key_table_ok db -> key_table_ok (run_key_op op db).
Proof.
  intros [Hone Hdistinct].
  destruct op as [faults publicKey privateKeyEncrypted keyAlgorithm createdBy rt
                 | fault target updatedBy]; cbn [run_key_op].
  - destruct (rotateKey_effect faults publicKey privateKeyEncrypted
                keyAlgorithm createdBy rt db) as [-> | ->];
      [split; assumption|].
    unfold key_table_ok, rotated, count_active.
    cbn [provider_keys set_provider_keys]. split.
    + rewrite filter_app, no_active_after_retire. cbn. lia.
    + rewrite map_app, versions_retire. cbn [map].
      apply NoDup_snoc; [exact Hdistinct|].
      rewrite in_map_iff. intros (k & Hv & Hk).
      destruct (new_version_spec db) as (Habove & _).
      specialize (Habove k Hk). cbn [rotated_in key_version] in Hv. lia.
  - destruct (revokeKey_effect fault target updatedBy db) as [-> | ->];
      [split; assumption|].
    unfold key_table_ok. cbn [provider_keys set_provider_keys]. split.
    + eapply Nat.le_trans; [apply count_active_revoke_if | exact Hone].
    + rewrite versions_revoke_if. exact Hdistinct.
Qed.

(** With at most one active row, [findActiveKey] finds a key exactly when
    it is a row of the table whose status is [active]. *)
Lemma findActiveKey_unique (db : Db) (k : ProviderKey.t) :
  (count_active (provider_keys db) <= 1)%nat ->
  ProviderKeyModel.findActiveKey db = Some k
  <-> In k (provider_keys db) /\ status k = active.
Proof.
  unfold count_active, ProviderKeyModel.findActiveKey. intros Hone.
  assert (Hmem : forall x,
            In x (filter ProviderKeyModel.is_active (provider_keys db))
            <-> In x (provider_keys db) /\ status x = active).
  { intros x. rewrite filter_In. unfold ProviderKeyModel.is_active.
    destruct (status x); cbn; intuition discriminate. }
  destruct (filter ProviderKeyModel.is_active (provider_keys db))
    as [|a [|b rest]] eqn:Hf.
  - cbn. split; [discriminate|]. intros H. apply Hmem in H. destruct H.
  - cbn. split.
    + intros H; injection H as <-. apply Hmem. left. reflexivity.
    + intros H. apply Hmem in H. destruct H as [<- | []]. reflexivity.
  - cbn in Hone. lia.
Qed.

(** Every sequence of [rotateKey] and [revokeKey] calls, whatever faults
    the storage layer injects, keeps the key table with at most one
    active row and with pairwise distinct versions; on such a table
    [findActiveKey] returns a key exactly when that key is a row whose
    status is [active], and returns nothing exactly when no row is
    active. *)
Theorem key_table_stays_ok (ops : list KeyOp) (db : Db) :
  key_table_ok db ->
  key_table_ok (run_key_ops ops db)
  /\ (forall k,
        ProviderKeyModel.findActiveKey (run_key_ops ops db) = Some k
        <-> In k (provider_keys (run_key_ops ops db)) /\ status k = active)
  /\ (ProviderKeyModel.findActiveKey (run_key_ops ops db) = None
      <-> forall k, In k (provider_keys (run_key_ops ops db)) ->
                    status k <> active).
Proof.
  intros Hok.
  assert (Hafter : key_table_ok (run_key_ops ops db)).
  { revert db Hok. unfold run_key_ops.
    induction ops as [|op rest IH]; intros db Hok; [exact Hok|].
    cbn [fold_left]. apply IH. apply key_table_ok_step. exact Hok. }
  split; [exact Hafter|].
  destruct Hafter as [Hone _].
  split; [intros k; apply findActiveKey_unique; exact Hone|].
  split.
  - intros Hnone k Hk Hactive.
    assert (Hsome : ProviderKeyModel.findActiveKey (run_key_ops ops db)
                    = Some k)
      by (apply findActiveKey_unique; [exact Hone | split; assumption]).
    rewrite Hnone in Hsome. discriminate.
  - intros Hnone.
    destruct (ProviderKeyModel.findActiveKey (run_key_ops ops db)) as [k|]
      eqn:Hfound; [|reflexivity].
    apply findActiveKey_unique in Hfound; [|exact Hone].
    destruct Hfound as [Hk Hactive]. destruct (Hnone k Hk Hactive).
Qed.

Lemma fixture_key_table_ok : key_table_ok Fixture.db.
Proof.
  split; [cbn; lia|].
  cbn. repeat constructor; cbn; intuition discriminate.
Defined.

(** On the sample table: a rotation, the revocation of the new key, a
    rotation that the storage layer refuses at commit, and a rotation. *)
Lemma key_table_stays_ok_witness :
  key_table_ok
    (run_key_ops
       [OpRotate ProviderKeyModel.no_fault "pub-2" "enc-2" "RSA-2048" None
          (Sample.rt 1000 "k-2");
        OpRevoke None "k-2" None;
        OpRotate (fun s => match s with
                           | ProviderKeyModel.CommitTx =>
                               Some (Js.PlainError "connection lost")
                           | _ => None
                           end) "pub-3" "enc-3" "RSA-2048" None
          (Sample.rt 2000 "k-3");
        OpRotate ProviderKeyModel.no_fault "pub-4" "enc-4" "RSA-4096" None
          (Sample.rt 3000 "k-4")]
       Fixture.db).
Proof.
  apply (key_table_stays_ok
           [OpRotate ProviderKeyModel.no_fault "pub-2" "enc-2" "RSA-2048" None
              (Sample.rt 1000 "k-2");
            OpRevoke None "k-2" None;
            OpRotate (fun s => match s with
                               | ProviderKeyModel.CommitTx =>
                                   Some (Js.PlainError "connection lost")
                               | _ => None
                               end) "pub-3" "enc-3" "RSA-2048" None
              (Sample.rt 2000 "k-3");
            OpRotate ProviderKeyModel.no_fault "pub-4" "enc-4" "RSA-4096" None
              (Sample.rt 3000 "k-4")]
           Fixture.db fixture_key_table_ok).
Defined.

(** ** The key service *)

Lemma revokeProviderKey_run (fault : option Js.Error) (keyId : string)
    (adminId : option string) (db : Db) :
  revokeProviderKey fault keyId adminId db
  = match ProviderKeyModel.findByPk keyId db, fault with
    | Some _, None =>
        (KeyRevokeSuccess "Key successfully revoked",
         set_provider_keys (map (ProviderKeyModel.revoke_if keyId)) db)
    | _, _ =>
        (KeyRevokeFailure "SYSTEM_ERROR" "An internal system error occurred",
         db)
    end.
Proof.
  unfold revokeProviderKey, try_catch, ProviderKeyModel.revokeKey, bind, read.
  destruct (ProviderKeyModel.findByPk keyId db) as [key|] eqn:Hkey;
    [|reflexivity].
  destruct fault as [e|]; [reflexivity|]. cbn.
  apply find_some_holds in Hkey. apply String.eqb_eq in Hkey.
  rewrite Hkey. reflexivity.
Qed.

Lemma count_active_none (ks : list ProviderKey.t) :
  count_active ks = 0%nat ->
  ProviderKeyModel.greatest_version (filter ProviderKeyModel.is_active ks)
  = None.
Proof.
  unfold count_active. intros H. apply length_zero_iff_nil in H.
  rewrite H. reflexivity.
Qed.

(** [revokeProviderKey] never answers [KEY_NOT_FOUND]: for an id that no
    row carries it answers [SYSTEM_ERROR] and changes nothing, and so it
    does when the storage layer refuses the update.  It succeeds exactly
    when the row exists and the update goes through, also on a key that
    is revoked already; the row is [revoked] afterwards and the other
    tables are as before. *)
Theorem revokeProviderKey_answers (fault : option Js.Error) (keyId : string)
    (adminId : option string) (db : Db) :
  (forall message,
     fst (revokeProviderKey fault keyId adminId db)
     <> KeyRevokeFailure "KEY_NOT_FOUND" message)
  /\ (ProviderKeyModel.findByPk keyId db = None \/ fault <> None ->
      revokeProviderKey fault keyId adminId db
      = (KeyRevokeFailure "SYSTEM_ERROR" "An internal system error occurred",
         db))
  /\ (forall k,
        ProviderKeyModel.findByPk keyId db = Some k -> fault = None ->
        fst (revokeProviderKey fault keyId adminId db)
        = KeyRevokeSuccess "Key successfully revoked"
        /\ ProviderKeyModel.findByPk keyId
             (snd (revokeProviderKey fault keyId adminId db))
           = Some (ProviderKeyModel.with_status revoked k)
        /\ users (snd (revokeProviderKey fault keyId adminId db)) = users db
        /\ tokens (snd (revokeProviderKey fault keyId adminId db))
           = tokens db).
Proof.
  rewrite revokeProviderKey_run.
  split; [|split].
  - intros message.
    destruct (ProviderKeyModel.findByPk keyId db), fault; cbn; discriminate.
  - intros [Hnone | Hfault].
    + rewrite Hnone. reflexivity.
    + destruct (ProviderKeyModel.findByPk keyId db), fault;
        try reflexivity. contradiction Hfault. reflexivity.
  - intros k Hk ->. rewrite Hk. cbn [fst snd].
    split; [reflexivity|]. split; [|split; reflexivity].
    rewrite (key_findByPk_map keyId (ProviderKeyModel.revoke_if keyId) db k
               (revoke_if_keeps_id keyId) Hk).
    unfold ProviderKeyModel.revoke_if.
    apply find_some_holds in Hk. rewrite Hk. reflexivity.
Qed.

Lemma revokeProviderKey_answers_witness :
  fst (revokeProviderKey None "k-1" None Fixture.db)
  = KeyRevokeSuccess "Key successfully revoked"
  /\ ProviderKeyModel.findByPk "k-1"
       (snd (revokeProviderKey None "k-1" None Fixture.db))
     = Some (ProviderKeyModel.with_status revoked Sample.key1)
  /\ users (snd (revokeProviderKey None "k-1" None Fixture.db))
     = users Fixture.db
  /\ tokens (snd (revokeProviderKey None "k-1" None Fixture.db))
     = tokens Fixture.db.
Proof.
  destruct (revokeProviderKey_answers None "k-1" None Fixture.db)
    as (_ & _ & Hfound).
  exact (Hfound Sample.key1 eq_refl eq_refl).
Defined.

(** [signWithProviderKey] signs only with a stored key whose status is
    [active]: a successful answer names a row of the table that is
    active, the row of the id asked for when one is given and the one
    [findActiveKey] returns otherwise; the signature is [signData] of the
    data under the decryption of that row's private key; the database is
    never changed, whatever the answer. *)
Theorem signWithProviderKey_success_inv (crypto : KeyCrypto) (env : KeyEnv)
    (fault : option Js.Error) (data : string) (keyId passphrase : option string)
    (db : Db) :
  snd (signWithProviderKey crypto env fault data keyId passphrase db) = db
  /\ forall signature kid version algorithm,
       fst (signWithProviderKey crypto env fault data keyId passphrase db)
       = SignSuccess signature kid version algorithm ->
       exists key privateKey,
         In key (provider_keys db)
         /\ status key = active
         /\ (if Js.falsy_opt keyId
             then ProviderKeyModel.findActiveKey db = Some key
             else ProviderKeyModel.findByPk kid db = Some key
                  /\ keyId = Some kid)
         /\ kid = id key
         /\ version = key_version key
         /\ algorithm = key_algorithm key
         /\ decryptPrivateKey crypto (private_key_encrypted key)
              (match passphrase with
               | Some p => p
               | None => Js.or_else (KEY_PASSPHRASE env) "default-passphrase"
               end) = Some privateKey
         /\ signData crypto data privateKey = Some signature.
Proof.
  unfold signWithProviderKey, try_catch, bind.
  set (pass := match passphrase with
               | Some p => p
               | None => Js.or_else (KEY_PASSPHRASE env) "default-passphrase"
               end).
  set (lookup := match keyId with
                 | Some keyId =>
                     if Js.falsy keyId
                     then read ProviderKeyModel.findActiveKey
                     else read (ProviderKeyModel.findByPk keyId)
                 | None => read ProviderKeyModel.findActiveKey
                 end).
  assert (Hlookup :
            exists found,
              lookup db = (Returned found, db)
              /\ forall key, found = Some key ->
                   In key (provider_keys db)
                   /\ if Js.falsy_opt keyId
                      then ProviderKeyModel.findActiveKey db = Some key
                      else ProviderKeyModel.findByPk (id key) db = Some key
                           /\ keyId = Some (id key)).
  { assert (Hactive : forall key,
              ProviderKeyModel.findActiveKey db = Some key ->
              In key (provider_keys db)).
    { intros key H. unfold ProviderKeyModel.findActiveKey in H.
      apply greatest_version_spec in H. destruct H as [H _].
      apply filter_In in H. tauto. }
    subst lookup. destruct keyId as [k|]; cbn [Js.falsy_opt].
    - destruct (Js.falsy k) eqn:Hk.
      + exists (ProviderKeyModel.findActiveKey db).
        split; [reflexivity|]. intros key H. split; [auto | exact H].
      + exists (ProviderKeyModel.findByPk k db).
        split; [reflexivity|]. intros key H.
        assert (Hid : id key = k).
        { unfold ProviderKeyModel.findByPk in H.
          apply find_some_holds in H. apply String.eqb_eq in H. exact H. }
        split.
        * unfold ProviderKeyModel.findByPk in H. apply find_some in H. tauto.
        * rewrite Hid. split; [exact H | reflexivity].
    - exists (ProviderKeyModel.findActiveKey db).
      split; [reflexivity|]. intros key H. split; [auto | exact H]. }
  destruct Hlookup as (found & Hrun & Hfound).
  destruct fault as [e|]; cbn [fallible throw];
    [split; [reflexivity | intros ? ? ? ?; cbn; discriminate]|].
  rewrite Hrun. destruct found as [key|];
    [|split; [reflexivity | intros ? ? ? ?; cbn; discriminate]].
  destruct (Hfound key eq_refl) as [Hin Hwhich].
  destruct (status key) eqn:Hstatus; cbn [status_eqb negb];
    try (split; [reflexivity | intros ? ? ? ?; cbn; discriminate]).
  unfold crypto_call.
  destruct (decryptPrivateKey crypto (private_key_encrypted key) pass)
    as [privateKey|] eqn:Hdec; cbn;
    [|split; [reflexivity | intros ? ? ? ?; discriminate]].
  destruct (signData crypto data privateKey) as [sig|] eqn:Hsig; cbn;
    [|split; [reflexivity | intros ? ? ? ?; discriminate]].
  split; [reflexivity|].
  intros signature kid version algorithm H.
  injection H as <- <- <- <-.
  exists key, privateKey. repeat split; try assumption; try reflexivity.
Qed.

Lemma revoked_stays_revoked_ops (ops : list KeyOp) (db : Db) (keyId : string)
    (k : ProviderKey.t) :
  ProviderKeyModel.findByPk keyId db = Some k ->
  status k = revoked ->
  exists k',
    ProviderKeyModel.findByPk keyId (run_key_ops ops db) = Some k'
    /\ status k' = revoked.
Proof.
  revert db k. unfold run_key_ops.
  induction ops as [|op rest IH]; intros db k Hk Hrevoked.
  - exists k. auto.
  - destruct (revoked_stays_revoked_step op db keyId k Hk Hrevoked)
      as (k1 & Hk1 & Hrevoked1).
    cbn [fold_left]. exact (IH _ k1 Hk1 Hrevoked1).
Qed.

(** Once [revokeProviderKey] has succeeded on a key, no later
    [signWithProviderKey] that names this key succeeds, whatever
    rotations and revocations happen in between and whatever the crypto
    calls return: as long as the storage layer answers the query, the
    answer is [KEY_INACTIVE]. *)
Theorem revoked_key_never_signs (crypto : KeyCrypto) (env : KeyEnv)
    (fault : option Js.Error) (data keyId : string)
    (passphrase adminId : option string) (ops : list KeyOp) (db : Db) :
  Js.falsy keyId = false ->
  fst (revokeProviderKey None keyId adminId db)
  = KeyRevokeSuccess "Key successfully revoked" ->
  let db' := run_key_ops ops (snd (revokeProviderKey None keyId adminId db)) in
  (forall signature kid version algorithm,
     fst (signWithProviderKey crypto env fault data (Some keyId) passphrase db')
     <> SignSuccess signature kid version algorithm)
  /\ (fault = None ->
      fst (signWithProviderKey crypto env fault data (Some keyId) passphrase
             db')
      = SignFailure "KEY_INACTIVE" "Signing key is not active").
Proof.
  intros Hid Hdone. cbv zeta.
  rewrite revokeProviderKey_run in *.
  destruct (ProviderKeyModel.findByPk keyId db) as [k|] eqn:Hk;
    [|discriminate]. cbn [fst snd] in *.
  assert (Hnow : ProviderKeyModel.findByPk keyId
                   (set_provider_keys
                      (map (ProviderKeyModel.revoke_if keyId)) db)
                 = Some (ProviderKeyModel.revoke_if keyId k))
    by (apply key_findByPk_map; [apply revoke_if_keeps_id | exact Hk]).
  assert (Hrevoked : status (ProviderKeyModel.revoke_if keyId k) = revoked).
  { unfold ProviderKeyModel.revoke_if. apply find_some_holds in Hk.
    rewrite Hk. reflexivity. }
  destruct (revoked_stays_revoked_ops ops _ keyId _ Hnow Hrevoked)
    as (k' & Hk' & Hrevoked').
  unfold signWithProviderKey, try_catch, bind. rewrite Hid.
  destruct fault as [e|]; cbn [fallible throw fst].
  - split; [intros ? ? ? ?; discriminate | intros H; discriminate].
  - unfold read. rewrite Hk', Hrevoked'. cbn.
    split; [intros ? ? ? ?; discriminate | reflexivity].
Qed.

Lemma signWithProviderKey_success_inv_witness :
  exists key privateKey,
    In key (provider_keys Fixture.db)
    /\ status key = active
    /\ ProviderKeyModel.findActiveKey Fixture.db = Some key
    /\ "k-1" = id key
    /\ 1 = key_version key
    /\ "RSA-2048" = key_algorithm key
    /\ decryptPrivateKey KeyFixture.crypto (private_key_encrypted key)
         "default-passphrase" = Some privateKey
    /\ signData KeyFixture.crypto "payload" privateKey
       = Some "payload/plain:enc-1".
Proof.
  destruct (signWithProviderKey_success_inv KeyFixture.crypto KeyFixture.env
              None "payload" None None Fixture.db) as [_ Hinv].
  exact (Hinv "payload/plain:enc-1" "k-1" 1 "RSA-2048" eq_refl).
Defined.

Lemma revoked_key_never_signs_witness :
  fst (signWithProviderKey KeyFixture.crypto KeyFixture.env None "payload"
         (Some "k-1") None
         (run_key_ops
            [OpRotate ProviderKeyModel.no_fault "pub-2" "enc-2" "RSA-2048"
               None (Sample.rt 1000 "k-2")]
            (snd (revokeProviderKey None "k-1" None Fixture.db))))
  = SignFailure "KEY_INACTIVE" "Signing key is not active".
Proof.
  destruct (revoked_key_never_signs KeyFixture.crypto KeyFixture.env None
              "payload" "k-1" None None
              [OpRotate ProviderKeyModel.no_fault "pub-2" "enc-2" "RSA-2048"
                 None (Sample.rt 1000 "k-2")]
              Fixture.db eq_refl eq_refl) as [_ Hinactive].
  exact (Hinactive eq_refl).
Defined.

Lemma rotateProviderKey_run (env : KeyEnv) (run : KeyRun)
    (options : RotateOptions) (adminId : option string) (db : Db) :
  let keyAlgorithm :=
    match opt_keyAlgorithm options with Some a => a | None => "RSA-2048" end in
  let passphrase :=
    match opt_passphrase options with
    | Some p => p
    | None => Js.or_else (KEY_PASSPHRASE env) "default-passphrase"
    end in
  let bits := if String.eqb keyAlgorithm "RSA-4096" then 4096 else 2048 in
  rotateProviderKey env run options adminId db
  = (KeyFailure "SYSTEM_ERROR" "An internal system error occurred", db)
  \/ exists publicKey privateKey privateKeyEncrypted,
       run_generateRsaKeyPair run bits = Some (publicKey, privateKey)
       /\ run_encryptPrivateKey run privateKey passphrase
          = Some privateKeyEncrypted
       /\ rotateProviderKey env run options adminId db
          = (KeySuccess
               (key_view (rotated_in publicKey privateKeyEncrypted
                            keyAlgorithm adminId (run_rt run) db)),
             rotated publicKey privateKeyEncrypted keyAlgorithm adminId
               (run_rt run) db).
Proof.
  cbv zeta.
  set (keyAlgorithm :=
         match opt_keyAlgorithm options with
         | Some a => a
         | None => "RSA-2048"
         end).
  set (passphrase :=
         match opt_passphrase options with
         | Some p => p
         | None => Js.or_else (KEY_PASSPHRASE env) "default-passphrase"
         end).
  destruct (rotateProviderKey env run options adminId db) as [result db']
    eqn:Hout.
  unfold rotateProviderKey, try_catch, crypto_call in Hout.
  fold keyAlgorithm passphrase in Hout.
  unfold bind at 1 in Hout.
  destruct (run_generateRsaKeyPair run
              (if String.eqb keyAlgorithm "RSA-4096" then 4096 else 2048))
    as [[publicKey privateKey]|] eqn:Hpair;
    [|left; symmetry; exact Hout].
  cbn [ret fst snd] in Hout. unfold bind at 1 in Hout.
  destruct (run_encryptPrivateKey run privateKey passphrase)
    as [privateKeyEncrypted|] eqn:Henc; [|left; symmetry; exact Hout].
  cbn [ret] in Hout. unfold bind at 1 in Hout.
  assert (Hdisk :
            (if Js.falsy_opt (KEY_STORAGE_PATH env) then ret tt
             else fallible (run_disk_fault run) (ret tt)) db
            = (Returned tt, db)
            \/ exists e,
                 (if Js.falsy_opt (KEY_STORAGE_PATH env) then ret tt
                  else fallible (run_disk_fault run) (ret tt)) db
                 = (@Thrown unit e, db)).
  { destruct (Js.falsy_opt (KEY_STORAGE_PATH env)); [left; reflexivity|].
    destruct (run_disk_fault run) as [e|];
      [right; exists e | left]; reflexivity. }
  destruct Hdisk as [Hdisk | [e Hdisk]]; rewrite Hdisk in Hout;
    [|left; symmetry; exact Hout].
  unfold bind in Hout.
  destruct (rotateKey_all_or_nothing (run_faults run) publicKey
              privateKeyEncrypted keyAlgorithm adminId (run_rt run) db)
    as [[e Hrot] | Hrot]; rewrite Hrot in Hout;
    [left; symmetry; exact Hout|].
  right. exists publicKey, privateKey, privateKeyEncrypted.
  split; [reflexivity|]. split; [exact Henc | symmetry; exact Hout].
Qed.

(** [rotateProviderKey] is all or nothing on the database: a failure is
    always [SYSTEM_ERROR] and leaves every table as it was; after a
    success the returned key is the one [getActiveProviderKey] answers
    with, it is the only active row, its version is above every version
    that was stored, and it is valid from the time of the call until 90
    days later, whatever [validDays] the options carry. *)
Theorem rotateProviderKey_then_active (env : KeyEnv) (run : KeyRun)
    (options : RotateOptions) (adminId : option string) (db : Db) :
  (forall code message,
     fst (rotateProviderKey env run options adminId db)
     = KeyFailure code message ->
     code = "SYSTEM_ERROR"
     /\ snd (rotateProviderKey env run options adminId db) = db)
  /\ (forall key,
        fst (rotateProviderKey env run options adminId db) = KeySuccess key ->
        let db' := snd (rotateProviderKey env run options adminId db) in
        getActiveProviderKey None db' = (KeySuccess key, db')
        /\ count_active (provider_keys db') = 1%nat
        /\ kv_status key = active
        /\ (forall k, In k (provider_keys db) ->
                      key_version k < kv_key_version key)
        /\ kv_valid_from key = now (run_rt run)
        /\ kv_valid_until key = Some (now (run_rt run) + 90 * ms_per_day)
        /\ users db' = users db /\ tokens db' = tokens db).
Proof.
  destruct (rotateProviderKey_run env run options adminId db)
    as [-> | (publicKey & privateKey & privateKeyEncrypted & _ & _ & ->)];
    cbn [fst snd].
  - split; [|intros key H; discriminate].
    intros code message H. injection H as <- _. split; reflexivity.
  - split; [intros code message H; discriminate|].
    intros key H. injection H as <-. cbv zeta.
    split.
    { unfold getActiveProviderKey, try_catch, bind, fallible, read.
      rewrite (findActiveKey_after_rotation publicKey privateKeyEncrypted _
                 adminId (run_rt run) db _ eq_refl).
      reflexivity. }
    split.
    { unfold count_active, rotated. cbn [provider_keys set_provider_keys].
      rewrite filter_app, no_active_after_retire. reflexivity. }
    split; [reflexivity|].
    split; [exact (proj1 (new_version_spec db))|].
    repeat split.
Qed.

Lemma rotateProviderKey_then_active_witness :
  getActiveProviderKey None
    (snd (rotateProviderKey KeyFixture.env (KeyFixture.run 1000 "k-2")
            (mkRotateOptions (Some "RSA-4096") None (Some 30)) None
            Fixture.db))
  = (KeySuccess
       (mkKeyView "k-2" "pub-k-2" "RSA-4096" 2 active 1000
          (Some 7776001000)),
     snd (rotateProviderKey KeyFixture.env (KeyFixture.run 1000 "k-2")
            (mkRotateOptions (Some "RSA-4096") None (Some 30)) None
            Fixture.db)).
Proof.
  destruct (rotateProviderKey_then_active KeyFixture.env
              (KeyFixture.run 1000 "k-2")
              (mkRotateOptions (Some "RSA-4096") None (Some 30)) None
              Fixture.db) as [_ Hdone].
  exact (proj1 (Hdone _ eq_refl)).
Defined.

(** [checkAndRotateExpiringKeys] never rotates: the [where] object of
    its query reads [sequelize.Op.not], which throws, so whatever keys are
    stored, an active key about to expire included, the answer is
    [SYSTEM_ERROR], [rotateProviderKey] is not called and the database is
    left as it was. *)
Theorem key_sweep_never_rotates (env : KeyEnv) (rt : Runtime)
    (runs : nat -> KeyRun) (fault : option Js.Error)
    (adminId : option string) (db : Db) :
  checkAndRotateExpiringKeys env rt runs fault adminId db
  = (SweepFailure "SYSTEM_ERROR" "An internal system error occurred", db).
Proof. reflexivity. Qed.

(** On the sample keys: at day 85 the active key [k-1] expires within
    five days, and the sweep leaves it the active key. *)
Example key_sweep_on_expiring_key :
  expiring 7344000000 (addDays 7344000000 10) Sample.key1 = true
  /\ ProviderKeyModel.findActiveKey
       (snd (checkAndRotateExpiringKeys KeyFixture.env
               (Sample.rt 7344000000 "k-9") (KeyFixture.runs 7344000000)
               None None
               Fixture.db))
     = Some Sample.key1.
Proof. split; reflexivity. Qed.

(** ** Second factor: backup codes, disabling *)

(** With the update written, [verifyAndEnableTOTP] is the function as
    embedded above. *)
Lemma verifyAndEnableTOTP_written (ext : Externals) (rnd : RandomSource)
    (rt : Runtime) (userId token : string) (db : Db) :
  MfaService.verifyAndEnableTOTP ext true rnd rt userId token db
  = verifyAndEnableTOTP ext rnd rt userId token db.
Proof.
  unfold MfaService.verifyAndEnableTOTP, verifyAndEnableTOTP, try_catch.
  unfold bind at 1 3. unfold read at 1 2.
  destruct (UserModel.findByPk userId db) as [user|]; [|reflexivity].
  unfold MfaService.settings_or_empty.
  destruct (Mfa.totp _) as [totp|]; [|reflexivity].
  destruct (Js.falsy (Mfa.secret totp)); [reflexivity|].
  destruct (Mfa.verified totp && Mfa.enabled _); [reflexivity|].
  destruct (totp_verify ext (Mfa.secret totp) token (now rt));
    reflexivity.
Qed.

Import MfaService.

Lemma enabled_totp_inv (s : Mfa.Settings) (totp : Mfa.Totp) :
  enabled_totp s = Some totp ->
  Mfa.enabled s = true /\ Mfa.totp s = Some totp /\ Mfa.verified totp = true.
Proof.
  unfold enabled_totp. destruct (Mfa.enabled s); [|discriminate].
  destruct (Mfa.totp s) as [t|]; [|discriminate].
  destruct (Mfa.verified t) eqn:Hv; [|discriminate].
  cbn. intros H; injection H as <-. auto.
Qed.

Lemma verifyTOTP_run (ext : Externals) (writes : bool) (rt : Runtime)
    (userId token : string) (db : Db) (user : User.t) (totp : Mfa.Totp) :
  UserModel.findByPk userId db = Some user ->
  enabled_totp (settings_or_empty user) = Some totp ->
  verifyTOTP ext writes rt userId token db
  = if existsb (String.eqb token) (Mfa.backup_codes totp)
    then (TotpSuccess true "Backup code valid dan telah digunakan",
          if writes
          then UserModel.update_row userId
                 (UserModel.with_mfa_settings
                    (Some (settings_without token (settings_or_empty user)
                             totp))) db
          else db)
    else (if totp_verify ext (Mfa.secret totp) token (now rt)
          then TotpSuccess false "Token TOTP valid"
          else TotpFailure "INVALID_TOKEN"
                 "Token TOTP tidak valid atau kedaluwarsa", db).
Proof.
  intros Huser Htotp.
  assert (Hid : User.id user = userId).
  { unfold UserModel.findByPk in Huser. apply find_some_holds in Huser.
    apply String.eqb_eq. exact Huser. }
  unfold verifyTOTP, try_catch. unfold bind at 1. unfold read at 1.
  rewrite Huser, Htotp.
  destruct (existsb (String.eqb token) (Mfa.backup_codes totp)).
  - unfold update_in_place, UserModel.update, bind, write, ret.
    rewrite Hid. destruct writes; reflexivity.
  - destruct (totp_verify ext (Mfa.secret totp) token (now rt)); reflexivity.
Qed.

Lemma existsb_eqb_In (token : string) (codes : list string) :
  existsb (String.eqb token) codes = true <-> In token codes.
Proof.
  rewrite existsb_exists. split.
  - intros (c & Hc & Heq). apply String.eqb_eq in Heq. subst c. exact Hc.
  - intros H. exists token. split; [exact H | apply String.eqb_refl].
Qed.

Lemma used_code_is_gone (token : string) (codes : list string) :
  existsb (String.eqb token)
    (filter (fun code => negb (String.eqb code token)) codes) = false.
Proof.
  destruct (existsb _ _) eqn:H; [|reflexivity].
  apply existsb_eqb_In in H. apply filter_In in H. destruct H as [_ H].
  rewrite String.eqb_refl in H. discriminate.
Qed.

(** When [verifyTOTP] accepts a token as a backup code, the token is one
    of the stored codes of a user whose authenticator is enabled and
    verified, and neither the authenticator nor the clock is consulted.
    If the ORM writes the settings changed in place, every copy of the
    code is removed, the other codes stay in their order, and the same
    token is not accepted as a backup code again; if it does not, the
    database is unchanged, so the code stays usable. *)
Theorem backup_code_use (ext : Externals) (writes : bool) (rt : Runtime)
    (userId token : string) (db : Db) (message : string) :
  fst (verifyTOTP ext writes rt userId token db) = TotpSuccess true message ->
  let db' := snd (verifyTOTP ext writes rt userId token db) in
  In token (stored_backup_codes userId db)
  /\ (forall ext' rt',
        verifyTOTP ext' writes rt' userId token db
        = verifyTOTP ext writes rt userId token db)
  /\ (writes = true ->
      stored_backup_codes userId db'
      = filter (fun code => negb (String.eqb code token))
               (stored_backup_codes userId db)
      /\ forall ext' writes' rt' message',
           fst (verifyTOTP ext' writes' rt' userId token db')
           <> TotpSuccess true message')
  /\ (writes = false -> db' = db).
Proof.
  intros Hused. cbv zeta.
  destruct (UserModel.findByPk userId db) as [user|] eqn:Huser.
  2:{ unfold verifyTOTP, try_catch, bind, read in Hused.
      rewrite Huser in Hused. discriminate. }
  destruct (enabled_totp (settings_or_empty user)) as [totp|] eqn:Htotp.
  2:{ unfold verifyTOTP, try_catch in Hused. unfold bind at 1 in Hused.
      unfold read at 1 in Hused. rewrite Huser, Htotp in Hused.
      discriminate. }
  destruct (enabled_totp_inv _ _ Htotp) as (Henabled & Hrecord & Hverified).
  rewrite (verifyTOTP_run ext writes rt userId token db user totp Huser Htotp)
    in *.
  destruct (existsb (String.eqb token) (Mfa.backup_codes totp)) eqn:Hin.
  2:{ destruct (totp_verify ext (Mfa.secret totp) token (now rt));
        discriminate. }
  cbn [fst snd].
  assert (Hcodes : stored_backup_codes userId db = Mfa.backup_codes totp).
  { unfold stored_backup_codes. rewrite Huser, Hrecord. reflexivity. }
  split; [rewrite Hcodes; apply existsb_eqb_In; exact Hin|].
  split.
  { intros ext' rt'.
    rewrite (verifyTOTP_run ext' writes rt' userId token db user totp Huser
               Htotp), Hin. reflexivity. }
  split; [|intros ->; reflexivity].
  intros ->.
  set (s' := settings_without token (settings_or_empty user) totp).
  assert (Huser' :
            UserModel.findByPk userId
              (UserModel.update_row userId
                 (UserModel.with_mfa_settings (Some s')) db)
            = Some (UserModel.with_mfa_settings (Some s') user))
    by (apply user_findByPk_update_row; [reflexivity | exact Huser]).
  split.
  - unfold stored_backup_codes at 1. rewrite Huser', Hcodes. reflexivity.
  - intros ext' writes' rt' message'.
    assert (Htotp' :
              enabled_totp
                (settings_or_empty (UserModel.with_mfa_settings (Some s') user))
              = Some (Mfa.mkTotp (Mfa.secret totp) (Mfa.verified totp)
                        (filter (fun code => negb (String.eqb code token))
                                (Mfa.backup_codes totp))
                        (Mfa.verified_at totp))).
    { unfold enabled_totp, settings_or_empty, s', settings_without. cbn.
      fold (settings_or_empty user). rewrite Henabled, Hverified.
      reflexivity. }
    rewrite (verifyTOTP_run ext' writes' rt' userId token _ _ _ Huser' Htotp').
    cbn [Mfa.backup_codes]. rewrite used_code_is_gone.
    destruct (totp_verify ext' _ token (now rt')); cbn; discriminate.
Qed.


(** On the sample data: a code stored twice is used once. *)
Lemma backup_code_use_witness :
  stored_backup_codes "u-7"
    (snd (verifyTOTP (Sample.ext false) true (Sample.rt 1000 "t-1") "u-7"
            "01234-5678" MfaFixture.db))
  = ["ABCDE-FGHI"]
  /\ forall ext' writes' rt' message',
       fst (verifyTOTP ext' writes' rt' "u-7" "01234-5678"
              (snd (verifyTOTP (Sample.ext false) true (Sample.rt 1000 "t-1")
                      "u-7" "01234-5678" MfaFixture.db)))
       <> TotpSuccess true message'.
Proof.
  destruct (backup_code_use (Sample.ext false) true (Sample.rt 1000 "t-1")
              "u-7" "01234-5678" MfaFixture.db
              "Backup code valid dan telah digunakan" eq_refl)
    as (_ & _ & Hwrites & _).
  exact (Hwrites eq_refl).
Defined.

Lemma disableMFA_run (ext : Externals) (rt : Runtime)
    (userId currentPassword : string) (db : Db) :
  disableMFA ext rt userId currentPassword db
  = match UserModel.findByPk userId db with
    | None => (DisableFailure "USER_NOT_FOUND" "User tidak ditemukan", db)
    | Some user =>
        if negb (Mfa.enabled (settings_or_empty user))
        then (DisableFailure "MFA_NOT_ENABLED"
                "MFA tidak diaktifkan untuk user ini", db)
        else if negb (bcrypt_compare ext currentPassword
                        (User.password_hash user))
        then (DisableFailure "INVALID_PASSWORD" "Password tidak valid", db)
        else (DisableSuccess "MFA berhasil dinonaktifkan",
              UserModel.update_row userId
                (UserModel.with_mfa_settings
                   (Some (Mfa.mkSettings false None None))) db)
    end.
Proof.
  unfold disableMFA, try_catch. unfold bind at 1. unfold read at 1.
  destruct (UserModel.findByPk userId db) as [user|] eqn:Huser;
    [|reflexivity].
  assert (Hid : User.id user = userId).
  { unfold UserModel.findByPk in Huser. apply find_some_holds in Huser.
    apply String.eqb_eq. exact Huser. }
  destruct (Mfa.enabled (settings_or_empty user)); [|reflexivity].
  destruct (bcrypt_compare ext currentPassword (User.password_hash user));
    [|reflexivity].
  cbn [negb]. unfold UserModel.update, bind, write, ret. rewrite Hid.
  reflexivity.
Qed.

(** [disableMFA] changes something only when it succeeds, and it
    succeeds only for a stored user with the second factor enabled and
    with that user's password.  Afterwards the row has the second factor
    disabled and holds neither an authenticator secret nor a backup code;
    password, lock and activity are as before; [verifyTOTP] answers
    [TOTP_NOT_ENABLED] for every token, and a second [disableMFA] answers
    [MFA_NOT_ENABLED]. *)
Theorem disableMFA_effect (ext : Externals) (rt : Runtime)
    (userId currentPassword : string) (db : Db) :
  (forall code message,
     fst (disableMFA ext rt userId currentPassword db)
     = DisableFailure code message ->
     snd (disableMFA ext rt userId currentPassword db) = db)
  /\ (forall message,
        fst (disableMFA ext rt userId currentPassword db)
        = DisableSuccess message ->
        let db' := snd (disableMFA ext rt userId currentPassword db) in
        exists user,
          UserModel.findByPk userId db = Some user
          /\ mfa_enabled user = true
          /\ bcrypt_compare ext currentPassword (User.password_hash user)
             = true
          /\ UserModel.findByPk userId db'
             = Some (UserModel.with_mfa_settings
                       (Some (Mfa.mkSettings false None None)) user)
          /\ stored_backup_codes userId db' = []
          /\ (forall ext' writes rt' token,
                verifyTOTP ext' writes rt' userId token db'
                = (TotpFailure "TOTP_NOT_ENABLED"
                     "TOTP tidak diaktifkan untuk user ini", db'))
          /\ (forall ext' rt' password,
                disableMFA ext' rt' userId password db'
                = (DisableFailure "MFA_NOT_ENABLED"
                     "MFA tidak diaktifkan untuk user ini", db'))
          /\ tokens db' = tokens db).
Proof.
  rewrite disableMFA_run.
  destruct (UserModel.findByPk userId db) as [user|] eqn:Huser.
  2:{ split; [reflexivity | discriminate]. }
  destruct (Mfa.enabled (settings_or_empty user)) eqn:Henabled; cbn [negb].
  2:{ split; [reflexivity | discriminate]. }
  destruct (bcrypt_compare ext currentPassword (User.password_hash user))
    eqn:Hpw; cbn [negb].
  2:{ split; [reflexivity | discriminate]. }
  cbn [fst snd]. split; [discriminate|].
  intros message _. cbv zeta. exists user.
  assert (Huser' :
            UserModel.findByPk userId
              (UserModel.update_row userId
                 (UserModel.with_mfa_settings
                    (Some (Mfa.mkSettings false None None))) db)
            = Some (UserModel.with_mfa_settings
                      (Some (Mfa.mkSettings false None None)) user))
    by (apply user_findByPk_update_row; [reflexivity | exact Huser]).
  split; [reflexivity|].
  split.
  { unfold mfa_enabled. unfold settings_or_empty in Henabled.
    destruct (User.mfa_settings user); [exact Henabled | discriminate]. }
  split; [exact Hpw|]. split; [exact Huser'|].
  split; [unfold stored_backup_codes; rewrite Huser'; reflexivity|].
  split.
  { intros ext' writes rt' token.
    unfold verifyTOTP, try_catch. unfold bind at 1. unfold read at 1.
    rewrite Huser'. reflexivity. }
  split; [|reflexivity].
  intros ext' rt' password. rewrite disableMFA_run, Huser'. reflexivity.
Qed.

Lemma disableMFA_effect_witness :
  exists user,
    UserModel.findByPk "u-7" MfaFixture.db = Some user
    /\ mfa_enabled user = true
    /\ bcrypt_compare (Sample.ext false) "swordfish" (User.password_hash user)
       = true
    /\ UserModel.findByPk "u-7"
         (snd (disableMFA (Sample.ext false) (Sample.rt 1000 "t-1") "u-7"
                 "swordfish" MfaFixture.db))
       = Some (UserModel.with_mfa_settings
                 (Some (Mfa.mkSettings false None None)) user)
    /\ stored_backup_codes "u-7"
         (snd (disableMFA (Sample.ext false) (Sample.rt 1000 "t-1") "u-7"
                 "swordfish" MfaFixture.db)) = []
    /\ (forall ext' writes rt' token,
          verifyTOTP ext' writes rt' "u-7" token
            (snd (disableMFA (Sample.ext false) (Sample.rt 1000 "t-1") "u-7"
                    "swordfish" MfaFixture.db))
          = (TotpFailure "TOTP_NOT_ENABLED"
               "TOTP tidak diaktifkan untuk user ini",
             snd (disableMFA (Sample.ext false) (Sample.rt 1000 "t-1") "u-7"
                    "swordfish" MfaFixture.db)))
    /\ (forall ext' rt' password,
          disableMFA ext' rt' "u-7" password
            (snd (disableMFA (Sample.ext false) (Sample.rt 1000 "t-1") "u-7"
                    "swordfish" MfaFixture.db))
          = (DisableFailure "MFA_NOT_ENABLED"
               "MFA tidak diaktifkan untuk user ini",
             snd (disableMFA (Sample.ext false) (Sample.rt 1000 "t-1") "u-7"
                    "swordfish" MfaFixture.db)))
    /\ tokens (snd (disableMFA (Sample.ext false) (Sample.rt 1000 "t-1") "u-7"
                      "swordfish" MfaFixture.db))
       = tokens MfaFixture.db.
Proof.
  destruct (disableMFA_effect (Sample.ext false) (Sample.rt 1000 "t-1") "u-7"
              "swordfish" MfaFixture.db) as [_ Hdone].
  exact (Hdone "MFA berhasil dinonaktifkan" eq_refl).
Defined.

(** On a user whose authenticator is enabled and verified, [verifyTOTP]
    accepts exactly the stored codes as backup codes. *)
Lemma verifyTOTP_backup_iff (ext : Externals) (writes : bool) (rt : Runtime)
    (userId token : string) (db : Db) (user : User.t) (totp : Mfa.Totp) :
  UserModel.findByPk userId db = Some user ->
  enabled_totp (settings_or_empty user) = Some totp ->
  (In token (Mfa.backup_codes totp) ->
   fst (verifyTOTP ext writes rt userId token db)
   = TotpSuccess true "Backup code valid dan telah digunakan")
  /\ (~ In token (Mfa.backup_codes totp) ->
      forall message,
        fst (verifyTOTP ext writes rt userId token db)
        <> TotpSuccess true message).
Proof.
  intros Huser Htotp.
  rewrite (verifyTOTP_run ext writes rt userId token db user totp Huser Htotp).
  destruct (existsb (String.eqb token) (Mfa.backup_codes totp)) eqn:Hin.
  - split; [reflexivity|]. intros Hnot. contradiction Hnot.
    apply existsb_eqb_In. exact Hin.
  - split.
    + intros H. apply existsb_eqb_In in H. rewrite H in Hin. discriminate.
    + intros _ message.
      destruct (totp_verify ext (Mfa.secret totp) token (now rt)); cbn;
        discriminate.
Qed.

Lemma generateBackupCodes_ten (rnd : RandomSource) :
  length (fst (generateBackupCodes rnd 10 0 [])) = 10%nat.
Proof.
  destruct (generateBackupCodes_spec rnd (fun _ => True) (fun _ => I)
              10%nat 0%nat []) as (codes & Heq & Hlen & _).
  rewrite Heq. exact Hlen.
Qed.

Lemma regenerateBackupCodes_run (ext : Externals) (writes : bool)
    (rnd : RandomSource) (rt : Runtime) (userId currentPassword : string)
    (db : Db) (user : User.t) (totp : Mfa.Totp) :
  UserModel.findByPk userId db = Some user ->
  enabled_totp (settings_or_empty user) = Some totp ->
  regenerateBackupCodes ext writes rnd rt userId currentPassword db
  = if negb (bcrypt_compare ext currentPassword (User.password_hash user))
    then (CodesFailure "INVALID_PASSWORD" "Password tidak valid", db)
    else (CodesSuccess (fst (generateBackupCodes rnd 10 0 []))
            "Backup codes berhasil digenerate ulang",
          if writes
          then UserModel.update_row userId
                 (UserModel.with_mfa_settings
                    (Some (Mfa.mkSettings
                             (Mfa.enabled (settings_or_empty user))
                             (Mfa.preferred_method (settings_or_empty user))
                             (Some (Mfa.mkTotp (Mfa.secret totp)
                                      (Mfa.verified totp)
                                      (fst (generateBackupCodes rnd 10 0 []))
                                      (Mfa.verified_at totp)))))) db
          else db).
Proof.
  intros Huser Htotp.
  assert (Hid : User.id user = userId).
  { unfold UserModel.findByPk in Huser. apply find_some_holds in Huser.
    apply String.eqb_eq. exact Huser. }
  unfold regenerateBackupCodes, try_catch. unfold bind at 1. unfold read at 1.
  rewrite Huser, Htotp.
  destruct (bcrypt_compare ext currentPassword (User.password_hash user));
    [|reflexivity].
  cbn [negb]. unfold update_in_place, UserModel.update, bind, write, ret.
  rewrite Hid. destruct writes; reflexivity.
Qed.

(** [regenerateBackupCodes] needs the user's password and an enabled,
    verified authenticator, and returns ten new codes.  If the ORM writes
    the settings changed in place, the stored codes are exactly the new
    ones: [verifyTOTP] accepts each of them as a backup code, and no
    other token, so every old code that is not among the new ones is
    dead.  If it does not, the database is unchanged. *)
Theorem regenerateBackupCodes_replaces (ext : Externals) (writes : bool)
    (rnd : RandomSource) (rt : Runtime) (userId currentPassword : string)
    (db : Db) (backupCodes : list string) (message : string) :
  fst (regenerateBackupCodes ext writes rnd rt userId currentPassword db)
  = CodesSuccess backupCodes message ->
  let db' :=
    snd (regenerateBackupCodes ext writes rnd rt userId currentPassword db) in
  length backupCodes = 10%nat
  /\ (exists user,
        UserModel.findByPk userId db = Some user
        /\ mfa_enabled user = true
        /\ bcrypt_compare ext currentPassword (User.password_hash user) = true)
  /\ (writes = true ->
      stored_backup_codes userId db' = backupCodes
      /\ forall ext' writes' rt' token,
           (In token backupCodes ->
            fst (verifyTOTP ext' writes' rt' userId token db')
            = TotpSuccess true "Backup code valid dan telah digunakan")
           /\ (~ In token backupCodes ->
               forall message',
                 fst (verifyTOTP ext' writes' rt' userId token db')
                 <> TotpSuccess true message'))
  /\ (writes = false -> db' = db).
Proof.
  intros Hdone.
  destruct (UserModel.findByPk userId db) as [user|] eqn:Huser.
  2:{ unfold regenerateBackupCodes, try_catch, bind, read in Hdone.
      rewrite Huser in Hdone. discriminate. }
  destruct (enabled_totp (settings_or_empty user)) as [totp|] eqn:Htotp.
  2:{ unfold regenerateBackupCodes, try_catch in Hdone.
      unfold bind at 1 in Hdone. unfold read at 1 in Hdone.
      rewrite Huser, Htotp in Hdone. discriminate. }
  destruct (enabled_totp_inv _ _ Htotp) as (Henabled & Hrecord & Hverified).
  rewrite (regenerateBackupCodes_run ext writes rnd rt userId currentPassword
             db user totp Huser Htotp) in *.
  destruct (bcrypt_compare ext currentPassword (User.password_hash user))
    eqn:Hpw; [|discriminate].
  cbn [negb] in *.
  set (codes := fst (generateBackupCodes rnd 10 0 [])) in *.
  set (s' := Mfa.mkSettings (Mfa.enabled (settings_or_empty user))
               (Mfa.preferred_method (settings_or_empty user))
               (Some (Mfa.mkTotp (Mfa.secret totp) (Mfa.verified totp) codes
                        (Mfa.verified_at totp)))) in *.
  cbn [fst snd] in *. injection Hdone as <- _.
  destruct writes; cbv zeta.
  - split; [apply generateBackupCodes_ten|].
    split.
    { exists user. split; [reflexivity|]. split; [|exact Hpw].
      unfold mfa_enabled. unfold settings_or_empty in Henabled.
      destruct (User.mfa_settings user); [exact Henabled | discriminate]. }
    split; [|discriminate].
    intros _.
    assert (Huser' :
              UserModel.findByPk userId
                (UserModel.update_row userId
                   (UserModel.with_mfa_settings (Some s')) db)
              = Some (UserModel.with_mfa_settings (Some s') user))
      by (apply user_findByPk_update_row; [reflexivity | exact Huser]).
    assert (Htotp' :
              enabled_totp
                (settings_or_empty (UserModel.with_mfa_settings (Some s') user))
              = Some (Mfa.mkTotp (Mfa.secret totp) (Mfa.verified totp) codes
                        (Mfa.verified_at totp))).
    { unfold enabled_totp, settings_or_empty, s'. cbn.
      fold (settings_or_empty user). rewrite Henabled, Hverified.
      reflexivity. }
    split; [unfold stored_backup_codes; rewrite Huser'; reflexivity|].
    intros ext' writes' rt' token.
    exact (verifyTOTP_backup_iff ext' writes' rt' userId token _ _ _ Huser'
             Htotp').
  - split; [apply generateBackupCodes_ten|].
    split.
    { exists user. split; [reflexivity|]. split; [|exact Hpw].
      unfold mfa_enabled. unfold settings_or_empty in Henabled.
      destruct (User.mfa_settings user); [exact Henabled | discriminate]. }
    split; [discriminate | reflexivity].
Qed.

Lemma regenerateBackupCodes_replaces_witness :
  length (fst (generateBackupCodes Sample.rnd 10 0 [])) = 10%nat
  /\ stored_backup_codes "u-7"
       (snd (regenerateBackupCodes (Sample.ext false) true Sample.rnd
               (Sample.rt 1000 "t-1") "u-7" "swordfish" MfaFixture.db))
     = fst (generateBackupCodes Sample.rnd 10 0 []).
Proof.
  destruct (regenerateBackupCodes_replaces (Sample.ext false) true Sample.rnd
              (Sample.rt 1000 "t-1") "u-7" "swordfish" MfaFixture.db
              (fst (generateBackupCodes Sample.rnd 10 0 []))
              "Backup codes berhasil digenerate ulang" eq_refl)
    as (Hten & _ & Hwrites & _).
  split; [exact Hten | exact (proj1 (Hwrites eq_refl))].
Defined.

Lemma verifyAndEnableTOTP_run (ext : Externals) (writes : bool)
    (rnd : RandomSource) (rt : Runtime) (userId token : string) (db : Db)
    (backupCodes : list string) (message : string) :
  fst (verifyAndEnableTOTP ext writes rnd rt userId token db)
  = EnableSuccess backupCodes message ->
  exists user totp,
    UserModel.findByPk userId db = Some user
    /\ Mfa.totp (settings_or_empty user) = Some totp
    /\ Js.falsy (Mfa.secret totp) = false
    /\ backupCodes = fst (generateBackupCodes rnd 10 0 [])
    /\ snd (verifyAndEnableTOTP ext writes rnd rt userId token db)
       = if writes
         then UserModel.update_row userId
                (UserModel.with_mfa_settings
                   (Some (Mfa.mkSettings true (Some "totp")
                            (Some (Mfa.mkTotp (Mfa.secret totp) true
                                     backupCodes (Some (now rt))))))) db
         else db.
Proof.
  destruct (verifyAndEnableTOTP ext writes rnd rt userId token db)
    as [result db'] eqn:Hrun.
  cbn [fst snd]. intros ->. revert Hrun.
  unfold verifyAndEnableTOTP, try_catch. unfold bind at 1. unfold read at 1.
  destruct (UserModel.findByPk userId db) as [user|] eqn:Huser;
    [|discriminate].
  assert (Hid : User.id user = userId).
  { unfold UserModel.findByPk in Huser. apply find_some_holds in Huser.
    apply String.eqb_eq. exact Huser. }
  destruct (Mfa.totp (settings_or_empty user)) as [totp|] eqn:Htotp;
    [|discriminate].
  destruct (Js.falsy (Mfa.secret totp)) eqn:Hsecret; [discriminate|].
  destruct (Mfa.verified totp && Mfa.enabled (settings_or_empty user));
    [discriminate|].
  destruct (totp_verify ext (Mfa.secret totp) token (now rt)); [|discriminate].
  cbn [negb]. unfold update_in_place, UserModel.update, bind, write, ret.
  rewrite Hid.
  destruct writes; intros H; injection H as <- _ <-;
    exists user, totp; repeat split; assumption.
Qed.

(** A successful [verifyAndEnableTOTP] returns ten codes.  If the ORM
    writes the settings changed in place, the user's second factor is
    enabled afterwards, the stored backup codes are the codes returned,
    [verifyTOTP] accepts each of them as a backup code whatever the
    authenticator says, and a second [verifyAndEnableTOTP] answers
    [TOTP_ALREADY_VERIFIED].  If it does not, the database is
    unchanged: nothing is enabled and none of the codes is stored. *)
Theorem enrolment_codes_are_accepted (ext : Externals) (writes : bool)
    (rnd : RandomSource) (rt : Runtime) (userId token : string) (db : Db)
    (backupCodes : list string) (message : string) :
  fst (verifyAndEnableTOTP ext writes rnd rt userId token db)
  = EnableSuccess backupCodes message ->
  let db' := snd (verifyAndEnableTOTP ext writes rnd rt userId token db) in
  length backupCodes = 10%nat
  /\ (writes = true ->
      stored_backup_codes userId db' = backupCodes
      /\ (exists user', UserModel.findByPk userId db' = Some user'
                        /\ mfa_enabled user' = true)
      /\ (forall ext' writes' rt' code,
            In code backupCodes ->
            fst (verifyTOTP ext' writes' rt' userId code db')
            = TotpSuccess true "Backup code valid dan telah digunakan")
      /\ (forall ext' writes' rnd' rt' token',
            verifyAndEnableTOTP ext' writes' rnd' rt' userId token' db'
            = (EnableFailure "TOTP_ALREADY_VERIFIED"
                 "TOTP sudah diverifikasi sebelumnya", db')))
  /\ (writes = false -> db' = db).
Proof.
  intros Hdone. cbv zeta.
  destruct (verifyAndEnableTOTP_run ext writes rnd rt userId token db
              backupCodes message Hdone)
    as (user & totp & Huser & Htotp & Hsecret & Hcodes & ->).
  split; [rewrite Hcodes; apply generateBackupCodes_ten|].
  split; [|intros ->; reflexivity].
  intros ->.
  set (s' := Mfa.mkSettings true (Some "totp")
               (Some (Mfa.mkTotp (Mfa.secret totp) true backupCodes
                        (Some (now rt))))).
  assert (Huser' :
            UserModel.findByPk userId
              (UserModel.update_row userId
                 (UserModel.with_mfa_settings (Some s')) db)
            = Some (UserModel.with_mfa_settings (Some s') user))
    by (apply user_findByPk_update_row; [reflexivity | exact Huser]).
  split; [unfold stored_backup_codes; rewrite Huser'; reflexivity|].
  split; [eexists; split; [exact Huser' | reflexivity]|].
  split.
  { intros ext' writes' rt' code Hcode.
    apply (proj1 (verifyTOTP_backup_iff ext' writes' rt' userId code _ _
                    (Mfa.mkTotp (Mfa.secret totp) true backupCodes
                       (Some (now rt)))
                    Huser' eq_refl)).
    exact Hcode. }
  intros ext' writes' rnd' rt' token'.
  unfold verifyAndEnableTOTP, try_catch. unfold bind at 1. unfold read at 1.
  rewrite Huser'. cbn. rewrite Hsecret. reflexivity.
Qed.

Lemma enrolment_codes_are_accepted_witness :
  stored_backup_codes "u-8"
    (snd (verifyAndEnableTOTP (Sample.ext false) true Sample.rnd
            (Sample.rt 1000 "t-1") "u-8" "123456" MfaFixture.db))
  = fst (generateBackupCodes Sample.rnd 10 0 []).
Proof.
  destruct (enrolment_codes_are_accepted (Sample.ext false) true Sample.rnd
              (Sample.rt 1000 "t-1") "u-8" "123456" MfaFixture.db
              (fst (generateBackupCodes Sample.rnd 10 0 []))
              "TOTP berhasil diaktifkan. Simpan backup codes dengan aman."
              eq_refl) as (_ & Hwrites & _).
  exact (proj1 (Hwrites eq_refl)).
Defined.

(** ** Numeric one-time codes *)

Lemma all_decimal_app (a b : string) :
  all_decimal (a ++ b) = all_decimal a && all_decimal b.
Proof.
  induction a as [|c a IH]; cbn [append all_decimal]; [reflexivity|].
  destruct (Js.digit_value 10 c); [exact IH | reflexivity].
Qed.

(** A draw of the unit interval appends one decimal digit. *)
Lemma number_text_draw (draw : Z) :
  in_unit_interval draw ->
  String.length (number_text (random_below draw 10)) = 1%nat
  /\ all_decimal (number_text (random_below draw 10)) = true.
Proof.
  intros [Hlo Hhi]. unfold random_below.
  assert (Hidx : 0 <= draw * 10 / random_resolution < 10).
  { unfold random_resolution in *. split.
    - apply Z.div_pos; lia.
    - apply Z.div_lt_upper_bound; lia. }
  remember (draw * 10 / random_resolution) as d eqn:Hd. clear Hd Hlo Hhi.
  assert (Hcases : d = 0 \/ d = 1 \/ d = 2 \/ d = 3 \/ d = 4 \/ d = 5
                   \/ d = 6 \/ d = 7 \/ d = 8 \/ d = 9) by lia.
  repeat (destruct Hcases as [-> | Hcases]; [split; reflexivity|]).
  subst d. split; reflexivity.
Qed.

Lemma generateNumericCode_loop_spec (rnd : RandomSource) :
  (forall k, in_unit_interval (rnd k)) ->
  forall (n pos : nat) (code : string),
    String.length (generateNumericCode_loop rnd n pos code)
    = (String.length code + n)%nat
    /\ all_decimal (generateNumericCode_loop rnd n pos code)
       = all_decimal code.
Proof.
  intros Hrnd n. induction n as [|n IH]; intros pos code.
  - cbn. split; [lia | reflexivity].
  - cbn [generateNumericCode_loop].
    destruct (IH (S pos) (code ++ number_text (random_below (rnd pos) 10)))
      as [Hlen Hall].
    destruct (number_text_draw (rnd pos) (Hrnd pos)) as [Hone Hdigit].
    rewrite Hlen, Hall, string_length_app, all_decimal_app, Hone, Hdigit.
    split; [lia | apply andb_true_r].
Qed.

(** [generateNumericCode(length)] returns exactly [length] characters,
    each a decimal digit, for whatever [Math.random] draws; for a length
    of zero or below it returns the empty string. *)
Theorem generateNumericCode_digits (rnd : RandomSource) (length : Z) :
  (forall k, in_unit_interval (rnd k)) ->
  String.length (generateNumericCode rnd length) = Z.to_nat length
  /\ all_decimal (generateNumericCode rnd length) = true
  /\ (length <= 0 -> generateNumericCode rnd length = "").
Proof.
  intros Hrnd. unfold generateNumericCode.
  destruct (generateNumericCode_loop_spec rnd Hrnd (Z.to_nat length) 0%nat "")
    as [Hlen Hall].
  split; [rewrite Hlen; reflexivity|]. split; [rewrite Hall; reflexivity|].
  intros Hneg. replace (Z.to_nat length) with 0%nat by lia. reflexivity.
Qed.

Lemma generateNumericCode_digits_witness :
  String.length (generateNumericCode Sample.rnd 6) = 6%nat
  /\ all_decimal (generateNumericCode Sample.rnd 6) = true.
Proof.
  destruct (generateNumericCode_digits Sample.rnd 6
              sample_rnd_in_unit_interval) as (Hlen & Hall & _).
  split; [exact Hlen | exact Hall].
Defined.

(** ** Guards in front of the routes *)

(** [verifyRequestSignature] lets a request pass unverified exactly when
    it carries no signature header (or an empty one), asking no key.  It
    marks a request verified only when the header has three parts, a
    consumer is attached, and the verifier accepts the first part as the
    signature of [timestamp:nonce:method:path:body] under the consumer's
    public key.  The nonce is not recorded anywhere: a request accepted
    once is accepted again at every later time at which its timestamp is
    still at most 300 seconds old, and at every time if the timestamp is
    not a number. *)
Theorem signed_request_admission (ext : Externals) (now : Z) (req : Request) :
  (verifyRequestSignature ext now req = SigNext false
   <-> Js.falsy_opt (req_x_signature req) = true)
  /\ (verifyRequestSignature ext now req = SigNext true ->
      exists signature signatureValue timestamp nonce consumer,
        req_x_signature req = Some signature
        /\ Js.split ":" signature = [signatureValue; timestamp; nonce]
        /\ req_consumer req = Some consumer
        /\ rsa_verify ext (signatureData ext req timestamp nonce)
             signatureValue (Consumer.public_key consumer) = Some true
        /\ (forall t, Js.parseInt timestamp = Some t ->
                      unix_seconds now - t <= 300)
        /\ forall now',
             (forall t, Js.parseInt timestamp = Some t ->
                        unix_seconds now' - t <= 300) ->
             verifyRequestSignature ext now' req = SigNext true).
Proof.
  unfold verifyRequestSignature.
  destruct (req_x_signature req) as [signature|] eqn:Hheader;
    cbn [Js.falsy_opt]; [|split; [tauto | discriminate]].
  destruct (Js.falsy signature) eqn:Hempty; [split; [tauto | discriminate]|].
  assert (Hwindow : forall (timestamp : string) (n : Z),
            Js.gt (Js.sub (Some (unix_seconds n)) (Js.parseInt timestamp))
                  (Some timeThreshold) = false
            <-> forall t, Js.parseInt timestamp = Some t ->
                          unix_seconds n - t <= 300).
  { intros timestamp n. unfold Js.gt, Js.sub, timeThreshold.
    destruct (Js.parseInt timestamp) as [t|].
    - destruct (Z.ltb_spec (5 * 60) (unix_seconds n - t)); split.
      + discriminate.
      + intros H'. specialize (H' t eq_refl). lia.
      + intros _ t' Ht'. injection Ht' as <-. lia.
      + reflexivity.
    - split; [intros _ t Ht; discriminate | reflexivity]. }
  destruct (Js.split ":" signature)
    as [|signatureValue [|timestamp [|nonce [|extra rest]]]] eqn:Hsplit;
    try (split; [split; discriminate | discriminate]).
  destruct (Js.gt (Js.sub (Some (unix_seconds now)) (Js.parseInt timestamp))
              (Some timeThreshold)) eqn:Hnow;
    [split; [split; discriminate | discriminate]|].
  fold (signatureData ext req timestamp nonce).
  destruct (req_consumer req) as [consumer|] eqn:Hconsumer;
    [|split; [split; discriminate | discriminate]].
  unfold verifySignature.
  destruct (rsa_verify ext (signatureData ext req timestamp nonce)
              signatureValue (Consumer.public_key consumer))
    as [[|]|] eqn:Hverify; cbn [negb];
    try (split; [split; discriminate | discriminate]).
  split; [split; discriminate|].
  intros _. exists signature, signatureValue, timestamp, nonce, consumer.
  split; [reflexivity|]. split; [exact Hsplit|]. split; [reflexivity|].
  split; [exact Hverify|]. split; [apply Hwindow; exact Hnow|].
  intros now' Hlater. apply Hwindow in Hlater. rewrite Hlater.
  reflexivity.
Qed.

(** A sample request signed at second 900: accepted at second 1000, and
    the same request again at second 1100. *)
Lemma signed_request_admission_witness :
  verifyRequestSignature (Sample.ext false) 1100000
    (mkRequest
       (Some "signed[900.n1.POST./login.]by[portal-public-key]:900:n1")
       "POST" "/login" None (Some Sample.portal))
  = SigNext true.
Proof.
  destruct (proj2 (signed_request_admission (Sample.ext false) 1000000
                     (mkRequest
                        (Some "signed[900.n1.POST./login.]by[portal-public-key]:900:n1")
                        "POST" "/login" None (Some Sample.portal)))
              eq_refl)
    as (signature & signatureValue & timestamp & nonce & consumer
        & Hheader & Hsplit & _ & _ & _ & Hreplay).
  injection Hheader as <-. vm_compute in Hsplit.
  injection Hsplit as <- <- <-.
  apply Hreplay. intros t Ht. vm_compute in Ht. injection Ht as <-.
  unfold unix_seconds. cbn. lia.
Defined.

Lemma startsWith_app (prefix rest : string) :
  startsWith prefix (prefix ++ rest) = true.
Proof.
  induction prefix as [|c p IH]; [reflexivity|].
  cbn [append startsWith]. rewrite Ascii.eqb_refl. exact IH.
Qed.

Lemma startsWith_inv (prefix s : string) :
  startsWith prefix s = true -> exists rest, s = prefix ++ rest.
Proof.
  revert s. induction prefix as [|c p IH]; intros s H.
  - exists s. reflexivity.
  - destruct s as [|b r]; [discriminate|]. cbn [startsWith] in H.
    apply andb_prop in H. destruct H as [Hc Hp].
    apply Ascii.eqb_eq in Hc. subst b.
    destruct (IH r Hp) as [rest ->]. exists rest. reflexivity.
Qed.

(** [authenticateJwt] never changes the database.  It calls [next] only
    for a header that starts with [Bearer ], whose text up to the next
    space is a token that [verifyToken] accepts for the consumer attached
    to the request: the token's record is stored, not revoked, not past
    its expiry and issued to that consumer, and the user is active and is
    the one put on the request.  Every refusal of [verifyToken], the
    [SYSTEM_ERROR] of its [catch] included, is answered [UNAUTHORIZED];
    [INTERNAL_ERROR] is answered only when no consumer is attached. *)
Theorem authenticateJwt_admits (ext : Externals) (env : ProcessEnv)
    (rt : Runtime) (authorization : option string)
    (consumer : option Consumer.t) (db : Db) :
  snd (authenticateJwt ext env rt authorization consumer db) = db
  /\ (forall user,
        fst (authenticateJwt ext env rt authorization consumer db)
        = JwtNext user ->
        exists rest c tokenRecord account roles,
          authorization = Some ("Bearer " ++ rest)
          /\ consumer = Some c
          /\ fst (verifyToken ext env rt (bearer_token ("Bearer " ++ rest))
                    (Consumer.id c) db) = VerifySuccess user
          /\ In tokenRecord (tokens db)
          /\ Token.is_revoked tokenRecord = false
          /\ now rt <= Token.expires_at tokenRecord
          /\ Token.consumer_id tokenRecord = Consumer.id c
          /\ UserModel.findWithRoles (Token.user_id tokenRecord) db
             = Some (account, roles)
          /\ User.is_active account = true
          /\ view_id user = User.id account
          /\ view_roles user = roles)
  /\ (forall code message,
        fst (authenticateJwt ext env rt authorization consumer db)
        = JwtError code message ->
        code = "UNAUTHORIZED"
        \/ (code = "INTERNAL_ERROR" /\ consumer = None
            /\ exists rest, authorization = Some ("Bearer " ++ rest))).
Proof.
  unfold authenticateJwt.
  destruct (Js.falsy_opt authorization
            || negb (startsWith "Bearer "
                       match authorization with
                       | Some h => h
                       | None => ""
                       end)) eqn:Hheader.
  { split; [reflexivity|]. split; [intros ? H; discriminate H|].
    intros code message H. injection H as <- _. left. reflexivity. }
  apply orb_false_elim in Hheader. destruct Hheader as [Hpresent Hprefix].
  destruct authorization as [authHeader|]; [|discriminate Hpresent].
  apply negb_false_iff in Hprefix.
  destruct (startsWith_inv _ _ Hprefix) as [rest ->].
  destruct consumer as [c|].
  2:{ split; [reflexivity|]. split; [intros ? H; discriminate H|].
      intros code message H. injection H as <- _. right.
      split; [reflexivity|]. split; [reflexivity|].
      exists rest. reflexivity. }
  assert (Hread := verifyToken_readonly ext env rt
                     (bearer_token ("Bearer " ++ rest)) (Consumer.id c) db).
  assert (Hinv := verifyToken_success_inv ext env rt
                    (bearer_token ("Bearer " ++ rest)) (Consumer.id c) db).
  destruct (verifyToken ext env rt (bearer_token ("Bearer " ++ rest))
              (Consumer.id c) db) as [[code message | view] db'] eqn:Hrun.
  - cbn [fst snd] in *. split; [exact Hread|].
    split; [intros ? H; discriminate H|].
    intros code' message' H. injection H as <- _. left. reflexivity.
  - cbn [fst snd] in *. split; [exact Hread|].
    split; [|intros code' message' H; discriminate H].
    intros user H. injection H as <-.
    destruct (Hinv view eq_refl)
      as (payload & token_id & tokenRecord & account & roles & _ & _ & _
          & Hrecord & Hrevoked & Hexpiry & Hconsumer & Hroles & Hactive
          & Hview).
    exists rest, c, tokenRecord, account, roles.
    split; [reflexivity|]. split; [reflexivity|].
    split; [rewrite Hrun; reflexivity|].
    split.
    { unfold TokenModel.findByPk in Hrecord. apply find_some in Hrecord.
      tauto. }
    split; [exact Hrevoked|]. split; [exact Hexpiry|].
    split; [exact Hconsumer|]. split; [exact Hroles|].
    split; [exact Hactive|].
    rewrite Hview. split; reflexivity.
Qed.

(** On the sample data: alice's token, presented through the portal. *)
Lemma authenticateJwt_admits_witness :
  exists tokenRecord,
    In tokenRecord (tokens Fixture.db)
    /\ Token.is_revoked tokenRecord = false
    /\ 1000 <= Token.expires_at tokenRecord
    /\ Token.consumer_id tokenRecord = "c-1".
Proof.
  destruct (proj1 (proj2 (authenticateJwt_admits (Sample.ext false) Sample.env
                            (Sample.rt 1000 "t-1")
                            (Some "Bearer jwt.t-a.default-jwt-secret")
                            (Some Sample.portal) Fixture.db))
              (mkUserView "u-1" "alice" None ["admin"]) eq_refl)
    as (rest & c & tokenRecord & account & roles & _ & Hc & _ & Hin & Hrevoked
        & Hexpiry & Hconsumer & _).
  injection Hc as <-. exists tokenRecord.
  split; [exact Hin|]. split; [exact Hrevoked|].
  split; [exact Hexpiry | exact Hconsumer].
Defined.

Lemma requirePermission_loop_spec (query : PermissionQuery) (userId : string)
    (permissions : list string) :
  (requirePermission_loop query userId permissions = GuardNext
   <-> forall p, In p permissions ->
                 exists count, query userId p = Returned count /\ 0 < count)
  /\ (requirePermission_loop query userId permissions = GuardNext
      \/ requirePermission_loop query userId permissions
         = GuardError "FORBIDDEN" "Anda tidak memiliki izin yang diperlukan").
Proof.
  induction permissions as [|p rest [IHiff IHor]]; cbn [requirePermission_loop].
  - split; [|left; reflexivity]. split; [intros _ p []|reflexivity].
  - unfold hasPermission.
    destruct (query userId p) as [count|e] eqn:Hq.
    + destruct (Z.ltb_spec 0 count) as [Hpos|Hnot]; cbn [negb].
      * split; [|exact IHor]. rewrite IHiff. split.
        -- intros H q [<- | Hq']; [exists count; auto | apply H; exact Hq'].
        -- intros H q Hq'. apply H. right. exact Hq'.
      * split; [|right; reflexivity]. split; [discriminate|].
        intros H. destruct (H p (or_introl eq_refl)) as (c & Hc & Hpos).
        rewrite Hq in Hc. injection Hc as <-. lia.
    + cbn [negb]. split; [|right; reflexivity]. split; [discriminate|].
      intros H. destruct (H p (or_introl eq_refl)) as (c & Hc & _).
      rewrite Hq in Hc. discriminate.
Qed.

(** The two authorization guards.  [requirePermission] calls [next]
    exactly when the request carries a user with an id and the permission
    query counts at least one row for every required permission; a query
    that throws counts as a missing permission, so the guard answers
    [FORBIDDEN], never [INTERNAL_ERROR].  [requireRole] calls [next]
    exactly when the user holds one of the allowed roles.  On an empty
    requirement the two differ: [requirePermission] admits every
    authenticated user, [requireRole] admits none. *)
Theorem authorization_guards (query : PermissionQuery)
    (required : list string) (user : UserView) :
  Js.falsy (view_id user) = false ->
  (requirePermission query required (Some user) = GuardNext
   <-> forall p, In p required ->
                 exists count, query (view_id user) p = Returned count
                               /\ 0 < count)
  /\ (requirePermission query required (Some user) = GuardNext
      \/ requirePermission query required (Some user)
         = GuardError "FORBIDDEN" "Anda tidak memiliki izin yang diperlukan")
  /\ (requireRole required (Some user) = GuardNext
      <-> exists role, In role (view_roles user) /\ In role required)
  /\ requirePermission query [] (Some user) = GuardNext
  /\ requireRole [] (Some user)
     = GuardError "FORBIDDEN" "Anda tidak memiliki peran yang diizinkan".
Proof.
  intros Hid.
  destruct (requirePermission_loop_spec query (view_id user) required)
    as [Hiff Hor].
  assert (Hrun : requirePermission query required (Some user)
                 = requirePermission_loop query (view_id user) required).
  { unfold requirePermission. rewrite Hid.
    destruct required; reflexivity. }
  rewrite Hrun.
  split; [exact Hiff|]. split; [exact Hor|].
  split.
  { unfold requireRole.
    destruct (existsb (fun role => existsb (String.eqb role) required)
                (view_roles user)) eqn:Hsome; cbn [negb].
    - split; [|reflexivity]. intros _.
      apply existsb_exists in Hsome. destruct Hsome as (role & Hrole & Hin).
      exists role. split; [exact Hrole|].
      apply existsb_eqb_In. exact Hin.
    - split; [discriminate|]. intros (role & Hrole & Hin).
      assert (Htrue : existsb (fun role => existsb (String.eqb role) required)
                        (view_roles user) = true).
      { apply existsb_exists. exists role. split; [exact Hrole|].
        apply existsb_eqb_In. exact Hin. }
      rewrite Htrue in Hsome. discriminate. }
  split.
  - unfold requirePermission. rewrite Hid. reflexivity.
  - unfold requireRole. cbn [existsb].
    replace (existsb (fun _ : string => false) (view_roles user)) with false;
      [reflexivity|].
    symmetry. induction (view_roles user) as [|r rs IH]; [reflexivity|].
    exact IH.
Qed.

Lemma authorization_guards_witness :
  requirePermission
    (fun userId permission =>
       if String.eqb permission "users:read" then Returned 1
       else Thrown (Js.PlainError "relation does not exist"))
    ["users:read"; "users:write"]
    (Some (mkUserView "u-1" "alice" None ["admin"]))
  = GuardError "FORBIDDEN" "Anda tidak memiliki izin yang diperlukan"
  /\ requireRole [] (Some (mkUserView "u-1" "alice" None ["admin"]))
     = GuardError "FORBIDDEN" "Anda tidak memiliki peran yang diizinkan".
Proof.
  destruct (authorization_guards
              (fun userId permission =>
                 if String.eqb permission "users:read" then Returned 1
                 else Thrown (Js.PlainError "relation does not exist"))
              ["users:read"; "users:write"]
              (mkUserView "u-1" "alice" None ["admin"]) eq_refl)
    as (_ & [Hnext | Hforbidden] & _ & _ & Hrole).
  - discriminate Hnext.
  - split; [exact Hforbidden | exact Hrole].
Defined.

(** ** The authentication controller *)

(** The [logout] controller revokes nothing.  For a single token: the
    name [jwt] is not bound in the controller's module, so whenever
    [all_devices] is not set the read of [jwt.decode] throws, the [catch]
    answers [INTERNAL_ERROR] with status 500, and the database is as it
    was, whatever token the request names.  With [all_devices] set, on a
    request that carries a user and a consumer, [revokeAllTokensForUser]
    answers [SYSTEM_ERROR], which the controller sends as
    [INTERNAL_ERROR] with status 500 and the message of the service, and
    the database is as it was.  So every call of [logout] is
    answered with status 500 and writes nothing. *)
Theorem logout_controller (ext : Externals) (rt : Runtime)
    (req : ControllerRequest) (db : Db) :
  (creq_all_devices req = false ->
   logout ext rt req db
   = (mkResponse 500 "INTERNAL_ERROR" "Terjadi kesalahan saat proses logout"
        NoData, db))
  /\ (forall user consumer,
        creq_all_devices req = true ->
        creq_user req = Some user ->
        creq_consumer req = Some consumer ->
        logout ext rt req db
        = (mkResponse 500 "INTERNAL_ERROR"
             "An internal system error occurred" NoData, db))
  /\ res_status (fst (logout ext rt req db)) = 500
  /\ snd (logout ext rt req db) = db.
Proof.
  assert (Hsingle : creq_all_devices req = false ->
            logout ext rt req db
            = (mkResponse 500 "INTERNAL_ERROR"
                 "Terjadi kesalahan saat proses logout" NoData, db)).
  { intros Hsingle. unfold logout, try_catch. rewrite Hsingle.
    unfold bind at 1.
    destruct (creq_user req) as [user|]; [|reflexivity].
    cbn [on_request ret]. unfold bind at 1 2. reflexivity. }
  assert (Hall : creq_all_devices req = true ->
            logout ext rt req db
            = (match creq_user req, creq_consumer req with
               | Some _, Some _ =>
                   mkResponse 500 "INTERNAL_ERROR"
                     "An internal system error occurred" NoData
               | _, _ =>
                   mkResponse 500 "INTERNAL_ERROR"
                     "Terjadi kesalahan saat proses logout" NoData
               end, db)).
  { intros Hall. unfold logout, try_catch. rewrite Hall.
    unfold bind at 1.
    destruct (creq_user req) as [user|]; [|reflexivity].
    cbn [on_request ret]. unfold bind at 1 2.
    rewrite revokeAllTokensForUser_run.
    destruct (creq_consumer req) as [consumer|];
      unfold bind, on_request, ret, throw; reflexivity. }
  split; [exact Hsingle|]. split.
  - intros user consumer Hset Huser Hconsumer.
    rewrite (Hall Hset), Huser, Hconsumer. reflexivity.
  - destruct (creq_all_devices req).
    + rewrite (Hall eq_refl).
      destruct (creq_user req), (creq_consumer req); split; reflexivity.
    + rewrite (Hsingle eq_refl). split; reflexivity.
Qed.

(** The answers [authenticateUser] can give. *)
Lemma authenticateUser_answers (ext : Externals) (env : ProcessEnv)
    (mfa : MfaVerifiers) (rt : Runtime) (credentials : Credentials)
    (context : Context) (db db' : Db) (result : AuthResult) :
  authenticateUser ext env mfa rt credentials context db = (result, db') ->
  (Js.falsy (cred_username credentials) || Js.falsy (cred_password credentials)
   = true
   /\ result = AuthFailure "INVALID_CREDENTIALS"
                 "Username and password are required")
  \/ (Js.falsy (cred_username credentials)
      || Js.falsy (cred_password credentials) = false
      /\ ((exists token expiresAt user,
             result = AuthSuccess token expiresAt user)
          \/ exists code message,
               result = AuthFailure code message
               /\ Js.falsy message = false
               /\ In code ["INVALID_CONSUMER"; "UNAUTHORIZED_IP";
                           "INVALID_USER"; "ACCOUNT_LOCKED";
                           "INVALID_PASSWORD"; "CONFIGURATION_ERROR";
                           "SYSTEM_ERROR"])).
Proof.
  unfold authenticateUser, try_catch, authenticateUser_body.
  destruct (Js.falsy (cred_username credentials)
            || Js.falsy (cred_password credentials));
    [intros H; injection H as <- _; left; split; reflexivity|].
  assert (Hfail : forall code message,
            In code ["INVALID_CONSUMER"; "UNAUTHORIZED_IP"; "INVALID_USER";
                     "ACCOUNT_LOCKED"; "INVALID_PASSWORD";
                     "CONFIGURATION_ERROR"; "SYSTEM_ERROR"] ->
            Js.falsy message = false ->
            result = AuthFailure code message ->
            (false = true
             /\ result = AuthFailure "INVALID_CREDENTIALS"
                           "Username and password are required")
            \/ (false = false
                /\ ((exists token expiresAt user,
                       result = AuthSuccess token expiresAt user)
                    \/ exists code message,
                         result = AuthFailure code message
                         /\ Js.falsy message = false
                         /\ In code ["INVALID_CONSUMER"; "UNAUTHORIZED_IP";
                                     "INVALID_USER"; "ACCOUNT_LOCKED";
                                     "INVALID_PASSWORD"; "CONFIGURATION_ERROR";
                                     "SYSTEM_ERROR"]))).
  { intros code message Hcode Hmessage ->. right. split; [reflexivity|].
    right. exists code, message.
    split; [reflexivity|]. split; [exact Hmessage | exact Hcode]. }
  unfold bind at 1. unfold read at 1.
  destruct (ConsumerModel.findByPk (ctx_consumerId context) db)
    as [consumer|];
    [|intros H; injection H as <- _;
      eapply Hfail; [| |reflexivity]; [cbn; tauto | reflexivity]].
  destruct (Consumer.is_active consumer);
    [|intros H; injection H as <- _;
      eapply Hfail; [| |reflexivity]; [cbn; tauto | reflexivity]].
  cbn [negb]. unfold bind at 1.
  destruct (ip_check_reads consumer context db) as [b Hb]. rewrite Hb.
  destruct b;
    [|intros H; injection H as <- _;
      eapply Hfail; [| |reflexivity]; [cbn; tauto | reflexivity]].
  cbn [negb]. unfold bind at 1. unfold read at 1.
  destruct (UserModel.findByUsername (cred_username credentials) db)
    as [user|];
    [|intros H; injection H as <- _;
      eapply Hfail; [| |reflexivity]; [cbn; tauto | reflexivity]].
  destruct (User.is_locked user);
    [intros H; injection H as <- _;
     eapply Hfail; [| |reflexivity]; [cbn; tauto | reflexivity]|].
  destruct (bcrypt_compare ext (cred_password credentials)
              (User.password_hash user)).
  - cbn [negb]. unfold bind at 1.
    assert (Hgate :
      (exists e,
         (match User.mfa_settings user with
          | Some settings =>
              if Mfa.enabled settings
              then authenticateUser_mfa mfa credentials user settings
              else ret None
          | None => ret None
          end) db = (Thrown e, db))
      \/ (match User.mfa_settings user with
          | Some settings =>
              if Mfa.enabled settings
              then authenticateUser_mfa mfa credentials user settings
              else ret None
          | None => ret None
          end) db = (Returned None, db)).
    { destruct (User.mfa_settings user) as [settings|]; [|right; reflexivity].
      destruct (Mfa.enabled settings); [|right; reflexivity].
      left. eexists. apply authenticateUser_mfa_throws. }
    destruct Hgate as [[e ->] | ->];
      [intros H; injection H as <- _;
       eapply Hfail; [| |reflexivity]; [cbn; tauto | reflexivity]|].
    unfold authenticateUser_issue, UserModel.update, TokenModel.create,
      bind, write, read, ret. cbv beta iota.
    match goal with
    | |- context [ProviderKeyModel.findActiveKey ?d] =>
        destruct (ProviderKeyModel.findActiveKey d) as [key|]
    end.
    + match goal with
      | |- context [UserModel.findWithRoles ?i ?d] =>
          destruct (UserModel.findWithRoles i d) as [[u roles]|]
      end; intros H; injection H as <- _.
      * right. split; [reflexivity|]. left. eexists _, _, _. reflexivity.
      * eapply Hfail; [| |reflexivity]; [cbn; tauto | reflexivity].
    + intros H; injection H as <- _.
      eapply Hfail; [| |reflexivity]; [cbn; tauto | reflexivity].
  - cbn [negb].
    unfold UserModel.increment_failed_attempts, UserModel.update, bind,
      write, read, ret. cbv beta iota.
    match goal with
    | |- context [UserModel.findByPk ?i ?d] =>
        destruct (UserModel.findByPk i d) as [row|]
    end;
      destruct (orm_increment_returning ext);
      match goal with |- context [5 <=? ?n] => destruct (5 <=? n) end;
      intros H; injection H as <- _;
      (eapply Hfail; [| |reflexivity]; [cbn; tauto | reflexivity]).
Qed.

(** The statuses of the [login] controller, on a request that carries a
    consumer.  The status is 200 exactly when [authenticateUser]
    succeeds, 401 exactly when the username or the password is missing,
    403 exactly when the answer is [ACCOUNT_LOCKED], and 500 otherwise:
    a wrong password, an unknown user, an inactive consumer and an
    address that is not allowed are all answered with status 500 and the
    code [INTERNAL_ERROR], under the message of the service. *)
Theorem login_statuses (ext : Externals) (env : ProcessEnv)
    (mfa : MfaVerifiers) (rt : Runtime) (req : ControllerRequest)
    (consumer : Consumer.t) (db : Db) :
  creq_consumer req = Some consumer ->
  let context :=
    mkContext (Consumer.id consumer) (creq_ip req) (creq_user_agent req)
      (creq_x_signature req) in
  let result :=
    fst (authenticateUser ext env mfa rt (creq_credentials req) context db) in
  let response := fst (login ext env mfa rt req db) in
  snd (login ext env mfa rt req db)
  = snd (authenticateUser ext env mfa rt (creq_credentials req) context db)
  /\ In (res_status response) [200; 401; 403; 500]
  /\ (res_status response = 200 <-> auth_success result = true)
  /\ (res_status response = 401
      <-> Js.falsy (cred_username (creq_credentials req))
          || Js.falsy (cred_password (creq_credentials req)) = true)
  /\ (res_status response = 403 <-> auth_code result = Some "ACCOUNT_LOCKED")
  /\ (forall code message,
        result = AuthFailure code message ->
        In code ["INVALID_CONSUMER"; "UNAUTHORIZED_IP"; "INVALID_USER";
                 "INVALID_PASSWORD"; "CONFIGURATION_ERROR"; "SYSTEM_ERROR"] ->
        response = mkResponse 500 "INTERNAL_ERROR" message NoData).
Proof.
  intros Hconsumer. cbv zeta.
  unfold login, try_catch. rewrite Hconsumer.
  unfold bind at 1 2 3 4 5 6. cbn [on_request ret].
  destruct (authenticateUser ext env mfa rt (creq_credentials req)
              (mkContext (Consumer.id consumer) (creq_ip req)
                 (creq_user_agent req) (creq_x_signature req)) db)
    as [result db'] eqn:Hrun.
  cbn [fst snd]. split; [reflexivity|].
  destruct (authenticateUser_answers ext env mfa rt (creq_credentials req)
              _ db db' result Hrun)
    as [[Hmissing ->] | [Hpresent [(token & expiresAt & user & ->)
                                  | (code & message & -> & Hmessage & Hcode)]]].
  - rewrite Hmissing. cbn.
    split; [tauto|]. split; [split; discriminate|].
    split; [tauto|]. split; [split; discriminate|].
    intros code message H Hin. injection H as <- <-.
    cbn in Hin. intuition discriminate.
  - rewrite Hpresent. cbn.
    split; [tauto|]. split; [tauto|].
    split; [split; discriminate|]. split; [split; discriminate|].
    intros code message H. discriminate H.
  - rewrite Hpresent.
    assert (Hor : Js.or_else (Some message) "An error occurred" = message)
      by (unfold Js.or_else; rewrite Hmessage; reflexivity).
    cbn in Hcode.
    destruct Hcode as [<- | [<- | [<- | [<- | [<- | [<- | [<- | []]]]]]]];
      unfold serviceErrorResponse; rewrite Hor; cbn;
      (split; [tauto|]); (split; [split; discriminate|]);
      (split; [split; discriminate|]);
      (split; [try tauto; split; discriminate|]);
      intros code' message' H Hin; injection H as <- <-;
      try reflexivity;
      cbn in Hin; exfalso; intuition discriminate.
Qed.

(** On the sample data: alice with a wrong password is answered 500. *)
Lemma login_statuses_witness :
  fst (login (Sample.ext false) Sample.env Sample.mfa (Sample.rt 1000 "t-1")
         (mkControllerRequest (Sample.login "alice" "wrong") None false
            (Some Sample.portal) None "10.0.0.1" None None None)
         Fixture.db)
  = mkResponse 500 "INTERNAL_ERROR" "Invalid username or password" NoData.
Proof.
  destruct (login_statuses (Sample.ext false) Sample.env Sample.mfa
              (Sample.rt 1000 "t-1")
              (mkControllerRequest (Sample.login "alice" "wrong") None false
                 (Some Sample.portal) None "10.0.0.1" None None None)
              Sample.portal Fixture.db eq_refl)
    as (_ & _ & _ & _ & _ & Hrest).
  apply (Hrest "INVALID_PASSWORD" "Invalid username or password").
  - reflexivity.
  - cbn. tauto.
Defined.

(** On the sample data: alice logs out of all devices, and alice logs
    out of the session of her token [t-a]. *)
Lemma logout_controller_witness :
  logout (Sample.ext true) (Sample.rt 6000 "t-1")
    (mkControllerRequest (Sample.login "" "") None true (Some Sample.portal)
       (Some (mkUserView "u-1" "alice" None ["admin"])) "10.0.0.1" None None
       None)
    Fixture.db
  = (mkResponse 500 "INTERNAL_ERROR" "An internal system error occurred"
       NoData, Fixture.db)
  /\
  logout (Sample.ext true) (Sample.rt 6000 "t-1")
    (mkControllerRequest (Sample.login "" "")
       (Some "jwt.t-a.default-jwt-secret") false (Some Sample.portal)
       (Some (mkUserView "u-1" "alice" None ["admin"])) "10.0.0.1" None None
       None)
    Fixture.db
  = (mkResponse 500 "INTERNAL_ERROR" "Terjadi kesalahan saat proses logout"
       NoData, Fixture.db).
Proof.
  split.
  - destruct (logout_controller (Sample.ext true) (Sample.rt 6000 "t-1")
                (mkControllerRequest (Sample.login "" "") None true
                   (Some Sample.portal)
                   (Some (mkUserView "u-1" "alice" None ["admin"])) "10.0.0.1"
                   None None None)
                Fixture.db) as (_ & Hall & _).
    exact (Hall (mkUserView "u-1" "alice" None ["admin"]) Sample.portal
             eq_refl eq_refl eq_refl).
  - destruct (logout_controller (Sample.ext true) (Sample.rt 6000 "t-1")
                (mkControllerRequest (Sample.login "" "")
                   (Some "jwt.t-a.default-jwt-secret") false
                   (Some Sample.portal)
                   (Some (mkUserView "u-1" "alice" None ["admin"])) "10.0.0.1"
                   None None None)
                Fixture.db) as (Hsingle & _).
    exact (Hsingle eq_refl).
Defined.

(** ** The address allow-list *)

Lemma allow_list_refuses (ipAddress : string) (ips : list string) :
  existsb (fun allowedIp =>
             String.eqb ipAddress allowedIp || Js.includes "/0" allowedIp) ips
  = false
  <-> ~ In ipAddress ips
      /\ forall entry, In entry ips -> Js.includes "/0" entry = false.
Proof.
  induction ips as [|a rest IH]; cbn [existsb In].
  - split; [intros _; split; [tauto | intros ? []] | reflexivity].
  - rewrite orb_false_iff, orb_false_iff, IH, String.eqb_neq. split.
    + intros [[Hne Hinc] [Hnot Hrest]]. split.
      * intros [Heq | Hin]; [apply Hne; symmetry; exact Heq | exact (Hnot Hin)].
      * intros entry [<- | Hin]; [exact Hinc | exact (Hrest entry Hin)].
    + intros [Hnot Hall]. split; [split|split].
      * intros Heq. apply Hnot. left. symmetry. exact Heq.
      * apply Hall. left. reflexivity.
      * intros Hin. apply Hnot. right. exact Hin.
      * intros entry Hin. apply Hall. right. exact Hin.
Qed.

(** What [authenticateUser] can answer once the consumer and the address
    have been accepted. *)
Lemma authenticateUser_past_the_checks (ext : Externals) (env : ProcessEnv)
    (mfa : MfaVerifiers) (rt : Runtime) (credentials : Credentials)
    (context : Context) (consumer : Consumer.t) (db : Db) :
  Js.falsy (cred_username credentials) || Js.falsy (cred_password credentials)
  = false ->
  ConsumerModel.findByPk (ctx_consumerId context) db = Some consumer ->
  Consumer.is_active consumer = true ->
  (has_allowed_ips consumer = true ->
   ConsumerModel.isIpAllowed (ctx_consumerId context) (ctx_ipAddress context)
     db = true) ->
  auth_code (fst (authenticateUser ext env mfa rt credentials context db))
  <> Some "UNAUTHORIZED_IP"
  /\ auth_code (fst (authenticateUser ext env mfa rt credentials context db))
     <> Some "INVALID_CONSUMER".
Proof.
  intros Hinput Hconsumer Hactive Hip.
  destruct (authenticateUser ext env mfa rt credentials context db)
    as [result db'] eqn:Hrun.
  cbn [fst]. revert Hrun.
  unfold authenticateUser, try_catch, authenticateUser_body.
  rewrite Hinput. unfold bind at 1. unfold read at 1.
  rewrite Hconsumer, Hactive. cbn [negb]. unfold bind at 1.
  assert (Hgate :
            (if has_allowed_ips consumer
             then read (ConsumerModel.isIpAllowed (ctx_consumerId context)
                          (ctx_ipAddress context))
             else ret true) db = (Returned true, db)).
  { destruct (has_allowed_ips consumer); [|reflexivity].
    unfold read. rewrite (Hip eq_refl). reflexivity. }
  rewrite Hgate. cbn [negb]. unfold bind at 1. unfold read at 1.
  destruct (UserModel.findByUsername (cred_username credentials) db)
    as [user|]; [|intros H; injection H as <- _; cbn; split; discriminate].
  destruct (User.is_locked user); [intros H; injection H as <- _; cbn; split; discriminate|].
  destruct (bcrypt_compare ext (cred_password credentials)
              (User.password_hash user)).
  - cbn [negb]. unfold bind at 1.
    assert (Hmfa :
      (exists e,
         (match User.mfa_settings user with
          | Some settings =>
              if Mfa.enabled settings
              then authenticateUser_mfa mfa credentials user settings
              else ret None
          | None => ret None
          end) db = (Thrown e, db))
      \/ (match User.mfa_settings user with
          | Some settings =>
              if Mfa.enabled settings
              then authenticateUser_mfa mfa credentials user settings
              else ret None
          | None => ret None
          end) db = (Returned None, db)).
    { destruct (User.mfa_settings user) as [settings|]; [|right; reflexivity].
      destruct (Mfa.enabled settings); [|right; reflexivity].
      left. eexists. apply authenticateUser_mfa_throws. }
    destruct Hmfa as [[e ->] | ->]; [intros H; injection H as <- _; cbn; split; discriminate|].
    unfold authenticateUser_issue, UserModel.update, TokenModel.create,
      bind, write, read, ret. cbv beta iota.
    match goal with
    | |- context [ProviderKeyModel.findActiveKey ?d] =>
        destruct (ProviderKeyModel.findActiveKey d) as [key|]
    end; [|intros H; injection H as <- _; cbn; split; discriminate].
    match goal with
    | |- context [UserModel.findWithRoles ?i ?d] =>
        destruct (UserModel.findWithRoles i d) as [[u roles]|]
    end; intros H; injection H as <- _; cbn; split; discriminate.
  - cbn [negb].
    unfold UserModel.increment_failed_attempts, UserModel.update, bind,
      write, read, ret. cbv beta iota.
    match goal with
    | |- context [UserModel.findByPk ?i ?d] =>
        destruct (UserModel.findByPk i d) as [row|]
    end;
      destruct (orm_increment_returning ext);
      match goal with |- context [5 <=? ?n] => destruct (5 <=? n) end;
      intros H; injection H as <- _; cbn; split; discriminate.
Qed.

(** The address check of the login.  For an active consumer with a
    non-empty allow-list, [authenticateUser] answers [UNAUTHORIZED_IP]
    exactly when the caller's address is not literally one of the entries
    and no entry contains the text [/0]; it then changes nothing.  So an
    entry that contains [/0] admits every address, and any other entry,
    a range included, admits only the address spelled exactly like it. *)
Theorem login_address_check (ext : Externals) (env : ProcessEnv)
    (mfa : MfaVerifiers) (rt : Runtime) (credentials : Credentials)
    (context : Context) (consumer : Consumer.t) (ips : list string)
    (db : Db) :
  Js.falsy (cred_username credentials) || Js.falsy (cred_password credentials)
  = false ->
  ConsumerModel.findByPk (ctx_consumerId context) db = Some consumer ->
  Consumer.is_active consumer = true ->
  Consumer.allowed_ips consumer = Some ips ->
  ips <> [] ->
  (auth_code (fst (authenticateUser ext env mfa rt credentials context db))
   = Some "UNAUTHORIZED_IP"
   <-> ~ In (ctx_ipAddress context) ips
       /\ forall entry, In entry ips -> Js.includes "/0" entry = false)
  /\ (auth_code (fst (authenticateUser ext env mfa rt credentials context db))
      = Some "UNAUTHORIZED_IP" ->
      authenticateUser ext env mfa rt credentials context db
      = (AuthFailure "UNAUTHORIZED_IP"
           "Access from this IP address is not allowed", db)).
Proof.
  intros Hinput Hconsumer Hactive Hips Hnonempty.
  assert (Hhas : has_allowed_ips consumer = true).
  { unfold has_allowed_ips. rewrite Hips.
    destruct ips; [contradiction Hnonempty; reflexivity | reflexivity]. }
  assert (Hcheck :
            ConsumerModel.isIpAllowed (ctx_consumerId context)
              (ctx_ipAddress context) db
            = existsb (fun allowedIp =>
                         String.eqb (ctx_ipAddress context) allowedIp
                         || Js.includes "/0" allowedIp) ips).
  { unfold ConsumerModel.isIpAllowed. rewrite Hconsumer, Hactive, Hips.
    cbn [negb].
    destruct ips; [contradiction Hnonempty; reflexivity | reflexivity]. }
  destruct (existsb (fun allowedIp =>
                       String.eqb (ctx_ipAddress context) allowedIp
                       || Js.includes "/0" allowedIp) ips) eqn:Hallowed.
  - destruct (authenticateUser_past_the_checks ext env mfa rt credentials
                context consumer db Hinput Hconsumer Hactive
                (fun _ => Hcheck)) as [Hnot _].
    split; [split|]; intros H.
    + contradiction (Hnot H).
    + apply allow_list_refuses in H. rewrite H in Hallowed. discriminate.
    + contradiction (Hnot H).
  - assert (Hrun :
              authenticateUser ext env mfa rt credentials context db
              = (AuthFailure "UNAUTHORIZED_IP"
                   "Access from this IP address is not allowed", db)).
    { unfold authenticateUser, try_catch, authenticateUser_body.
      rewrite Hinput. unfold bind at 1. unfold read at 1.
      rewrite Hconsumer, Hactive, Hhas. cbn [negb]. unfold bind at 1.
      unfold read at 1. rewrite Hcheck. reflexivity. }
    rewrite Hrun. cbn [fst auth_code].
    split; [|intros _; reflexivity].
    split; [intros _; apply allow_list_refuses; exact Hallowed | reflexivity].
Qed.

(** On the sample data: the back office lists a range, and a caller
    inside that range is refused. *)
Lemma login_address_check_witness :
  authenticateUser (Sample.ext false) Sample.env Sample.mfa
    (Sample.rt 1000 "t-1") (Sample.login "alice" "correct horse")
    (mkContext "c-3" "10.1.2.3" None None)
    (mkDb [Sample.alice 0]
       [Consumer.mk "c-3" "reports" "reports-public-key"
          (Some ["10.1.0.0/16"]) true]
       [] [Sample.key1] [])
  = (AuthFailure "UNAUTHORIZED_IP"
       "Access from this IP address is not allowed",
     mkDb [Sample.alice 0]
       [Consumer.mk "c-3" "reports" "reports-public-key"
          (Some ["10.1.0.0/16"]) true]
       [] [Sample.key1] []).
Proof.
  destruct (login_address_check (Sample.ext false) Sample.env Sample.mfa
              (Sample.rt 1000 "t-1") (Sample.login "alice" "correct horse")
              (mkContext "c-3" "10.1.2.3" None None)
              (Consumer.mk "c-3" "reports" "reports-public-key"
                 (Some ["10.1.0.0/16"]) true)
              ["10.1.0.0/16"]
              (mkDb [Sample.alice 0]
                 [Consumer.mk "c-3" "reports" "reports-public-key"
                    (Some ["10.1.0.0/16"]) true]
                 [] [Sample.key1] [])
              eq_refl eq_refl eq_refl eq_refl
              ltac:(discriminate)) as [Hiff Hrun].
  apply Hrun. apply Hiff. split.
  - intros [H | []]. discriminate H.
  - intros entry [<- | []]. reflexivity.
Defined.
